(** * Catalyst content server: deployment, redirect client, blacklist overlay.

    A shallow embedding of
    - [content/src/service/ServiceImpl.ts] (the deploy orchestrator),
    - [content/src/service/synchronization/clients/contentserver/RedirectContentServerClient.ts],
    - [content/src/blacklist/BlacklistServiceDecorator.ts],
    and of the validation predicates exercised by
    [content/test/unit/service/validations/Validations.spec.ts].

    Promises are modelled by their settled value, [await] by sequencing in a
    state-and-exception monad over the server's mutable world. *)

From Stdlib Require Import ZArith QArith DecimalString.
From stdpp Require Import base option list strings gmap.

Local Open Scope Z_scope.
Local Open Scope string_scope.
Local Open Scope list_scope.

(* ===================================================================== *)
(** * JavaScript values used by the sources                               *)
(* ===================================================================== *)

(** A Node.js [Buffer]. *)
Definition Buffer := list Byte.byte.

(** What a [throw] carries: [new Error(msg)], or the [TypeError] the
    runtime raises by itself. *)
Inductive JsError :=
| Error (message : string)
| TypeError (message : string).

(** Completion of a call: a value, or a thrown error (for an [async]
    function: the promise is fulfilled, or rejected). *)
Inductive Outcome (A : Type) :=
| Ok (a : A)
| Throw (e : JsError).
Arguments Ok {A} a.
Arguments Throw {A} e.

#[global] Instance JsError_eq_dec : EqDecision JsError.
Proof. solve_decision. Defined.

(** ** [Map<K, V>]: keys are unique and iterate in insertion order. *)
Module JsMap.
Section JsMap.
Context {K V : Type} `{EqDecision K}.

Definition t := list (K * V).

(** [m.get(k)]; [None] is [undefined]. *)
Fixpoint get (k : K) (m : list (K * V)) : option V :=
  match m with
  | [] => None
  | (k', v) :: rest => if decide (k' = k) then Some v else get k rest
  end.

(** [m.has(k)]. *)
Definition has (k : K) (m : list (K * V)) : bool := bool_decide (is_Some (get k m)).

(** [m.set(k, v)]: an existing key keeps its place and takes the new
    value, a new key goes last. *)
Fixpoint set (k : K) (v : V) (m : list (K * V)) : list (K * V) :=
  match m with
  | [] => [(k, v)]
  | (k', v') :: rest =>
      if decide (k' = k) then (k, v) :: rest else (k', v') :: set k v rest
  end.

(** [new Map(entries)]. *)
Definition of_entries (entries : list (K * V)) : list (K * V) :=
  foldl (fun m kv => set kv.1 kv.2 m) [] entries.

(** [Array.from(m.keys())], [Array.from(m.values())]. *)
Definition keys (m : list (K * V)) : list K := m.*1.
Definition values (m : list (K * V)) : list V := m.*2.
End JsMap.
End JsMap.

(** [!x] for [x : Boolean | undefined]. *)
Definition js_not (x : option bool) : bool :=
  match x with
  | Some true => false
  | Some false | None => true
  end.

(** [array.reduce(f)] without an initial value: a [TypeError] on the
    empty array, otherwise the fold seeded with the first element. *)
Definition reduce_no_init {A : Type} (f : A -> A -> A) (l : list A) : Outcome A :=
  match l with
  | [] => Throw (TypeError "Reduce of empty array with no initial value")
  | x :: rest => Ok (foldl f x rest)
  end.

(* ===================================================================== *)
(** * Data model ([Entity.ts], [Service.ts])                              *)
(* ===================================================================== *)

Definition EntityId := string.
Definition FileHash := string.
Definition Pointer := string.
Definition EntityType := string.
Definition EthAddress := string.
Definition Signature := string.
Definition ServerName := string.
Definition Timestamp := Z.

(** Modelled from the spec: the constant [ENTITY_FILE_NAME] is imported from
    [Service.ts], which is not among the sources; the spec names the file
    ("Locate the file named entity.json among files"). *)
Definition ENTITY_FILE_NAME : string := "entity.json".

Record File := mkFile {
  file_name : string;
  file_content : Buffer;
}.

Record Entity := mkEntity {
  entity_id : EntityId;
  entity_type : EntityType;
  entity_pointers : list Pointer;
  entity_timestamp : Timestamp;
  (** [content?: Map<string, FileHash>]; [None] is [undefined] *)
  entity_content : option (list (string * FileHash));
  entity_metadata : option string;
}.

Record AuditInfo := mkAuditInfo {
  deployedTimestamp : Timestamp;
  audit_ethAddress : EthAddress;
  audit_signature : Signature;
}.

(** [ServerStatus]; [lastImmutableTime] is [None] when the object literal
    has no such property. *)
Record ServerStatus := mkServerStatus {
  status_name : ServerName;
  status_version : string;
  status_currentTime : Timestamp;
  status_lastImmutableTime : option Timestamp;
}.

Record CommitResult := mkCommitResult {
  couldCommit : bool;
  entitiesDeleted : list EntityId;
}.

(** [const enum StorageCategory]. *)
Module StorageCategory.
Definition CONTENTS : string := "contents".
Definition PROOFS : string := "proofs".
Definition POINTERS : string := "pointers".
End StorageCategory.

(* ===================================================================== *)
(** * Collaborators of the service                                        *)
(* ===================================================================== *)

(** The classes [ServiceImpl] is constructed with or calls statically, and
    whose code is not among the sources.  Each is an interface: the service
    is verified against any implementation.

    [Validation] is an accumulator: every [validateX] call adds its findings
    to the object's error list, read back by [getErrors()].  The methods
    below give the findings of each call. *)
Class Collaborators := {
  (** [Hashing.calculateHash] *)
  calculateHash : File -> FileHash;
  (** [EntityFactory.fromFile], [EntityFactory.fromBufferWithId] *)
  fromFile : File -> EntityId -> Outcome Entity;
  fromBufferWithId : Buffer -> EntityId -> Outcome Entity;
  (** [JSON.stringify] of an audit record, as a buffer *)
  stringifyAuditInfo : AuditInfo -> Buffer;
  (** [Validation] *)
  validateSignature : EntityId -> EthAddress -> Signature -> list string;
  validateRequestSize : list File -> list string;
  validateEntity : Entity -> list string;
  validateAccess : list Pointer -> EthAddress -> EntityType -> list string;
  (** the verdict of [validateFreshDeployment] on the entities it fetched *)
  freshDeploymentErrors : Entity -> list Entity -> list string;
  validateType : Entity -> list string;
  validateHashes :
    Entity -> list (FileHash * File) -> list (FileHash * bool) -> list string;
  (** [PointerManager] *)
  PointerState : Type;
  getEntityInPointer : PointerState -> EntityType -> Pointer -> option EntityId;
  getActivePointers : PointerState -> EntityType -> list Pointer;
  tryToCommitPointers : PointerState -> Entity -> CommitResult * PointerState;
  (** [HistoryManager] *)
  HistoryState : Type;
  newEntityDeployment :
    HistoryState -> ServerName -> Entity -> Timestamp -> HistoryState;
}.

(* ===================================================================== *)
(** * The mutable world and the monad of the service                      *)
(* ===================================================================== *)

(** A call that changes state held by the service or by a collaborator. *)
Inductive Effect :=
| StorageStore (category : string) (id : string) (content : Buffer)
| PointerCommit (id : EntityId)
| HistoryAppend (server : ServerName) (id : EntityId) (ts : Timestamp)
| CacheSet (id : EntityId)
| CacheDelete (id : EntityId)
| AnalyticsRecord (server : ServerName) (id : EntityId) (address : EthAddress).

Section World.
Context `{Collaborators}.

Record World := mkWorld {
  (** [ContentStorage]: category and key to bytes *)
  storage : gmap (string * string) Buffer;
  pointerManager : PointerState;
  historyManager : HistoryState;
  (** [private entities: Map<EntityId, Entity>], the in-memory cache *)
  entities : gmap EntityId Entity;
  (** what [ContentAnalytics.recordDeployment] received *)
  analytics : list (ServerName * Entity * EthAddress);
  (** the reading of [Date.now()] *)
  clock : Timestamp;
  (** the state-changing calls made so far, oldest first *)
  effects : list Effect;
}.

Definition M (A : Type) : Type := World -> Outcome A * World.

Definition ret {A} (a : A) : M A := fun w => (Ok a, w).
Definition throw {A} (e : JsError) : M A := fun w => (Throw e, w).
Definition bind {A B} (m : M A) (k : A -> M B) : M B :=
  fun w =>
    match m w with
    | (Ok a, w') => k a w'
    | (Throw e, w') => (Throw e, w')
    end.
Definition lift {A} (o : Outcome A) : M A := fun w => (o, w).
Definition get_world : M World := fun w => (Ok w, w).
Definition modify (f : World -> World) : M unit := fun w => (Ok tt, f w).
(** [for (const x of l) await f(x)]; also [Promise.all(l.map(f))] when
    the calls touch distinct keys. *)
Fixpoint mapM {A B} (f : A -> M B) (l : list A) : M (list B) :=
  match l with
  | [] => ret []
  | x :: rest =>
      bind (f x) (fun y => bind (mapM f rest) (fun ys => ret (y :: ys)))
  end.

Definition log (e : Effect) (w : World) : World :=
  mkWorld (storage w) (pointerManager w) (historyManager w) (entities w)
          (analytics w) (clock w) (effects w ++ [e]).
End World.

Declare Scope service_scope.
Delimit Scope service_scope with service.
Notation "x <- m ;; k" := (bind m (fun x => k))
  (at level 100, m at next level, right associativity) : service_scope.
Notation "m ;;; k" := (bind m (fun _ => k))
  (at level 100, right associativity) : service_scope.

(* ===================================================================== *)
(** * [ServiceImpl.ts]                                                    *)
(* ===================================================================== *)

Module ServiceImpl.
Section ServiceImpl.
Context `{Collaborators}.
Local Open Scope service_scope.

(** The constructor's immutable arguments: the name answered by
    [nameKeeper.getServerName()] and the [ignoreValidationErrors] flag. *)
Record t := mk {
  serverName : ServerName;
  ignoreValidationErrors : bool;
}.

(** ** Calls on the collaborators that hold state *)

(** [this.storage.store(category, id, content)] *)
Definition storage_store (category id : string) (content : Buffer) : M unit :=
  modify (fun w =>
    log (StorageStore category id content)
      (mkWorld (<[(category, id) := content]> (storage w)) (pointerManager w)
               (historyManager w) (entities w) (analytics w) (clock w)
               (effects w))).

(** [this.storage.exists(category, id)] *)
Definition storage_exists (category id : string) : M bool :=
  fun w => (Ok (bool_decide (is_Some (storage w !! (category, id)))), w).

(** [this.entities.set(id, entity)] *)
Definition entities_set (id : EntityId) (entity : Entity) (w : World) : World :=
  log (CacheSet id)
    (mkWorld (storage w) (pointerManager w) (historyManager w)
             (<[id := entity]> (entities w)) (analytics w) (clock w)
             (effects w)).

(** [this.entities.delete(entityId)] *)
Definition entities_delete (id : EntityId) : M unit :=
  modify (fun w =>
    log (CacheDelete id)
      (mkWorld (storage w) (pointerManager w) (historyManager w)
               (delete id (entities w)) (analytics w) (clock w) (effects w))).

(** [this.pointerManager.tryToCommitPointers(entity)] *)
Definition pointerManager_tryToCommitPointers (entity : Entity) : M CommitResult :=
  fun w =>
    let '(result, pm) := tryToCommitPointers (pointerManager w) entity in
    (Ok result,
     log (PointerCommit (entity_id entity))
       (mkWorld (storage w) pm (historyManager w) (entities w) (analytics w)
                (clock w) (effects w))).

(** [this.historyManager.newEntityDeployment(serverName, entity, timestamp)] *)
Definition historyManager_newEntityDeployment
    (server : ServerName) (entity : Entity) (ts : Timestamp) : M unit :=
  modify (fun w =>
    log (HistoryAppend server (entity_id entity) ts)
      (mkWorld (storage w) (pointerManager w)
               (newEntityDeployment (historyManager w) server entity ts)
               (entities w) (analytics w) (clock w) (effects w))).

(** [this.analytics.recordDeployment(serverName, entity, ethAddress)] *)
Definition analytics_recordDeployment
    (server : ServerName) (entity : Entity) (address : EthAddress) : M unit :=
  modify (fun w =>
    log (AnalyticsRecord server (entity_id entity) address)
      (mkWorld (storage w) (pointerManager w) (historyManager w) (entities w)
               (analytics w ++ [(server, entity, address)]) (clock w)
               (effects w))).

(** A [() => Timestamp]: [Date.now], or [() => deploymentTimestamp].  It
    reads the world (the clock) and neither writes nor throws. *)
Definition TimestampCalculator := World -> Timestamp.

(** [Date.now] *)
Definition Date_now : TimestampCalculator := clock.

(** [timestampCalculator()] *)
Definition call (timestampCalculator : TimestampCalculator) : M Timestamp :=
  fun w => (Ok (timestampCalculator w), w).

(** ** The methods *)

(** [resolveCategory(storageCategory, type?)] *)
Definition resolveCategory (storageCategory : string) (type : option EntityType) : string :=
  storageCategory +:+
    (match type with
     | Some ty =>
         if bool_decide (storageCategory = StorageCategory.POINTERS)
            && negb (bool_decide (ty = ""))
         then "-" +:+ ty else ""
     | None => ""
     end).

(** [getEntityById(id)]: the cache first, then the storage; a failed read
    or parse is swallowed by the empty [catch] and gives [undefined]. *)
Definition getEntityById (id : EntityId) : M (option Entity) :=
  fun w =>
    match entities w !! id with
    | Some entity => (Ok (Some entity), w)
    | None =>
        match storage w !! (StorageCategory.CONTENTS, id) with
        | Some buffer =>
            match fromBufferWithId buffer id with
            | Ok entity => (Ok (Some entity), entities_set id entity w)
            | Throw _ => (Ok None, w)
            end
        | None => (Ok None, w)
        end
    end.

(** [array.filter((elem, pos, array) => array.indexOf(elem) == pos)] *)
Fixpoint removeDuplicates (seen : list EntityId) (ids : list EntityId) : list EntityId :=
  match ids with
  | [] => []
  | id :: rest =>
      if decide (id ∈ seen) then removeDuplicates seen rest
      else id :: removeDuplicates (id :: seen) rest
  end.

(** [getEntitiesByIds(type, ids)] *)
Definition getEntitiesByIds (type : EntityType) (ids : list EntityId) : M (list Entity) :=
  found <- mapM getEntityById (removeDuplicates [] ids) ;;
  ret (omap id found).

(** [getEntitiesByPointers(type, pointers)] *)
Definition getEntitiesByPointers (type : EntityType) (pointers : list Pointer) : M (list Entity) :=
  w <- get_world ;;
  let entityIds := map (getEntityInPointer (pointerManager w) type) pointers in
  getEntitiesByIds type (omap id entityIds).

(** [isContentAvailable(fileHashes)] *)
Definition isContentAvailable (fileHashes : list FileHash) : M (list (FileHash * bool)) :=
  answers <- mapM (fun fileHash =>
                     exists_ <- storage_exists (resolveCategory StorageCategory.CONTENTS None) fileHash ;;
                     ret (fileHash, exists_)) fileHashes ;;
  ret (JsMap.of_entries answers).

(** [findEntityFile(files)] *)
Definition findEntityFile (files : list File) : Outcome File :=
  let filesWithName := filter (fun file => file_name file = ENTITY_FILE_NAME) files in
  match filesWithName with
  | [] =>
      Throw (Error ("Failed to find the entity file. Please make sure that it is named '"
                    +:+ ENTITY_FILE_NAME +:+ "'."))
  | [entityFile] => Ok entityFile
  | _ :: _ :: _ =>
      Throw (Error ("Found more than one file called '" +:+ ENTITY_FILE_NAME
                    +:+ "'. Please make sure you upload only one with that name."))
  end.

(** [storeEntityContent(hashes, alreadyStoredHashes, entityId, couldCommit)] *)
Definition storeEntityContent
    (hashes : list (FileHash * File)) (alreadyStoredHashes : list (FileHash * bool))
    (entityId : EntityId) (couldCommit : bool) : M unit :=
  if couldCommit then
    (* If entity was commited, then store all it's content (that isn't already stored) *)
    let toStore :=
      filter (fun entry => js_not (JsMap.get entry.1 alreadyStoredHashes) = true) hashes in
    mapM (fun entry =>
            storage_store (resolveCategory StorageCategory.CONTENTS None)
                          entry.1 (file_content entry.2)) toStore ;;;
    ret tt
  else
    (* If entity wasn't commited, then only store the entity file *)
    if js_not (JsMap.get entityId alreadyStoredHashes) then
      match JsMap.get entityId hashes with
      | Some entityFile =>
          storage_store (resolveCategory StorageCategory.CONTENTS None)
                        entityId (file_content entityFile)
      | None => throw (TypeError "Cannot read property 'content' of undefined")
      end
    else ret tt.

(** Modelled from the spec: [Hashing.calculateHashes] is not among the
    sources; "Hash all files" gives the [Map<FileHash, File>] from each
    file's hash to the file. *)
Definition calculateHashes (files : list File) : list (FileHash * File) :=
  JsMap.of_entries (map (fun file => (calculateHash file, file)) files).

(** Modelled from the spec: [Validation.validateFreshDeployment] is not
    among the sources; "for each pointer of E, fetch the current active
    entity and fail if [it is] strictly newer".  The fetch is the callback
    the service passes, [getEntitiesByPointers]. *)
Definition validateFreshDeployment
    (entity : Entity) (fetch : EntityType -> list Pointer -> M (list Entity))
    : M (list string) :=
  current <- fetch (entity_type entity) (entity_pointers entity) ;;
  ret (freshDeploymentErrors entity current).

(** Lines 105-132 of [deployEntityWithServerAndTimestamp]: the commit. *)
Definition commitDeployment
    (this : t) (entity : Entity)
    (hashes : list (FileHash * File)) (alreadyStoredHashes : list (FileHash * bool))
    (entityId : EntityId) (ethAddress : EthAddress) (signature : Signature)
    (server : ServerName) (timestampCalculator : TimestampCalculator) : M Timestamp :=
  commitResult <- pointerManager_tryToCommitPointers entity ;;
  (* Delete entities that the new deployment would overwrite *)
  mapM entities_delete (entitiesDeleted commitResult) ;;;
  (* Store the entity's content *)
  storeEntityContent hashes alreadyStoredHashes entityId (couldCommit commitResult) ;;;
  (* Calculate timestamp *)
  deploymentTimestamp <- call timestampCalculator ;;
  (* Save audit information *)
  let auditInfo := mkAuditInfo deploymentTimestamp ethAddress signature in
  storage_store (resolveCategory StorageCategory.PROOFS None) (entity_id entity)
                (stringifyAuditInfo auditInfo) ;;;
  (* Add the new deployment to history *)
  historyManager_newEntityDeployment server entity deploymentTimestamp ;;;
  (* Record deployment for analytics *)
  analytics_recordDeployment (serverName this) entity ethAddress ;;;
  ret deploymentTimestamp.

(** Lines 72-103: the validations, then the commit. *)
Definition validateAndCommit
    (this : t) (files : list File) (entityFile : File)
    (entityId : EntityId) (ethAddress : EthAddress) (signature : Signature)
    (server : ServerName) (timestampCalculator : TimestampCalculator)
    (checkFreshness : bool) : M Timestamp :=
  (* const validation = new Validation() *)
  let errors := [] in
  let errors := errors ++ validateSignature entityId ethAddress signature in
  let errors := errors ++ validateRequestSize files in
  (* Parse entity file into an Entity *)
  entity <- lift (fromFile entityFile entityId) ;;
  let errors := errors ++ validateEntity entity in
  let errors := errors ++ validateAccess (entity_pointers entity) ethAddress (entity_type entity) in
  fresh <- (if checkFreshness
            then validateFreshDeployment entity getEntitiesByPointers
            else ret []) ;;
  let errors := errors ++ fresh in
  let errors := errors ++ validateType entity in
  (* Hash all files, and validate them *)
  let hashes := calculateHashes files in
  alreadyStoredHashes <- isContentAvailable (JsMap.keys hashes) ;;
  let errors := errors ++ validateHashes entity hashes alreadyStoredHashes in
  if negb (ignoreValidationErrors this) && bool_decide (0 < length errors)%nat then
    throw (Error (String.concat (String (Ascii.ascii_of_nat 10) EmptyString) errors))
  else
    commitDeployment this entity hashes alreadyStoredHashes entityId ethAddress
                     signature server timestampCalculator.

(** [deployEntityWithServerAndTimestamp] *)
Definition deployEntityWithServerAndTimestamp
    (this : t) (files : list File)
    (entityId : EntityId) (ethAddress : EthAddress) (signature : Signature)
    (server : ServerName) (timestampCalculator : TimestampCalculator)
    (checkFreshness : bool) : M Timestamp :=
  (* Find entity file and make sure its hash is the expected *)
  entityFile <- lift (findEntityFile files) ;;
  if negb (bool_decide (entityId = calculateHash entityFile)) then
    throw (Error "Entity file's hash didn't match the signed entity id.")
  else
    validateAndCommit this files entityFile entityId ethAddress signature
                      server timestampCalculator checkFreshness.

(** [deployEntity] *)
Definition deployEntity
    (this : t) (files : list File)
    (entityId : EntityId) (ethAddress : EthAddress) (signature : Signature)
    : M Timestamp :=
  deployEntityWithServerAndTimestamp this files entityId ethAddress signature
    (serverName this) Date_now true.

(** [deployEntityFromAnotherContentServer]: resolves to [void]. *)
Definition deployEntityFromAnotherContentServer
    (this : t) (files : list File)
    (entityId : EntityId) (ethAddress : EthAddress) (signature : Signature)
    (server : ServerName) (deploymentTimestamp : Timestamp) : M unit :=
  deployEntityWithServerAndTimestamp this files entityId ethAddress signature
    server (fun _ => deploymentTimestamp) false ;;;
  ret tt.

(** [getStatus] *)
Definition getStatus (this : t) : M ServerStatus :=
  now <- call Date_now ;;
  ret {| status_name := serverName this;
         status_version := "1.0";
         status_currentTime := now;
         status_lastImmutableTime := None |}.

End ServiceImpl.
End ServiceImpl.

(* ===================================================================== *)
(** * [RedirectContentServerClient.ts]                                    *)
(* ===================================================================== *)

(** A promise, by how it settles. *)
Inductive Promise (A : Type) :=
| Fulfilled (a : A)
| Rejected (e : JsError).
Arguments Fulfilled {A} a.
Arguments Rejected {A} e.

Record DeploymentEvent := mkDeploymentEvent {
  event_serverName : ServerName;
  event_entityId : EntityId;
  event_entityType : EntityType;
  event_timestamp : Timestamp;
}.
Definition DeploymentHistory := list DeploymentEvent.

(** The abstract class [ContentServerClient], as the redirect client uses
    the other servers of the cluster: each method either throws while the
    call is being issued ([Throw]), or returns a promise ([Ok]) that is
    later fulfilled or rejected. *)
Record ContentServerClient := mkContentServerClient {
  client_getHistory :
    Timestamp -> option ServerName -> option Timestamp -> Outcome (Promise DeploymentHistory);
  client_getStatus : Outcome (Promise ServerStatus);
  client_getAuditInfo : EntityType -> EntityId -> Outcome (Promise AuditInfo);
  client_getEntity : EntityType -> EntityId -> Outcome (Promise Entity);
  client_getContentFile : FileHash -> Outcome (Promise File);
}.

(** [ContentCluster], by what [getAllActiveServersInCluster()] answers when
    the call is made. *)
Record ContentCluster := mkContentCluster {
  getAllActiveServersInCluster : list ContentServerClient;
}.

Module RedirectContentServerClient.

Record t := mk {
  cluster : ContentCluster;
  name : ServerName;
  lastKnownTimestamp : Timestamp;
}.

(** [getRedirectClient(cluster, name, lastKnownTimestamp)] *)
Definition getRedirectClient
    (cluster : ContentCluster) (name : ServerName) (lastKnownTimestamp : Timestamp) : t :=
  mk cluster name lastKnownTimestamp.

(** [redirectCall(call)]: the [try] around [return call(server)] catches
    what [call] throws, not a rejection of the promise it returns. *)
Fixpoint redirectCall_loop {T : Type}
    (call : ContentServerClient -> Outcome T) (servers : list ContentServerClient)
    : Outcome T :=
  match servers with
  | [] => Throw (Error "Failed to distribute call among reachable servers")
  | server :: rest =>
      match call server with
      | Ok result => Ok result
      | Throw _ => redirectCall_loop call rest
      end
  end.

Definition redirectCall {T : Type} (this : t) (call : ContentServerClient -> Outcome T)
    : Outcome T :=
  redirectCall_loop call (getAllActiveServersInCluster (cluster this)).

Definition getHistory (this : t) (from : Timestamp)
    (serverName : option ServerName) (to : option Timestamp)
    : Outcome (Promise DeploymentHistory) :=
  redirectCall this (fun server => client_getHistory server from serverName to).

Definition getStatus (this : t) : Outcome (Promise ServerStatus) :=
  let status := {| status_name := name this;
                   status_version := "Unknown";
                   status_currentTime := lastKnownTimestamp this;
                   status_lastImmutableTime := Some (-1) |} in
  Ok (Fulfilled status).

Definition getAuditInfo (this : t) (entityType : EntityType) (entityId : string)
    : Outcome (Promise AuditInfo) :=
  redirectCall this (fun server => client_getAuditInfo server entityType entityId).

Definition getEntity (this : t) (entityType : EntityType) (entityId : string)
    : Outcome (Promise Entity) :=
  redirectCall this (fun server => client_getEntity server entityType entityId).

Definition getContentFile (this : t) (fileHash : string) : Outcome (Promise File) :=
  redirectCall this (fun server => client_getContentFile server fileHash).

(** [updateTimestamp(timestamp)]: the client after the call, and the
    promise returned. *)
Definition updateTimestamp (this : t) (timestamp : option Timestamp) : t * Promise unit :=
  (* We won't update the timestamp until we can connect to the server again *)
  (this, Fulfilled tt).

Definition isActive (this : t) : bool := false.

(** The result of a call spread over the active servers as the spec words
    it: the first server whose call succeeds answers. *)
Fixpoint firstSuccess {T : Type}
    (call : ContentServerClient -> Outcome (Promise T)) (servers : list ContentServerClient)
    : option T :=
  match servers with
  | [] => None
  | server :: rest =>
      match call server with
      | Ok (Fulfilled result) => Some result
      | _ => firstSuccess call rest
      end
  end.

Definition failed {T : Type} (result : Outcome (Promise T)) : Prop :=
  match result with
  | Ok (Fulfilled _) => False
  | _ => True
  end.

(** "fans out to the currently-Active peers and returns the first success,
    failing only when no active peer succeeds" *)
Definition returnsFirstSuccess {T : Type}
    (this : t) (call : ContentServerClient -> Outcome (Promise T))
    (result : Outcome (Promise T)) : Prop :=
  match firstSuccess call (getAllActiveServersInCluster (cluster this)) with
  | Some answer => result = Ok (Fulfilled answer)
  | None => failed result
  end.

(** No active server answers [call] with a promise that is rejected later:
    each either throws while the call is issued, or fulfils its promise. *)
Definition noLateRejection {T : Type}
    (this : t) (call : ContentServerClient -> Outcome (Promise T)) : Prop :=
  forall server, server ∈ getAllActiveServersInCluster (cluster this) ->
                 forall e, call server ≠ Ok (Rejected e).

(** What [getStatus] answers without asking any server. *)
Definition unknownStatus (this : t) : ServerStatus :=
  {| status_name := name this;
     status_version := "Unknown";
     status_currentTime := lastKnownTimestamp this;
     status_lastImmutableTime := Some (-1) |}.

End RedirectContentServerClient.

(* ===================================================================== *)
(** * [BlacklistServiceDecorator.ts]                                      *)
(* ===================================================================== *)

(** [Blacklist] and the target builders of [BlacklistTarget.ts], neither
    among the sources: an interface. *)
Class Blacklist := {
  BlacklistTarget : Type;
  buildAddressTarget : EthAddress -> BlacklistTarget;
  buildContentTarget : FileHash -> BlacklistTarget;
  buildPointerTarget : EntityType -> Pointer -> BlacklistTarget;
  buildEntityTarget : EntityType -> EntityId -> BlacklistTarget;
  (** [blacklist.areTargetsBlacklisted(targets)], a [Map<BlacklistTarget, boolean>] *)
  areTargetsBlacklisted : list BlacklistTarget -> list (BlacklistTarget * bool);
}.

Module BlacklistServiceDecorator.
Section BlacklistServiceDecorator.
Context `{Collaborators} `{Blacklist}.
Local Open Scope service_scope.

(** The decorated [MetaverseContentService]. *)
Record MetaverseContentService := mkService {
  service_deployEntity :
    list File -> EntityId -> EthAddress -> Signature -> M Timestamp;
  service_getStatus : M ServerStatus;
}.

(** [areBlacklisted(...targets)]: "Return true if any of the given targets
    is blacklisted" *)
Definition areBlacklisted (targets : list BlacklistTarget) : Outcome bool :=
  let result := areTargetsBlacklisted targets in
  reduce_no_init (fun accum currentValue => accum || currentValue) (JsMap.values result).

Definition getStatus (service : MetaverseContentService) : M ServerStatus :=
  service_getStatus service.

Definition deployEntity
    (service : MetaverseContentService) (files : list File)
    (entityId : EntityId) (ethAddress : EthAddress) (signature : Signature)
    : M Timestamp :=
  (* No deployments from blacklisted eth addresses are allowed *)
  addressBlacklisted <- lift (areBlacklisted [buildAddressTarget ethAddress]) ;;
  if addressBlacklisted : bool then
    throw (Error ("Can't allow a deployment from address '" +:+ ethAddress
                  +:+ "' since it was blacklisted."))
  else
  (* Find the entity file *)
  entityFile <- lift (ServiceImpl.findEntityFile files) ;;
  (* Parse entity file into an Entity *)
  entity <- lift (fromFile entityFile entityId) ;;
  (* No deployments with blacklisted hash are allowed *)
  let contentTargets :=
    map buildContentTarget
        (match entity_content entity with
         | Some content => JsMap.values content
         | None => []
         end) in
  contentBlacklisted <- lift (areBlacklisted contentTargets) ;;
  if contentBlacklisted : bool then
    throw (Error "Can't allow the deployment since the entity contains a blacklisted content.")
  else
  (* No deployments on blacklisted pointers are allowed *)
  let pointerTargets :=
    map (fun pointer => buildPointerTarget (entity_type entity) pointer)
        (entity_pointers entity) in
  pointerBlacklisted <- lift (areBlacklisted pointerTargets) ;;
  if pointerBlacklisted : bool then
    throw (Error "Can't allow the deployment since the entity contains a blacklisted pointer.")
  else
  (* If all validations passed, then deploy the entity *)
  service_deployEntity service files entityId ethAddress signature.

End BlacklistServiceDecorator.
End BlacklistServiceDecorator.

(* ===================================================================== *)
(** * The validation predicates ([Validations], exercised by
      [Validations.spec.ts])                                              *)
(* ===================================================================== *)

Module Validations.

(** [ms('10m')], [ms('5m')], [ms('25m')], in milliseconds. *)
Definition ms_minutes (n : Z) : Z := n * 60 * 1000.

(** [ServerEnvironment], as far as the predicates below read it. *)
Record ServerEnvironment := mkEnv {
  requestTtlBackwards : Z;
  requestTtlForwards : Z;
  maxUploadSizePerTypeInMB : gmap EntityType Z;
}.

(** Modelled from the spec: the defaults of the RECENT bounds, "10 min back,
    5 min forward". *)
Definition defaultEnv : ServerEnvironment :=
  mkEnv (ms_minutes 10) (ms_minutes 5) ∅.

Definition notRecentMessage : string :=
  "The request is not recent enough, please submit it again with a new timestamp.".
Definition tooFarInFutureMessage : string :=
  "The request is too far in the future, please submit it again with a new timestamp.".

(** Modelled from the spec: [Validations.RECENT] is not among the sources
    (its test is).  "fails if |now − entity.timestamp| > ttl_backwards in the
    past, or > ttl_forward in the future"; a predicate "yields either nothing
    or a list of human-readable error strings". *)
Definition RECENT (now : Timestamp) (env : ServerEnvironment) (entity : Entity)
    : option (list string) :=
  let delta := now - entity_timestamp entity in
  if bool_decide (requestTtlBackwards env < delta) then Some [notRecentMessage]
  else if bool_decide (requestTtlForwards env < - delta) then Some [tooFarInFutureMessage]
  else None.

(** The two messages of the [Content] tests. *)
Definition notAvailableHashMessage (hash : FileHash) : string :=
  "This hash is referenced in the entity but was not uploaded or previously available: "
  +:+ hash.
Definition notReferencedHashMessage (hash : FileHash) : string :=
  "This hash was uploaded but is not referenced in the entity: " +:+ hash.

(** The hashes an entity references: the values of [entity.content]. *)
Definition referencedHashes (entity : Entity) : list FileHash :=
  match entity_content entity with
  | Some content => JsMap.values content
  | None => []
  end.

(** Modelled from the spec: [Validations.CONTENT] is not among the sources
    (its test is).  "every hash referenced in entity.content must be present
    in the uploaded file map OR reported as already stored by
    externalCalls.isContentStoredAlready; every uploaded hash must be
    referenced (no orphan uploads). Exception: the entity-file hash itself is
    always legitimate."  The external call takes hashes and answers a map
    from hash to boolean, as the test's stub does.  [contentErrors] lists the
    findings, [CONTENT] yields them, or nothing when there is none. *)
Definition contentErrors
    (entity : Entity) (files : list (FileHash * Buffer))
    (isContentStoredAlready : list FileHash -> list (FileHash * bool))
    : list string :=
  let alreadyStoredHashes := isContentStoredAlready (referencedHashes entity) in
  let notAvailable :=
    filter (fun hash => JsMap.has hash files = false
                        ∧ JsMap.get hash alreadyStoredHashes ≠ Some true)
           (referencedHashes entity) in
  let notReferenced :=
    filter (fun hash => (hash ∉ referencedHashes entity) ∧ hash ≠ entity_id entity)
           (JsMap.keys files) in
  map notAvailableHashMessage notAvailable ++ map notReferencedHashMessage notReferenced.

Definition CONTENT
    (entity : Entity) (files : list (FileHash * Buffer))
    (isContentStoredAlready : list FileHash -> list (FileHash * bool))
    : option (list string) :=
  match contentErrors entity files isContentStoredAlready with
  | [] => None
  | errors => Some errors
  end.

(** The prefix the test matches the error against. *)
Definition tooBigMessage : string :=
  "The deployment is too big. The maximum allowed size per pointer is ".

(** Sum of [file.byteLength] over the uploaded files. *)
Definition totalSize (files : list (FileHash * Buffer)) : Z :=
  foldr (fun file acc => Z.of_nat (length file.2) + acc) 0 files.

(** The uploaded size per pointer, a quotient of two numbers. *)
Definition sizePerPointer (entity : Entity) (files : list (FileHash * Buffer)) : Q :=
  (inject_Z (totalSize files) / inject_Z (Z.of_nat (length (entity_pointers entity))))%Q.

(** Modelled from the spec: [Validations.REQUEST_SIZE_V3] is not among the
    sources (its test is).  "sum of uploaded file sizes divided by
    len(pointers) must not exceed maxUploadSizePerTypeInMB[type]"; sizes are
    in bytes and the limit in megabytes of [1024 * 1024] bytes, as the test's
    [getFileWithSize] has them.  The error text past the tested prefix is
    [detail]; a type without a configured limit is not checked. *)
Definition REQUEST_SIZE_V3
    (env : ServerEnvironment) (entity : Entity) (files : list (FileHash * Buffer))
    (detail : string) : option (list string) :=
  match maxUploadSizePerTypeInMB env !! entity_type entity with
  | Some maxSizeInMB =>
      let maxSizeInBytes := inject_Z (maxSizeInMB * 1024 * 1024) in
      if Qle_bool (sizePerPointer entity files) maxSizeInBytes then None
      else Some [tooBigMessage +:+ detail]
  | None => None
  end.

(** ** The fixtures of [Validations.spec.ts] *)

(** [buildEntity(options)]: a scene with id "id". *)
Definition buildEntity
    (timestamp : Timestamp) (content : option (list (string * FileHash)))
    (pointers : list Pointer) : Entity :=
  mkEntity "id" "scene" pointers timestamp content None.

(** [getFileWithSize(sizeInMB)]: one zero-filled buffer under "someHash". *)
Definition getFileWithSize (sizeInMB : Z) : list (FileHash * Buffer) :=
  [("someHash", replicate (Z.to_nat (sizeInMB * 1024 * 1024)) Byte.x00)].

(** [buildArgs]'s stub of [isContentStoredAlready]: nothing is stored. *)
Definition nothingStored (hashes : list FileHash) : list (FileHash * bool) :=
  JsMap.of_entries (map (fun hash => (hash, false)) hashes).

(** The environment of the size tests: scenes may take 2 MB per pointer. *)
Definition sceneLimitEnv : ServerEnvironment :=
  mkEnv (ms_minutes 10) (ms_minutes 5) {[ "scene" := 2 ]}.

End Validations.

(* ===================================================================== *)
(** * Observing a run of the service                                      *)
(* ===================================================================== *)

Section Observations.
Context `{Collaborators}.

(** The effects added between two worlds of one run. *)
Definition effectsSince (w w' : World) : list Effect :=
  drop (length (effects w)) (effects w').

(** The content blobs written by a list of effects: [(hash, bytes)] of every
    store under the category "contents". *)
Definition contentStores (es : list Effect) : list (FileHash * Buffer) :=
  omap (fun e =>
          match e with
          | StorageStore category id content =>
              if decide (category = StorageCategory.CONTENTS) then Some (id, content) else None
          | _ => None
          end) es.

(** [w'] differs from [w] at most by entities loaded into the in-memory
    cache: storage, pointers, history, analytics and clock are those of [w],
    and every effect added is a [CacheSet]. *)
Definition cacheOnly (w w' : World) : Prop :=
  storage w' = storage w ∧ pointerManager w' = pointerManager w
  ∧ historyManager w' = historyManager w ∧ analytics w' = analytics w
  ∧ clock w' = clock w
  ∧ ∃ ids, effects w' = effects w ++ map CacheSet ids.

(** The world once [entries] were stored under [category], in order. *)
Definition storeAll (category : string) (entries : list (string * Buffer)) (w : World) : World :=
  mkWorld (foldl (fun s entry => <[(category, entry.1) := entry.2]> s) (storage w) entries)
          (pointerManager w) (historyManager w) (entities w) (analytics w) (clock w)
          (effects w ++ map (fun entry => StorageStore category entry.1 entry.2) entries).

(** The world once [ids] were deleted from the cache, in order. *)
Definition deleteAll (ids : list EntityId) (w : World) : World :=
  mkWorld (storage w) (pointerManager w) (historyManager w)
          (foldl (fun cache id => delete id cache) (entities w) ids)
          (analytics w) (clock w) (effects w ++ map CacheDelete ids).

(** What [isContentAvailable] answers in a world. *)
Definition availability (w : World) (fileHashes : list FileHash) : list (FileHash * bool) :=
  JsMap.of_entries
    (map (fun fileHash =>
            (fileHash, bool_decide (is_Some (storage w !! (StorageCategory.CONTENTS, fileHash)))))
         fileHashes).

(** What [storeEntityContent] decides to write; [None] when it throws. *)
Definition contentToStore
    (hashes : list (FileHash * File)) (alreadyStoredHashes : list (FileHash * bool))
    (entityId : EntityId) (couldCommit : bool) : option (list (FileHash * Buffer)) :=
  if couldCommit then
    Some (map (fun entry => (entry.1, file_content entry.2))
              (filter (fun entry => js_not (JsMap.get entry.1 alreadyStoredHashes) = true) hashes))
  else if js_not (JsMap.get entityId alreadyStoredHashes) then
    match JsMap.get entityId hashes with
    | Some entityFile => Some [(entityId, file_content entityFile)]
    | None => None
    end
  else Some [].

(** The pointer manager honours the shadowing rule of its contract: a
    commit that reports [couldCommit = false] moves no pointer. *)
Definition shadowedCommitMovesNoPointer : Prop :=
  forall (state : PointerState) (entity : Entity),
    couldCommit (tryToCommitPointers state entity).1 = false ->
    (tryToCommitPointers state entity).2 = state.

(** "ordering mutations as Storage → Pointers": every content blob is
    stored before any pointer is committed. *)
Definition storesBlobsBeforePointerCommit (es : list Effect) : Prop :=
  forall (i j : nat) id content committed,
    es !! i = Some (StorageStore StorageCategory.CONTENTS id content) ->
    es !! j = Some (PointerCommit committed) ->
    (i < j)%nat.

(** The deployment timestamp [ts] is what the run from [w] to [w'] recorded:
    in the audit record stored under "proofs" for the deployed entity, and in
    the event handed to the history manager. *)
Definition timestampRecorded
    (server : ServerName) (ethAddress : EthAddress) (signature : Signature)
    (ts : Timestamp) (w w' : World) : Prop :=
  ∃ entity,
    storage w' !! (StorageCategory.PROOFS, entity_id entity)
      = Some (stringifyAuditInfo (mkAuditInfo ts ethAddress signature))
    ∧ historyManager w' = newEntityDeployment (historyManager w) server entity ts
    ∧ HistoryAppend server (entity_id entity) ts ∈ effectsSince w w'.

End Observations.

(* ===================================================================== *)
(** * Reference collaborators                                             *)
(* ===================================================================== *)

(** Implementations of the interfaces above, used to run the service on
    concrete deployments. *)
Module Reference.

#[local] Instance Entity_eq_dec : EqDecision Entity.
Proof. solve_decision. Defined.

(** ** Pointer manager *)

(** The active entity of each (type, pointer). *)
Definition Pointers := gmap (EntityType * Pointer) Entity.

(** [(a.timestamp, a.id) ≥ (b.timestamp, b.id)], lexicographically. *)
Definition newerOrEqual (a b : Entity) : bool :=
  bool_decide (entity_timestamp b < entity_timestamp a)
  || (bool_decide (entity_timestamp a = entity_timestamp b)
      && String.leb (entity_id b) (entity_id a)).

Definition activeEntity (state : Pointers) (type : EntityType) (pointer : Pointer)
    : option Entity :=
  state !! (type, pointer).

(** The distinct entities active on the given pointers. *)
Definition incumbents (state : Pointers) (type : EntityType) (pointers : list Pointer)
    : list Entity :=
  remove_dups (omap (activeEntity state type) pointers).

Definition stillReferenced (state : Pointers) (incumbent : Entity) (taken : list Pointer)
    : bool :=
  existsb (fun pointer =>
             bool_decide (pointer ∉ taken)
             && bool_decide (activeEntity state (entity_type incumbent) pointer = Some incumbent))
          (entity_pointers incumbent).

(** Modelled from the spec: [PointerManager.tryToCommitPointers] is not among
    the sources.  "If for any E_cur ∈ I we have (E_cur.timestamp, E_cur.id) ≥
    (E.timestamp, E.id) lexicographically, then E is shadowed: couldCommit =
    false, entitiesDeleted = ∅ [and] no pointer is moved.  Otherwise, for
    every p_i set the active entity to E.id.  For every E_cur ∈ I, check
    whether any of its other pointers still points to E_cur; if none does,
    E_cur becomes orphaned and is added to entitiesDeleted." *)
Definition tryToCommit (state : Pointers) (entity : Entity) : CommitResult * Pointers :=
  let current := incumbents state (entity_type entity) (entity_pointers entity) in
  if existsb (fun incumbent => newerOrEqual incumbent entity) current then
    (mkCommitResult false [], state)
  else
    let state' :=
      foldr (fun pointer acc => <[(entity_type entity, pointer) := entity]> acc)
            state (entity_pointers entity) in
    let orphaned :=
      filter (fun incumbent =>
                stillReferenced state incumbent (entity_pointers entity) = false)
             current in
    (mkCommitResult true (map entity_id orphaned), state').

Definition activePointers (state : Pointers) (type : EntityType) : list Pointer :=
  omap (fun entry => if decide (entry.1.1 = type) then Some entry.1.2 else None)
       (map_to_list state).

(** ** History manager *)

(** Modelled from the spec: [HistoryManager.newEntityDeployment] is not among
    the sources.  "append(event): idempotent on entityId; duplicates silently
    ignored." *)
Definition appendEvent
    (history : DeploymentHistory) (server : ServerName) (entity : Entity) (ts : Timestamp)
    : DeploymentHistory :=
  if existsb (fun event => bool_decide (event_entityId event = entity_id entity)) history
  then history
  else history ++ [mkDeploymentEvent server (entity_id entity) (entity_type entity) ts].

(** ** Hashing, parsing, printing *)

(** A stand-in for the content hash: the bytes themselves, as text. *)
Definition hashOfContent (file : File) : FileHash :=
  "cid:" +:+ String.string_of_list_byte (file_content file).

(** A stand-in for the descriptor parser: a scene on pointer "0,0" whose
    timestamp is the first byte of the file; an empty file does not parse. *)
Definition parseDescriptor (content : Buffer) (id : EntityId) : Outcome Entity :=
  match content with
  | [] => Throw (Error "Unexpected end of JSON input")
  | first :: _ =>
      Ok (mkEntity id "scene" ["0,0"] (Z.of_N (Byte.to_N first)) None None)
  end.

Definition quote : string := String (Ascii.ascii_of_nat 34) EmptyString.

Definition printZ (z : Z) : string := NilZero.string_of_int (Z.to_int z).

Definition printAuditInfo (info : AuditInfo) : Buffer :=
  String.list_byte_of_string
    ("{" +:+ quote +:+ "deployedTimestamp" +:+ quote +:+ ":" +:+ printZ (deployedTimestamp info)
     +:+ "," +:+ quote +:+ "ethAddress" +:+ quote +:+ ":" +:+ quote +:+ audit_ethAddress info +:+ quote
     +:+ "," +:+ quote +:+ "signature" +:+ quote +:+ ":" +:+ quote +:+ audit_signature info +:+ quote
     +:+ "}").

(** A deployment is stale when an entity fetched from its pointers has a
    strictly greater timestamp. *)
Definition staleErrors (entity : Entity) (current : list Entity) : list string :=
  if existsb (fun other => bool_decide (entity_timestamp entity < entity_timestamp other)) current
  then ["There is a newer entity pointed by one or more of the pointers you provided."]
  else [].

(** An empty signature is refused; everything else is accepted. *)
Definition signatureErrors (id : EntityId) (address : EthAddress) (signature : Signature)
    : list string :=
  if bool_decide (signature = "") then ["The signature is invalid."] else [].

#[export] Instance collaborators : Collaborators := {|
  calculateHash := hashOfContent;
  fromFile := fun file id => parseDescriptor (file_content file) id;
  fromBufferWithId := parseDescriptor;
  stringifyAuditInfo := printAuditInfo;
  validateSignature := signatureErrors;
  validateRequestSize := fun _ => [];
  validateEntity := fun _ => [];
  validateAccess := fun _ _ _ => [];
  freshDeploymentErrors := staleErrors;
  validateType := fun _ => [];
  validateHashes := fun _ _ _ => [];
  PointerState := Pointers;
  getEntityInPointer := fun state type pointer => entity_id <$> activeEntity state type pointer;
  getActivePointers := activePointers;
  tryToCommitPointers := tryToCommit;
  HistoryState := DeploymentHistory;
  newEntityDeployment := appendEvent;
|}.

(** A blacklist given by its listed targets; the answer has an entry per
    target asked about. *)
Inductive Target :=
| AddressTarget (address : EthAddress)
| ContentTarget (hash : FileHash)
| PointerTarget (type : EntityType) (pointer : Pointer)
| EntityTarget (type : EntityType) (id : EntityId).

#[local] Instance Target_eq_dec : EqDecision Target.
Proof. solve_decision. Defined.

Definition blacklistOf (listed : list Target) : Blacklist := {|
  BlacklistTarget := Target;
  buildAddressTarget := AddressTarget;
  buildContentTarget := ContentTarget;
  buildPointerTarget := PointerTarget;
  buildEntityTarget := EntityTarget;
  areTargetsBlacklisted := fun targets =>
    JsMap.of_entries (map (fun target => (target, bool_decide (target ∈ listed))) targets);
|}.

(** ** Servers of a cluster *)

(** A reachable server: every call is answered. *)
Definition answeringServer (status : ServerStatus) (file : File) : ContentServerClient :=
  {| client_getHistory := fun _ _ _ => Ok (Fulfilled []);
     client_getStatus := Ok (Fulfilled status);
     client_getAuditInfo := fun _ _ => Ok (Fulfilled (mkAuditInfo 0 "0xabc" "sig"));
     client_getEntity := fun type id => Ok (Fulfilled (mkEntity id type ["0,0"] 0 None None));
     client_getContentFile := fun _ => Ok (Fulfilled file) |}.

(** A server whose requests fail once sent: every promise is rejected. *)
Definition rejectingServer : ContentServerClient :=
  {| client_getHistory := fun _ _ _ => Ok (Rejected (Error "connect ECONNREFUSED"));
     client_getStatus := Ok (Rejected (Error "connect ECONNREFUSED"));
     client_getAuditInfo := fun _ _ => Ok (Rejected (Error "connect ECONNREFUSED"));
     client_getEntity := fun _ _ => Ok (Rejected (Error "connect ECONNREFUSED"));
     client_getContentFile := fun _ => Ok (Rejected (Error "connect ECONNREFUSED")) |}.

(** A server whose calls throw before a request is sent. *)
Definition throwingServer : ContentServerClient :=
  {| client_getHistory := fun _ _ _ => Throw (Error "Invalid URL");
     client_getStatus := Throw (Error "Invalid URL");
     client_getAuditInfo := fun _ _ => Throw (Error "Invalid URL");
     client_getEntity := fun _ _ => Throw (Error "Invalid URL");
     client_getContentFile := fun _ => Throw (Error "Invalid URL") |}.

Definition server2Status : ServerStatus := mkServerStatus "Server2" "1.0" 5000 (Some 4000).

Definition pngFile : File := mkFile "image.png" (String.list_byte_of_string "png").

(** A redirect client for the unreachable "Server3", in a cluster whose
    active servers are the given ones. *)
Definition redirectClient (active : list ContentServerClient) : RedirectContentServerClient.t :=
  RedirectContentServerClient.getRedirectClient (mkContentCluster active) "Server3" 1234.

(** ** Concrete worlds and uploads *)

Definition service : ServiceImpl.t := ServiceImpl.mk "Server1" false.

Definition emptyWorld (now : Timestamp) : World :=
  mkWorld ∅ (∅ : Pointers) ([] : DeploymentHistory) ∅ [] now [].

Definition bytes (s : string) : Buffer := String.list_byte_of_string s.

(** An entity file with timestamp 100 (the byte of "d"), and a content file. *)
Definition entityFile : File := mkFile "entity.json" (bytes "d").
Definition entityFileId : EntityId := "cid:d".
Definition imageFile : File := mkFile "image.png" (bytes "png").

(** An older entity file, timestamp 97 (the byte of "a"). *)
Definition olderEntityFile : File := mkFile "entity.json" (bytes "a").
Definition olderEntityFileId : EntityId := "cid:a".

(** The world after the first local deployment, at time 1000. *)
Definition worldAfterFirstDeploy : World :=
  (ServiceImpl.deployEntity service [entityFile; imageFile] entityFileId "0xabc" "sig"
     (emptyWorld 1000)).2.

(** The run that replays, from another server and with its timestamp 77,
    the older entity on top of the first deployment: the commit is shadowed. *)
Definition shadowedRun : Outcome Timestamp * World :=
  ServiceImpl.deployEntityWithServerAndTimestamp service [olderEntityFile; imageFile]
    olderEntityFileId "0xabc" "sig" "Server2" (fun _ => 77) false worldAfterFirstDeploy.

(** The reference service as a [MetaverseContentService]. *)
Definition metaverseService : BlacklistServiceDecorator.MetaverseContentService :=
  BlacklistServiceDecorator.mkService
    (ServiceImpl.deployEntity service) (ServiceImpl.getStatus service).

End Reference.

(* ===================================================================== *)
(** * [ServiceImpl.ts]: the read queries                                  *)
(* ===================================================================== *)

(** What the read queries need of [ContentStorage] and of [JSON]. *)
Class StorageReads := {
  (** what [storage.getContent(category, id)] throws when nothing is stored
      under that key *)
  contentNotFound : string -> string -> JsError;
  (** [JSON.parse(buffer.toString())], read as an audit record *)
  parseAuditInfo : Buffer -> Outcome AuditInfo;
}.

Module ServiceImplQueries.
Section ServiceImplQueries.
Context `{Collaborators} `{StorageReads}.
Local Open Scope service_scope.

(** [this.storage.getContent(category, id)] *)
Definition storage_getContent (category id : string) : M Buffer :=
  fun w =>
    match storage w !! (category, id) with
    | Some buffer => (Ok buffer, w)
    | None => (Throw (contentNotFound category id), w)
    end.

(** [getContent(fileHash)] *)
Definition getContent (fileHash : FileHash) : M Buffer :=
  storage_getContent (ServiceImpl.resolveCategory StorageCategory.CONTENTS None) fileHash.

(** [getAuditInfo(type, id)] *)
Definition getAuditInfo (type : EntityType) (id : EntityId) : M AuditInfo :=
  buffer <- storage_getContent (ServiceImpl.resolveCategory StorageCategory.PROOFS None) id ;;
  lift (parseAuditInfo buffer).

(** [getActivePointers(type)] *)
Definition getActivePointers (type : EntityType) : M (list Pointer) :=
  fun w => (Ok (getActivePointers (pointerManager w) type), w).

End ServiceImplQueries.
End ServiceImplQueries.

(* ===================================================================== *)
(** * [BlacklistServiceDecorator.ts]: content queries                     *)
(* ===================================================================== *)

(** [Promise.all] over calls that do not touch the world: all the values,
    or the first rejection. *)
Fixpoint allOutcomes {A : Type} (l : list (Outcome A)) : Outcome (list A) :=
  match l with
  | [] => Ok []
  | Throw e :: _ => Throw e
  | Ok a :: rest =>
      match allOutcomes rest with
      | Ok values => Ok (a :: values)
      | Throw e => Throw e
      end
  end.

Module BlacklistServiceDecoratorQueries.
Section BlacklistServiceDecoratorQueries.
Context `{Collaborators} `{Blacklist}.
Local Open Scope service_scope.

(** [Object.keys(EntityType).map(type => EntityType[type])]: the members of
    the enum [EntityType], whose declaration is in [Entity.ts]. *)
Variable entityTypes : list EntityType.

(** The content methods of the decorated [MetaverseContentService]. *)
Record ContentService := mkContentService {
  service_getContent : FileHash -> M Buffer;
  service_isContentAvailable : list FileHash -> M (list (FileHash * bool));
}.

(** [getEntityTargets(entityId)] *)
Definition getEntityTargets (entityId : EntityId) : list BlacklistTarget :=
  map (fun entityType => buildEntityTarget entityType entityId) entityTypes.

(** [isFileHashBlacklisted(fileHash)] *)
Definition isFileHashBlacklisted (fileHash : string) : Outcome bool :=
  BlacklistServiceDecorator.areBlacklisted
    (getEntityTargets fileHash ++ [buildContentTarget fileHash]).

(** [getContent(fileHash)] *)
Definition getContent (service : ContentService) (fileHash : FileHash) : M Buffer :=
  blacklisted <- lift (isFileHashBlacklisted fileHash) ;;
  if blacklisted : bool then throw (Error "Content not found")
  else service_getContent service fileHash.

(** The loop of [isContentAvailable]:
    [for (const [fileHash, isBlacklisted] of blacklisted)
       if (isBlacklisted) availability.set(fileHash, false)] *)
Definition hideBlacklisted
    (blacklisted : list (FileHash * bool)) (availability : list (FileHash * bool))
    : list (FileHash * bool) :=
  foldl (fun availability entry =>
           if entry.2 : bool then JsMap.set entry.1 false availability else availability)
        availability blacklisted.

(** [isContentAvailable(fileHashes)] *)
Definition isContentAvailable (service : ContentService) (fileHashes : list FileHash)
    : M (list (FileHash * bool)) :=
  availability <- service_isContentAvailable service fileHashes ;;
  blacklistedEntries <-
    lift (allOutcomes
            (map (fun fileHash =>
                    match isFileHashBlacklisted fileHash with
                    | Ok isBlacklisted => Ok (fileHash, isBlacklisted)
                    | Throw e => Throw e
                    end) fileHashes)) ;;
  let blacklisted := JsMap.of_entries blacklistedEntries in
  ret (hideBlacklisted blacklisted availability).

End BlacklistServiceDecoratorQueries.
End BlacklistServiceDecoratorQueries.

(* ===================================================================== *)
(** * Observing the validation stage                                      *)
(* ===================================================================== *)

Section ValidationObservations.
Context `{Collaborators}.

(** What [validation.getErrors()] holds at line 101, given the findings
    [fresh] of the freshness check ([[]] when it is skipped) and the answer
    of [isContentAvailable]. *)
Definition validationFindings
    (entity : Entity) (files : list File) (entityId : EntityId)
    (ethAddress : EthAddress) (signature : Signature)
    (fresh : list string) (alreadyStoredHashes : list (FileHash * bool)) : list string :=
  (((((([] ++ validateSignature entityId ethAddress signature)
        ++ validateRequestSize files)
      ++ validateEntity entity)
     ++ validateAccess (entity_pointers entity) ethAddress (entity_type entity))
    ++ fresh)
   ++ validateType entity)
  ++ validateHashes entity (ServiceImpl.calculateHashes files) alreadyStoredHashes.

(** The message thrown at line 102: the errors joined by newlines. *)
Definition joinedFindings (findings : list string) : JsError :=
  Error (String.concat (String (Ascii.ascii_of_nat 10) EmptyString) findings).

End ValidationObservations.

(* ===================================================================== *)
(** * Reference collaborators of the queries                              *)
(* ===================================================================== *)

Module ReferenceQueries.

(** The pieces of [s] between occurrences of [separator]. *)
Fixpoint splitOn (separator : Ascii.ascii) (s : string) : list string :=
  match s with
  | EmptyString => [EmptyString]
  | String c rest =>
      if Ascii.eqb c separator then EmptyString :: splitOn separator rest
      else match splitOn separator rest with
           | piece :: pieces => String c piece :: pieces
           | [] => [String c EmptyString]
           end
  end.

(** Reads back what [Reference.printAuditInfo] prints. *)
Definition readAuditInfo (buffer : Buffer) : Outcome AuditInfo :=
  match splitOn (Ascii.ascii_of_nat 34) (String.string_of_list_byte buffer) with
  | [_; "deployedTimestamp"; number; "ethAddress"; _; address; _; "signature"; _; signature; _] =>
      match NilZero.int_of_string (String.substring 1 (String.length number - 2) number) with
      | Some ts => Ok (mkAuditInfo (Z.of_int ts) address signature)
      | None => Throw (Error "Unexpected token in JSON")
      end
  | _ => Throw (Error "Unexpected token in JSON")
  end.

#[export] Instance storageReads : StorageReads := {|
  contentNotFound := fun category id => Error ("ENOENT: no such file, open '" +:+ category +:+ "/" +:+ id +:+ "'");
  parseAuditInfo := readAuditInfo;
|}.

(** The types of entities of the reference deployment. *)
Definition entityTypes : list EntityType := ["scene"; "profile"].

(** The reference service's content methods. *)
Definition contentService
    : BlacklistServiceDecoratorQueries.ContentService (H := Reference.collaborators) :=
  BlacklistServiceDecoratorQueries.mkContentService
    (ServiceImplQueries.getContent (H := Reference.collaborators))
    (ServiceImpl.isContentAvailable (H := Reference.collaborators)).

(** A world whose cache is empty but whose storage holds the first
    deployment: the server after a restart. *)
Definition restartedWorld : World (H := Reference.collaborators) :=
  mkWorld (storage Reference.worldAfterFirstDeploy)
          (pointerManager Reference.worldAfterFirstDeploy)
          (historyManager Reference.worldAfterFirstDeploy)
          ∅ [] 2000 [].


(** A newer entity file on the same pointer: timestamp 101 (the byte of "e"). *)
Definition newerEntityFile : File := mkFile "entity.json" (Reference.bytes "e").
Definition newerEntityFileId : EntityId := "cid:e".

(** The world after the first deployment, once its entity was read by id
    and so sits in the cache. *)
Definition cachedWorld : World (H := Reference.collaborators) :=
  (ServiceImpl.getEntityById (H := Reference.collaborators) "cid:d"
     Reference.worldAfterFirstDeploy).2.

(** The local deployment of the newer entity on top of it. *)
Definition overwritingRun : Outcome Timestamp * World (H := Reference.collaborators) :=
  ServiceImpl.deployEntityWithServerAndTimestamp (H := Reference.collaborators)
    Reference.service [newerEntityFile] newerEntityFileId "0xabc" "sig" "Server1"
    ServiceImpl.Date_now true cachedWorld.

(** The first deployment, replayed on top of itself from another server. *)
Definition replayedRun : Outcome Timestamp * World (H := Reference.collaborators) :=
  ServiceImpl.deployEntityWithServerAndTimestamp (H := Reference.collaborators)
    Reference.service [Reference.entityFile; Reference.imageFile] Reference.entityFileId
    "0xabc" "sig" "Server2" (fun _ => 77) false Reference.worldAfterFirstDeploy.

End ReferenceQueries.

(* ===================================================================== *)
(** * Facts about [Map]                                                   *)
(* ===================================================================== *)

Section JsMapFacts.
Context {K V : Type} `{EqDecision K}.
Implicit Types (k : K) (v : V) (m : list (K * V)).

Lemma JsMap_get_app k m1 m2 :
  JsMap.get k (m1 ++ m2) =
  match JsMap.get k m1 with Some v => Some v | None => JsMap.get k m2 end.
Proof.
  induction m1 as [|[k' v'] m1 IH]; simpl; [done|].
  by destruct (decide (k' = k)).
Qed.

Lemma JsMap_get_Some_elem k v m : JsMap.get k m = Some v -> (k, v) ∈ m.
Proof.
  induction m as [|[k' v'] m IH]; simpl; [done|].
  destruct (decide (k' = k)) as [->|]; intros Hget.
  - injection Hget as ->. left.
  - right. by apply IH.
Qed.

Lemma JsMap_get_None k m : JsMap.get k m = None <-> k ∉ JsMap.keys m.
Proof.
  unfold JsMap.keys.
  induction m as [|[k' v'] m IH]; simpl.
  - split; [intros _; apply not_elem_of_nil | done].
  - rewrite not_elem_of_cons. destruct (decide (k' = k)) as [->|Hne].
    + split; [done | intros [? _]; done].
    + rewrite IH. split; [intros ?; split; [congruence | done] | by intros [_ ?]].
Qed.

Lemma JsMap_get_set_eq k v m : JsMap.get k (JsMap.set k v m) = Some v.
Proof.
  induction m as [|[k' v'] m IH]; simpl.
  - by case_decide.
  - destruct (decide (k' = k)) as [->|Hne]; simpl; by case_decide.
Qed.

Lemma JsMap_get_set_ne k k' v m :
  k ≠ k' -> JsMap.get k' (JsMap.set k v m) = JsMap.get k' m.
Proof.
  intros Hne. induction m as [|[k0 v0] m IH]; simpl.
  - by case_decide.
  - destruct (decide (k0 = k)) as [->|Hne0]; simpl.
    + by repeat case_decide.
    + destruct (decide (k0 = k')); [done | apply IH].
Qed.

Lemma JsMap_elem_set k v kv m :
  kv ∈ JsMap.set k v m -> kv = (k, v) ∨ kv ∈ m.
Proof.
  induction m as [|[k0 v0] m IH]; simpl.
  - intros ->%list_elem_of_singleton. by left.
  - destruct (decide (k0 = k)) as [->|Hne0].
    + intros [->|?]%elem_of_cons; [by left | right; by right].
    + intros [->|Hin]%elem_of_cons; [right; left |].
      destruct (IH Hin) as [->|?]; [by left | right; by right].
Qed.

Lemma JsMap_keys_set k v m :
  JsMap.keys (JsMap.set k v m) =
  if decide (k ∈ JsMap.keys m) then JsMap.keys m else JsMap.keys m ++ [k].
Proof.
  unfold JsMap.keys.
  induction m as [|[k0 v0] m IH].
  - destruct (decide (k ∈ ([] : list (K * V)).*1)) as [Hin|_]; [|done].
    by apply elem_of_nil in Hin.
  - change (JsMap.set k v ((k0, v0) :: m))
      with (if decide (k0 = k) then (k, v) :: m else (k0, v0) :: JsMap.set k v m).
    rewrite fmap_cons. cbn [fst].
    destruct (decide (k0 = k)) as [->|Hne0].
    + rewrite decide_True by left. done.
    + rewrite fmap_cons, IH. cbn [fst].
      destruct (decide (k ∈ m.*1)) as [Hin|Hnin].
      * rewrite decide_True by (by right). done.
      * rewrite decide_False; [done |].
        rewrite not_elem_of_cons. split; [congruence | done].
Qed.

Lemma JsMap_NoDup_set k v m :
  NoDup (JsMap.keys m) -> NoDup (JsMap.keys (JsMap.set k v m)).
Proof.
  intros Hnd. rewrite JsMap_keys_set. case_decide; [done|].
  apply NoDup_app. split_and!; [done | | apply NoDup_singleton].
  intros x Hx ->%list_elem_of_singleton. done.
Qed.

(** What [new Map(entries)] built on top of [m] answers: the last entry
    given for the key, else what [m] had. *)
Lemma JsMap_get_foldl_set k m entries :
  JsMap.get k (foldl (fun m kv => JsMap.set kv.1 kv.2 m) m entries) =
  match JsMap.get k (reverse entries) with
  | Some v => Some v
  | None => JsMap.get k m
  end.
Proof.
  revert m. induction entries as [|[k0 v0] entries IH]; intros m; simpl; [done|].
  rewrite IH, reverse_cons, JsMap_get_app. simpl.
  destruct (JsMap.get k (reverse entries)); [done|].
  destruct (decide (k0 = k)) as [->|Hne].
  - by rewrite JsMap_get_set_eq.
  - by rewrite JsMap_get_set_ne.
Qed.

Lemma JsMap_NoDup_foldl_set m entries :
  NoDup (JsMap.keys m) ->
  NoDup (JsMap.keys (foldl (fun m kv => JsMap.set kv.1 kv.2 m) m entries)).
Proof.
  revert m. induction entries as [|[k0 v0] entries IH]; intros m Hnd; simpl; [done|].
  apply IH. by apply JsMap_NoDup_set.
Qed.

Lemma JsMap_elem_foldl_set kv m entries :
  kv ∈ foldl (fun m kv => JsMap.set kv.1 kv.2 m) m entries ->
  kv ∈ entries ∨ kv ∈ m.
Proof.
  revert m. induction entries as [|[k0 v0] entries IH]; intros m; simpl.
  - by right.
  - intros [Hin|Hin]%IH; [left; by right |].
    apply JsMap_elem_set in Hin as [->|Hin]; [left; left | by right].
Qed.

Lemma JsMap_NoDup_of_entries (entries : list (K * V)) :
  NoDup (JsMap.keys (JsMap.of_entries entries)).
Proof. apply JsMap_NoDup_foldl_set. apply NoDup_nil_2. Qed.

Lemma JsMap_elem_of_entries kv (entries : list (K * V)) :
  kv ∈ JsMap.of_entries entries -> kv ∈ entries.
Proof.
  intros [?|Hin]%JsMap_elem_foldl_set; [done|]. by apply elem_of_nil in Hin.
Qed.

Lemma JsMap_get_of_entries_is_Some k (entries : list (K * V)) :
  k ∈ entries.*1 -> is_Some (JsMap.get k (JsMap.of_entries entries)).
Proof.
  intros Hin. unfold JsMap.of_entries. rewrite JsMap_get_foldl_set.
  destruct (JsMap.get k (reverse entries)) eqn:Hget; [by eexists|].
  apply JsMap_get_None in Hget. exfalso. apply Hget.
  unfold JsMap.keys. rewrite fmap_reverse. by apply elem_of_reverse.
Qed.

Lemma JsMap_get_elem_NoDup k v m :
  NoDup (JsMap.keys m) -> (k, v) ∈ m -> JsMap.get k m = Some v.
Proof.
  unfold JsMap.keys.
  induction m as [|[k0 v0] m IH]; simpl; intros Hnd Hin.
  - by apply elem_of_nil in Hin.
  - apply NoDup_cons in Hnd as [Hnin Hnd].
    apply elem_of_cons in Hin as [Heq|Hin].
    + injection Heq as <- <-. by rewrite decide_True.
    + destruct (decide (k0 = k)) as [->|Hne]; [|by apply IH].
      exfalso. apply Hnin. by apply (list_elem_of_fmap_2 fst) in Hin.
Qed.

End JsMapFacts.

(** A map built from the graph of a function answers the function. *)
Lemma JsMap_get_of_graph {K V : Type} `{EqDecision K} (f : K -> V) (l : list K) (k : K) :
  JsMap.get k (JsMap.of_entries (map (fun x => (x, f x)) l)) =
  if decide (k ∈ l) then Some (f k) else None.
Proof.
  destruct (decide (k ∈ l)) as [Hin|Hnin].
  - destruct (JsMap_get_of_entries_is_Some k (map (fun x => (x, f x)) l)) as [v Hv].
    { replace ((map (fun x => (x, f x)) l).*1) with l; [done|].
      clear. induction l as [|x l IH]; simpl; [done | by f_equal]. }
    rewrite Hv. apply JsMap_get_Some_elem, JsMap_elem_of_entries in Hv.
    apply list_elem_of_fmap in Hv as (x & Heq & _). by injection Heq as -> ->.
  - apply JsMap_get_None. intros Hin. apply Hnin.
    unfold JsMap.keys in Hin. apply list_elem_of_fmap in Hin as ([k' v] & -> & Hin).
    apply JsMap_elem_of_entries, list_elem_of_fmap in Hin as (x & Heq & Hx).
    by injection Heq as -> ->.
Qed.

(* ===================================================================== *)
(** * Facts about the service's steps                                     *)
(* ===================================================================== *)

Section ServiceFacts.
Context `{Collaborators}.
Implicit Types (w : World).

Lemma cacheOnly_refl w : cacheOnly w w.
Proof.
  unfold cacheOnly. split_and!; try done.
  exists []. simpl. by rewrite app_nil_r.
Qed.

Lemma cacheOnly_trans w1 w2 w3 : cacheOnly w1 w2 -> cacheOnly w2 w3 -> cacheOnly w1 w3.
Proof.
  intros (Hs & Hp & Hh & Ha & Hc & ids & He) (Hs' & Hp' & Hh' & Ha' & Hc' & ids' & He').
  unfold cacheOnly. split_and!; try congruence.
  exists (ids ++ ids'). by rewrite He', He, map_app, app_assoc.
Qed.

Lemma cacheOnly_entities_set id entity w : cacheOnly w (ServiceImpl.entities_set id entity w).
Proof.
  unfold cacheOnly. simpl. split_and!; try done. by exists [id].
Qed.

Lemma getEntityById_run id w :
  ∃ found w', ServiceImpl.getEntityById id w = (Ok found, w') ∧ cacheOnly w w'.
Proof.
  unfold ServiceImpl.getEntityById.
  destruct (entities w !! id) as [entity|].
  { eauto using cacheOnly_refl. }
  destruct (storage w !! (StorageCategory.CONTENTS, id)) as [buffer|].
  2: { eauto using cacheOnly_refl. }
  destruct (fromBufferWithId buffer id) as [entity|e].
  - eauto using cacheOnly_entities_set.
  - eauto using cacheOnly_refl.
Qed.

Lemma mapM_getEntityById_run ids w :
  ∃ found w', mapM ServiceImpl.getEntityById ids w = (Ok found, w') ∧ cacheOnly w w'.
Proof.
  revert w. induction ids as [|id ids IH]; intros w; simpl.
  - unfold ret. eauto using cacheOnly_refl.
  - unfold bind at 1.
    destruct (getEntityById_run id w) as (found & w1 & -> & Hc1).
    unfold bind at 1.
    destruct (IH w1) as (founds & w2 & -> & Hc2).
    unfold ret. eauto using cacheOnly_trans.
Qed.

Lemma getEntitiesByPointers_run type pointers w :
  ∃ found w', ServiceImpl.getEntitiesByPointers type pointers w = (Ok found, w')
              ∧ cacheOnly w w'.
Proof.
  unfold ServiceImpl.getEntitiesByPointers, ServiceImpl.getEntitiesByIds.
  unfold bind at 1, get_world. unfold bind at 1.
  match goal with
  | |- context [mapM ServiceImpl.getEntityById ?ids w] =>
      destruct (mapM_getEntityById_run ids w) as (found & w' & -> & Hc)
  end.
  unfold ret. eauto.
Qed.

Lemma resolveCategory_CONTENTS :
  ServiceImpl.resolveCategory StorageCategory.CONTENTS None = StorageCategory.CONTENTS.
Proof. reflexivity. Qed.

Lemma resolveCategory_PROOFS :
  ServiceImpl.resolveCategory StorageCategory.PROOFS None = StorageCategory.PROOFS.
Proof. reflexivity. Qed.

Lemma isContentAvailable_run fileHashes w :
  ServiceImpl.isContentAvailable fileHashes w = (Ok (availability w fileHashes), w).
Proof.
  unfold ServiceImpl.isContentAvailable, availability.
  rewrite resolveCategory_CONTENTS.
  assert (Hmap :
    mapM (fun fileHash =>
            bind (ServiceImpl.storage_exists StorageCategory.CONTENTS fileHash)
                 (fun exists_ => ret (fileHash, exists_))) fileHashes w =
    (Ok (map (fun fileHash =>
                (fileHash,
                 bool_decide (is_Some (storage w !! (StorageCategory.CONTENTS, fileHash)))))
             fileHashes), w)).
  { induction fileHashes as [|h hs IH]; simpl; [done|].
    unfold bind at 1. unfold bind at 1. unfold ServiceImpl.storage_exists at 1.
    unfold ret at 1. unfold bind at 1. rewrite IH. done. }
  unfold bind at 1. rewrite Hmap. done.
Qed.

Lemma storeAll_nil category w : storeAll category [] w = w.
Proof. destruct w. unfold storeAll. simpl. by rewrite app_nil_r. Qed.

Lemma deleteAll_nil w : deleteAll [] w = w.
Proof. destruct w. unfold deleteAll. simpl. by rewrite app_nil_r. Qed.

Lemma mapM_storage_store category (entries : list (FileHash * File)) w :
  ∃ units,
    mapM (fun entry => ServiceImpl.storage_store category entry.1 (file_content entry.2))
         entries w =
    (Ok units, storeAll category (map (fun entry => (entry.1, file_content entry.2)) entries) w).
Proof.
  revert w. induction entries as [|[h f] entries IH]; intros w; simpl.
  - exists []. by rewrite storeAll_nil.
  - unfold bind at 1. unfold ServiceImpl.storage_store at 1, modify.
    unfold bind at 1.
    match goal with |- context [mapM _ entries ?w1] => destruct (IH w1) as (us & ->) end.
    exists (tt :: us). unfold ret. f_equal.
    unfold storeAll, log. simpl. f_equal. by rewrite <- app_assoc.
Qed.

Lemma mapM_entities_delete ids w :
  ∃ units, mapM ServiceImpl.entities_delete ids w = (Ok units, deleteAll ids w).
Proof.
  revert w. induction ids as [|id ids IH]; intros w; simpl.
  - exists []. by rewrite deleteAll_nil.
  - unfold bind at 1. unfold ServiceImpl.entities_delete at 1, modify.
    unfold bind at 1.
    match goal with |- context [mapM _ ids ?w1] => destruct (IH w1) as (us & ->) end.
    exists (tt :: us). unfold ret. f_equal.
    unfold deleteAll, log. simpl. f_equal. by rewrite <- app_assoc.
Qed.

(** [storeEntityContent] writes what [contentToStore] lists, under
    "contents", and throws exactly when that is [None]. *)
Lemma storeEntityContent_run hashes alreadyStoredHashes entityId couldCommit w :
  ServiceImpl.storeEntityContent hashes alreadyStoredHashes entityId couldCommit w =
  match contentToStore hashes alreadyStoredHashes entityId couldCommit with
  | Some entries => (Ok tt, storeAll StorageCategory.CONTENTS entries w)
  | None => (Throw (TypeError "Cannot read property 'content' of undefined"), w)
  end.
Proof.
  unfold ServiceImpl.storeEntityContent, contentToStore.
  rewrite resolveCategory_CONTENTS.
  destruct couldCommit.
  - unfold bind.
    match goal with
    | |- context [mapM _ ?l w] =>
        destruct (mapM_storage_store StorageCategory.CONTENTS l w) as (us & ->)
    end.
    done.
  - destruct (js_not (JsMap.get entityId alreadyStoredHashes)).
    + destruct (JsMap.get entityId hashes) as [entityFile|]; [|done].
      unfold ServiceImpl.storage_store, modify, storeAll, log. done.
    + unfold ret. by rewrite storeAll_nil.
Qed.

(** The commit part always runs to the end when [storeEntityContent] finds
    what to write, and leaves the world described here. *)
Lemma commitDeployment_run
    this entity hashes alreadyStoredHashes entityId ethAddress signature server
    (timestampCalculator : ServiceImpl.TimestampCalculator) entries w :
  contentToStore hashes alreadyStoredHashes entityId
    (couldCommit (tryToCommitPointers (pointerManager w) entity).1) = Some entries ->
  ∃ ts w3 w',
    ServiceImpl.commitDeployment this entity hashes alreadyStoredHashes entityId
      ethAddress signature server timestampCalculator w = (Ok ts, w')
    ∧ ts = timestampCalculator w3 ∧ clock w3 = clock w
    ∧ storage w' =
        <[(StorageCategory.PROOFS, entity_id entity) :=
            stringifyAuditInfo (mkAuditInfo ts ethAddress signature)]>
          (foldl (fun s entry => <[(StorageCategory.CONTENTS, entry.1) := entry.2]> s)
                 (storage w) entries)
    ∧ pointerManager w' = (tryToCommitPointers (pointerManager w) entity).2
    ∧ historyManager w' = newEntityDeployment (historyManager w) server entity ts
    ∧ analytics w' = analytics w ++ [(ServiceImpl.serverName this, entity, ethAddress)]
    ∧ clock w' = clock w
    ∧ effects w' =
        effects w
        ++ [PointerCommit (entity_id entity)]
        ++ map CacheDelete (entitiesDeleted (tryToCommitPointers (pointerManager w) entity).1)
        ++ map (fun entry => StorageStore StorageCategory.CONTENTS entry.1 entry.2) entries
        ++ [StorageStore StorageCategory.PROOFS (entity_id entity)
              (stringifyAuditInfo (mkAuditInfo ts ethAddress signature));
            HistoryAppend server (entity_id entity) ts;
            AnalyticsRecord (ServiceImpl.serverName this) (entity_id entity) ethAddress].
Proof.
  intros Hstore. unfold ServiceImpl.commitDeployment.
  unfold bind at 1. unfold ServiceImpl.pointerManager_tryToCommitPointers at 1.
  destruct (tryToCommitPointers (pointerManager w) entity) as [result pm] eqn:Hcommit.
  simpl in Hstore. unfold bind at 1.
  match goal with
  | |- context [mapM ServiceImpl.entities_delete ?ids ?w1] =>
      destruct (mapM_entities_delete ids w1) as (us & ->)
  end.
  unfold bind at 1. rewrite storeEntityContent_run, Hstore.
  unfold bind at 1. unfold ServiceImpl.call at 1.
  rewrite resolveCategory_PROOFS.
  match goal with
  | |- context [timestampCalculator ?w3] => exists (timestampCalculator w3), w3
  end.
  eexists. split; [reflexivity|].
  simpl. split_and!; try done.
  rewrite <- !app_assoc. done.
Qed.

(** In a deployment the entity file is among the hashed files, so
    [storeEntityContent] always finds what to write. *)
Lemma contentToStore_is_Some
    (hashes : list (FileHash * File)) (alreadyStoredHashes : list (FileHash * bool))
    (entityId : EntityId) (couldCommit : bool) :
  is_Some (JsMap.get entityId hashes) ->
  is_Some (contentToStore hashes alreadyStoredHashes entityId couldCommit).
Proof.
  intros [entityFile Hget]. unfold contentToStore.
  destruct couldCommit; [by eexists|].
  destruct (js_not _); [|by eexists]. rewrite Hget. by eexists.
Qed.

Lemma calculateHashes_get_is_Some files file :
  file ∈ files ->
  is_Some (JsMap.get (calculateHash file) (ServiceImpl.calculateHashes files)).
Proof.
  intros Hin. apply JsMap_get_of_entries_is_Some.
  apply list_elem_of_fmap. exists (calculateHash file, file). split; [done|].
  apply list_elem_of_fmap. by exists file.
Qed.

Lemma calculateHashes_elem files hash file :
  (hash, file) ∈ ServiceImpl.calculateHashes files ->
  file ∈ files ∧ calculateHash file = hash.
Proof.
  intros Hin%JsMap_elem_of_entries.
  apply list_elem_of_fmap in Hin as (f & Heq & Hf). by injection Heq as -> ->.
Qed.

Lemma findEntityFile_Ok files entityFile :
  ServiceImpl.findEntityFile files = Ok entityFile ->
  filter (fun file => file_name file = ENTITY_FILE_NAME) files = [entityFile]
  ∧ entityFile ∈ files.
Proof.
  unfold ServiceImpl.findEntityFile.
  destruct (filter _ files) as [|f [|g rest]] eqn:Hfilter; try done.
  intros [= ->]. split; [done|].
  assert (Hin : entityFile ∈ filter (fun file => file_name file = ENTITY_FILE_NAME) files)
    by (rewrite Hfilter; left).
  by apply list_elem_of_filter in Hin as [_ ?].
Qed.

(** The validation stage: it throws having touched at most the cache, or
    hands over to the commit in a world that differs from the initial one at
    most by the cache (and not at all without the freshness check). *)
Lemma validateAndCommit_inv
    this files entityFile entityId ethAddress signature server
    (timestampCalculator : ServiceImpl.TimestampCalculator) checkFreshness w :
  (∃ e w1,
      ServiceImpl.validateAndCommit this files entityFile entityId ethAddress signature
        server timestampCalculator checkFreshness w = (Throw e, w1)
      ∧ cacheOnly w w1)
  ∨ (∃ entity w1,
      fromFile entityFile entityId = Ok entity
      ∧ cacheOnly w w1 ∧ (checkFreshness = false -> w1 = w)
      ∧ ServiceImpl.validateAndCommit this files entityFile entityId ethAddress signature
          server timestampCalculator checkFreshness w =
        ServiceImpl.commitDeployment this entity (ServiceImpl.calculateHashes files)
          (availability w (JsMap.keys (ServiceImpl.calculateHashes files)))
          entityId ethAddress signature server timestampCalculator w1).
Proof.
  remember (ServiceImpl.validateAndCommit this files entityFile entityId ethAddress
              signature server timestampCalculator checkFreshness w) as r eqn:Hr.
  unfold ServiceImpl.validateAndCommit in Hr.
  unfold bind at 1, lift at 1 in Hr.
  destruct (fromFile entityFile entityId) as [entity|e].
  2: { left. exists e, w. split; [done | apply cacheOnly_refl]. }
  assert (Hfresh : ∃ fresh w1,
    (if checkFreshness
     then ServiceImpl.validateFreshDeployment entity ServiceImpl.getEntitiesByPointers
     else ret []) w = (Ok fresh, w1)
    ∧ cacheOnly w w1 ∧ (checkFreshness = false -> w1 = w)).
  { destruct checkFreshness.
    - unfold ServiceImpl.validateFreshDeployment, bind.
      destruct (getEntitiesByPointers_run (entity_type entity) (entity_pointers entity) w)
        as (found & w1 & -> & Hc).
      unfold ret. eexists _, _. split_and!; [reflexivity | done | done].
    - unfold ret. eexists _, _. split_and!; [reflexivity | apply cacheOnly_refl | done]. }
  destruct Hfresh as (fresh & w1 & Hrun & Hc & Hsame).
  unfold bind at 1 in Hr. rewrite Hrun in Hr.
  unfold bind at 1 in Hr. rewrite isContentAvailable_run in Hr.
  assert (Hav : availability w1 (JsMap.keys (ServiceImpl.calculateHashes files))
                = availability w (JsMap.keys (ServiceImpl.calculateHashes files))).
  { unfold availability. by destruct Hc as (-> & _). }
  rewrite Hav in Hr.
  match type of Hr with context [if ?b then throw _ else _] => destruct b end.
  - left. unfold throw in Hr. eexists _, _. split; [exact Hr | done].
  - right. exists entity, w1. split_and!; done.
Qed.

(** Every run of [deployEntityWithServerAndTimestamp]: it throws having
    touched at most the cache, or it succeeds and the final world is the
    initial one changed as described. *)
Lemma deploy_inv
    this files entityId ethAddress signature server
    (timestampCalculator : ServiceImpl.TimestampCalculator) checkFreshness w :
  (∃ e w',
      ServiceImpl.deployEntityWithServerAndTimestamp this files entityId ethAddress
        signature server timestampCalculator checkFreshness w = (Throw e, w')
      ∧ cacheOnly w w')
  ∨ (∃ entityFile entity loaded entries ts w3 w',
      ServiceImpl.deployEntityWithServerAndTimestamp this files entityId ethAddress
        signature server timestampCalculator checkFreshness w = (Ok ts, w')
      ∧ ServiceImpl.findEntityFile files = Ok entityFile
      ∧ calculateHash entityFile = entityId
      ∧ fromFile entityFile entityId = Ok entity
      ∧ contentToStore (ServiceImpl.calculateHashes files)
          (availability w (JsMap.keys (ServiceImpl.calculateHashes files))) entityId
          (couldCommit (tryToCommitPointers (pointerManager w) entity).1) = Some entries
      ∧ ts = timestampCalculator w3 ∧ clock w3 = clock w
      ∧ (checkFreshness = false -> loaded = [])
      ∧ storage w' =
          <[(StorageCategory.PROOFS, entity_id entity) :=
              stringifyAuditInfo (mkAuditInfo ts ethAddress signature)]>
            (foldl (fun s entry => <[(StorageCategory.CONTENTS, entry.1) := entry.2]> s)
                   (storage w) entries)
      ∧ pointerManager w' = (tryToCommitPointers (pointerManager w) entity).2
      ∧ historyManager w' = newEntityDeployment (historyManager w) server entity ts
      ∧ analytics w' = analytics w ++ [(ServiceImpl.serverName this, entity, ethAddress)]
      ∧ effects w' =
          effects w
          ++ map CacheSet loaded
          ++ [PointerCommit (entity_id entity)]
          ++ map CacheDelete (entitiesDeleted (tryToCommitPointers (pointerManager w) entity).1)
          ++ map (fun entry => StorageStore StorageCategory.CONTENTS entry.1 entry.2) entries
          ++ [StorageStore StorageCategory.PROOFS (entity_id entity)
                (stringifyAuditInfo (mkAuditInfo ts ethAddress signature));
              HistoryAppend server (entity_id entity) ts;
              AnalyticsRecord (ServiceImpl.serverName this) (entity_id entity) ethAddress]).
Proof.
  remember (ServiceImpl.deployEntityWithServerAndTimestamp this files entityId ethAddress
              signature server timestampCalculator checkFreshness w) as r eqn:Hr.
  unfold ServiceImpl.deployEntityWithServerAndTimestamp in Hr.
  unfold bind at 1, lift at 1 in Hr.
  destruct (ServiceImpl.findEntityFile files) as [entityFile|e] eqn:Hfind.
  2: { left. exists e, w. split; [done | apply cacheOnly_refl]. }
  destruct (decide (entityId = calculateHash entityFile)) as [Hhash|Hhash].
  2: { left. rewrite bool_decide_eq_false_2 in Hr by done. simpl in Hr.
       eexists _, w. split; [exact Hr | apply cacheOnly_refl]. }
  rewrite bool_decide_eq_true_2 in Hr by done. simpl in Hr.
  destruct (validateAndCommit_inv this files entityFile entityId ethAddress signature
              server timestampCalculator checkFreshness w)
    as [(e & w1 & Hrun & Hc)|(entity & w1 & Hparse & Hc & Hsame & Hrun)].
  { left. exists e, w1. split; [congruence | done]. }
  right. rewrite Hrun in Hr.
  destruct Hc as (Hs & Hp & Hh & Ha & Hclock & loaded & He).
  assert (Hloaded : ∃ loaded', effects w1 = effects w ++ map CacheSet loaded'
                               ∧ (checkFreshness = false -> loaded' = [])).
  { destruct checkFreshness.
    - exists loaded. done.
    - exists []. rewrite (Hsame eq_refl). simpl. by rewrite app_nil_r. }
  clear loaded He. destruct Hloaded as (loaded & He & Hnone).
  apply findEntityFile_Ok in Hfind as Hin. destruct Hin as [_ Hin].
  destruct (contentToStore_is_Some (ServiceImpl.calculateHashes files)
              (availability w (JsMap.keys (ServiceImpl.calculateHashes files))) entityId
              (couldCommit (tryToCommitPointers (pointerManager w) entity).1))
    as [entries Hentries].
  { rewrite Hhash. by apply calculateHashes_get_is_Some. }
  destruct (commitDeployment_run this entity (ServiceImpl.calculateHashes files)
              (availability w (JsMap.keys (ServiceImpl.calculateHashes files))) entityId
              ethAddress signature server timestampCalculator entries w1)
    as (ts & w3 & w' & Hcommit & Hts & Hclock3 & Hs' & Hp' & Hh' & Ha' & _ & He').
  { by rewrite Hp. }
  exists entityFile, entity, loaded, entries, ts, w3, w'.
  rewrite Hp in Hp', He'. rewrite Hs in Hs'. rewrite Hh in Hh'. rewrite Ha in Ha'.
  rewrite He in He'. rewrite <- app_assoc in He'.
  split_and!; try done; congruence.
Qed.

Lemma contentStores_app es1 es2 :
  contentStores (es1 ++ es2) = contentStores es1 ++ contentStores es2.
Proof. apply omap_app. Qed.

Lemma contentStores_CacheSet ids : contentStores (map CacheSet ids) = [].
Proof. induction ids as [|id ids IH]; [done | exact IH]. Qed.

Lemma contentStores_CacheDelete ids : contentStores (map CacheDelete ids) = [].
Proof. induction ids as [|id ids IH]; [done | exact IH]. Qed.

Lemma contentStores_stores (entries : list (FileHash * Buffer)) :
  contentStores
    (map (fun entry => StorageStore StorageCategory.CONTENTS entry.1 entry.2) entries)
  = entries.
Proof.
  induction entries as [|[h b] entries IH]; [done|].
  change (contentStores (map _ ((h, b) :: entries)))
    with ((h, b) :: contentStores
            (map (fun entry => StorageStore StorageCategory.CONTENTS entry.1 entry.2) entries)).
  by rewrite IH.
Qed.

Lemma NoDup_keys_filter {K V : Type} (P : K * V -> Prop) `{!forall x, Decision (P x)}
    (l : list (K * V)) :
  NoDup l.*1 -> NoDup (filter P l).*1.
Proof.
  induction l as [|x l IH]; [done|].
  rewrite fmap_cons, NoDup_cons. intros [Hnin Hnd].
  rewrite filter_cons. case_decide; [|by apply IH].
  rewrite fmap_cons, NoDup_cons. split; [|by apply IH].
  intros Hin. apply Hnin.
  apply list_elem_of_fmap in Hin as (y & -> & Hy).
  apply list_elem_of_filter in Hy as [_ Hy].
  by apply (list_elem_of_fmap_2 fst).
Qed.

Lemma keys_of_blobs (l : list (FileHash * File)) :
  (map (fun entry => (entry.1, file_content entry.2)) l).*1 = l.*1.
Proof. induction l as [|x l IH]; [done|]. simpl. by f_equal. Qed.

(** Reading the content category after a run of stores with distinct keys. *)
Lemma lookup_foldl_store (entries : list (FileHash * Buffer))
    (m : gmap (string * string) Buffer) (category : string) (hash : FileHash) :
  NoDup entries.*1 ->
  foldl (fun s entry => <[(category, entry.1) := entry.2]> s) m entries !! (category, hash)
  = match JsMap.get hash entries with
    | Some content => Some content
    | None => m !! (category, hash)
    end.
Proof.
  revert m. induction entries as [|[h b] entries IH]; intros m Hnd; [done|].
  rewrite fmap_cons, NoDup_cons in Hnd. destruct Hnd as [Hnin Hnd].
  simpl in Hnin. simpl. rewrite IH by done.
  destruct (decide (h = hash)) as [->|Hne].
  - apply JsMap_get_None in Hnin. rewrite Hnin. apply lookup_insert_eq.
  - destruct (JsMap.get hash entries); [done|].
    apply lookup_insert_ne. congruence.
Qed.

Lemma availability_get w (fileHashes : list FileHash) (hash : FileHash) :
  hash ∈ fileHashes ->
  JsMap.get hash (availability w fileHashes)
  = Some (bool_decide (is_Some (storage w !! (StorageCategory.CONTENTS, hash)))).
Proof.
  intros Hin. unfold availability.
  rewrite (JsMap_get_of_graph
             (fun h => bool_decide (is_Some (storage w !! (StorageCategory.CONTENTS, h))))).
  by rewrite decide_True.
Qed.

Lemma js_not_availability w (fileHashes : list FileHash) (hash : FileHash) :
  hash ∈ fileHashes ->
  js_not (JsMap.get hash (availability w fileHashes)) = true
  <-> storage w !! (StorageCategory.CONTENTS, hash) = None.
Proof.
  intros Hin. rewrite availability_get by done.
  destruct (storage w !! (StorageCategory.CONTENTS, hash)) as [b|] eqn:Hlook.
  - rewrite bool_decide_eq_true_2 by (by eexists). simpl. split; done.
  - rewrite bool_decide_eq_false_2 by (by intros [? ?]). simpl. split; done.
Qed.

Lemma JsMap_get_is_Some_keys {K V : Type} `{EqDecision K} (k : K) (m : list (K * V)) :
  is_Some (JsMap.get k m) -> k ∈ JsMap.keys m.
Proof.
  intros [v Hget]. destruct (decide (k ∈ JsMap.keys m)) as [|Hnin]; [done|].
  apply JsMap_get_None in Hnin. congruence.
Qed.

(** What [storeEntityContent] writes in a deployment, in terms of the
    uploaded files and of the storage before the deployment. *)
Lemma contentToStore_spec files w (entityId : EntityId) couldCommit entries entityFile :
  entityFile ∈ files -> calculateHash entityFile = entityId ->
  contentToStore (ServiceImpl.calculateHashes files)
    (availability w (JsMap.keys (ServiceImpl.calculateHashes files)))
    entityId couldCommit = Some entries ->
  NoDup entries.*1
  ∧ (forall hash content,
       (hash, content) ∈ entries ->
       storage w !! (StorageCategory.CONTENTS, hash) = None
       ∧ ∃ file, file ∈ files ∧ calculateHash file = hash ∧ file_content file = content)
  ∧ (couldCommit = true ->
     forall file,
       file ∈ files ->
       storage w !! (StorageCategory.CONTENTS, calculateHash file) = None ->
       calculateHash file ∈ entries.*1)
  ∧ (couldCommit = false ->
     (is_Some (storage w !! (StorageCategory.CONTENTS, entityId)) -> entries = [])
     ∧ (storage w !! (StorageCategory.CONTENTS, entityId) = None ->
        ∃ file, file ∈ files ∧ calculateHash file = entityId
                ∧ entries = [(entityId, file_content file)])).
Proof.
  intros Hin Hhash Hentries. unfold contentToStore in Hentries.
  set (hashes := ServiceImpl.calculateHashes files) in *.
  assert (Hkey : forall file, file ∈ files -> calculateHash file ∈ JsMap.keys hashes).
  { intros file Hfile. by apply JsMap_get_is_Some_keys, calculateHashes_get_is_Some. }
  destruct couldCommit.
  - injection Hentries as <-. split_and!.
    + rewrite keys_of_blobs. apply NoDup_keys_filter. apply JsMap_NoDup_of_entries.
    + intros hash content Hmem.
      apply list_elem_of_fmap in Hmem as ([h f] & Heq & Hmem). injection Heq as -> ->.
      apply list_elem_of_filter in Hmem as [Hnot Hmem]. simpl in Hnot.
      apply calculateHashes_elem in Hmem as Hfile. destruct Hfile as [Hfile Hh].
      split.
      * apply (js_not_availability w (JsMap.keys hashes)); [|done].
        by apply (list_elem_of_fmap_2 fst) in Hmem.
      * by exists f.
    + intros _ file Hfile Hfree.
      destruct (calculateHashes_get_is_Some files file Hfile) as [f Hget].
      apply JsMap_get_Some_elem in Hget.
      rewrite keys_of_blobs.
      apply list_elem_of_fmap. exists (calculateHash file, f). split; [done|].
      apply list_elem_of_filter. split; [|done]. simpl.
      apply js_not_availability; [by apply Hkey | done].
    + done.
  - assert (HkeyId : entityId ∈ JsMap.keys hashes) by (rewrite <- Hhash; by apply Hkey).
    pose proof (js_not_availability w (JsMap.keys hashes) entityId HkeyId) as Hnot.
    unfold EntityId, FileHash in *.
    destruct (js_not (JsMap.get entityId (availability w (JsMap.keys hashes)))) eqn:Hjs.
    + assert (Hfree : storage w !! (StorageCategory.CONTENTS, entityId) = None)
        by (by apply Hnot).
      destruct (JsMap.get entityId hashes) as [f|] eqn:Hget; [|done].
      injection Hentries as <-.
      apply JsMap_get_Some_elem, calculateHashes_elem in Hget as [Hfile Hh].
      split_and!.
      * apply NoDup_singleton.
      * intros hash content [= -> ->]%list_elem_of_singleton. split; [done | by exists f].
      * done.
      * intros _. split; [intros [b Hb]; congruence | intros _; by exists f].
    + injection Hentries as <-.
      assert (Hstored : storage w !! (StorageCategory.CONTENTS, entityId) ≠ None).
      { intros Hfree. apply Hnot in Hfree. congruence. }
      split_and!.
      * apply NoDup_nil_2.
      * intros hash content Hmem. by apply elem_of_nil in Hmem.
      * done.
      * intros _. split; [done | intros ?; congruence].
Qed.

(** The timestamp of a successful deployment is recorded in the audit
    record and in the history event. *)
Lemma deploy_records_timestamp
    this files entityId ethAddress signature server
    (timestampCalculator : ServiceImpl.TimestampCalculator) checkFreshness w ts w' :
  ServiceImpl.deployEntityWithServerAndTimestamp this files entityId ethAddress
    signature server timestampCalculator checkFreshness w = (Ok ts, w') ->
  (∃ w3, ts = timestampCalculator w3 ∧ clock w3 = clock w)
  ∧ timestampRecorded server ethAddress signature ts w w'.
Proof.
  intros Hrun.
  destruct (deploy_inv this files entityId ethAddress signature server
              timestampCalculator checkFreshness w)
    as [(e & w1 & Hthrow & _)
       |(entityFile & entity & loaded & entries & ts' & w3 & w1 & Hok & _ & _ & _ & _
         & Hts & Hclock & _ & Hs & _ & Hh & _ & He)].
  { congruence. }
  rewrite Hrun in Hok. injection Hok as <- <-.
  split; [by exists w3|].
  exists entity. split_and!.
  - rewrite Hs. apply lookup_insert_eq.
  - done.
  - unfold effectsSince. rewrite He, drop_app_length.
    rewrite !elem_of_app. do 4 right. right. left.
Qed.

End ServiceFacts.

(* ===================================================================== *)
(** * The deploy orchestrator                                             *)
(* ===================================================================== *)

Section ServiceTheorems.
Context `{Collaborators}.
Implicit Types (w : World).

(** C4.  The upload must hold exactly one file named entity.json, and its
    hash must be the entity id: with no such file, with several, or with a
    hash that differs from [entityId], the deployment throws and the world
    is untouched; with one such file of the right hash the deployment is the
    validation stage run on that file. *)
Theorem deploy_checks_entity_file
    this files entityId ethAddress signature server
    (timestampCalculator : ServiceImpl.TimestampCalculator) checkFreshness w :
  let named := filter (fun file => file_name file = ENTITY_FILE_NAME) files in
  let deploy :=
    ServiceImpl.deployEntityWithServerAndTimestamp this files entityId ethAddress
      signature server timestampCalculator checkFreshness in
  (named = [] ->
     deploy w =
     (Throw (Error "Failed to find the entity file. Please make sure that it is named 'entity.json'."),
      w))
  ∧ ((1 < length named)%nat ->
     deploy w =
     (Throw (Error "Found more than one file called 'entity.json'. Please make sure you upload only one with that name."),
      w))
  ∧ (forall entityFile,
       named = [entityFile] -> calculateHash entityFile ≠ entityId ->
       deploy w = (Throw (Error "Entity file's hash didn't match the signed entity id."), w))
  ∧ (forall entityFile,
       named = [entityFile] -> calculateHash entityFile = entityId ->
       deploy w =
       ServiceImpl.validateAndCommit this files entityFile entityId ethAddress signature
         server timestampCalculator checkFreshness w).
Proof.
  intros named deploy. subst deploy.
  unfold ServiceImpl.deployEntityWithServerAndTimestamp, ServiceImpl.findEntityFile.
  fold named. unfold bind, lift, throw.
  split_and!.
  - intros ->. reflexivity.
  - destruct named as [|f [|g rest]]; simpl; [lia | lia | reflexivity].
  - intros entityFile -> Hne.
    rewrite bool_decide_eq_false_2 by congruence. reflexivity.
  - intros entityFile -> Heq.
    rewrite bool_decide_eq_true_2 by congruence. reflexivity.
Qed.

(** C1 (amended).  A deployment that throws has changed neither storage,
    pointers, history nor analytics: at most the freshness lookup has loaded
    entities into the in-memory cache.  (The stores, the commit and the
    append of the collaborators do not fail here, so every throw comes from
    locating, hashing, parsing or validating.)  A deployment that succeeds
    makes its state-changing calls in this order: the pointer commit first,
    then the cache evictions, the content blobs, the audit record, the
    history append and the analytics record. *)
Theorem deploy_aborts_clean_and_commits_pointers_first
    this files entityId ethAddress signature server
    (timestampCalculator : ServiceImpl.TimestampCalculator) checkFreshness w :
  let r :=
    ServiceImpl.deployEntityWithServerAndTimestamp this files entityId ethAddress
      signature server timestampCalculator checkFreshness w in
  (forall e, r.1 = Throw e -> cacheOnly w r.2)
  ∧ (forall ts, r.1 = Ok ts ->
       ∃ entity loaded deleted blobs proof,
         effects r.2 =
           effects w
           ++ map CacheSet loaded
           ++ [PointerCommit (entity_id entity)]
           ++ map CacheDelete deleted
           ++ map (fun blob => StorageStore StorageCategory.CONTENTS blob.1 blob.2) blobs
           ++ [StorageStore StorageCategory.PROOFS (entity_id entity) proof;
               HistoryAppend server (entity_id entity) ts;
               AnalyticsRecord (ServiceImpl.serverName this) (entity_id entity) ethAddress]).
Proof.
  intros r. subst r.
  destruct (deploy_inv this files entityId ethAddress signature server
              timestampCalculator checkFreshness w)
    as [(e & w' & -> & Hc)
       |(entityFile & entity & loaded & entries & ts & w3 & w' & -> & _ & _ & _ & _
         & _ & _ & _ & _ & _ & _ & _ & He)]; simpl.
  - split; [done | intros ts [=]].
  - split; [intros e [=] |]. intros ts' [= <-].
    eexists entity, loaded, _, entries, _. exact He.
Qed.

(** C9 (what the code answers).  [getStatus] answers the server's name, the
    version "1.0" and the current time, and no [lastImmutableTime], which the
    redirect client's [getStatus] has and the end-to-end test reads; the
    world is left as it was. *)
Theorem getStatus_has_no_lastImmutableTime this w :
  ServiceImpl.getStatus this w =
  (Ok {| status_name := ServiceImpl.serverName this;
         status_version := "1.0";
         status_currentTime := clock w;
         status_lastImmutableTime := None |}, w).
Proof. reflexivity. Qed.

(** C2.  In a successful deployment the service moves pointers only
    through the pointer manager's commit, and writes content blobs by the
    commit's verdict.  When the commit reports [couldCommit = false] (and the
    pointer manager keeps its contract that a shadowed commit moves nothing)
    no pointer has moved, and the only blob written is the entity file, under
    the entity id, and only if that hash was not stored yet.  When it reports
    [couldCommit = true] the blobs written are exactly the uploaded files
    whose hash was not stored yet, each once, under its hash.  Blobs already
    stored are never overwritten. *)
Theorem deploy_stores_content_by_commit_result
    this files entityId ethAddress signature server
    (timestampCalculator : ServiceImpl.TimestampCalculator) checkFreshness w :
  shadowedCommitMovesNoPointer ->
  let r :=
    ServiceImpl.deployEntityWithServerAndTimestamp this files entityId ethAddress
      signature server timestampCalculator checkFreshness w in
  forall ts, r.1 = Ok ts ->
  ∃ entityFile entity,
    ServiceImpl.findEntityFile files = Ok entityFile
    ∧ fromFile entityFile entityId = Ok entity
    ∧ let commit := tryToCommitPointers (pointerManager w) entity in
      let stored := contentStores (effectsSince w r.2) in
      pointerManager r.2 = commit.2
      ∧ NoDup stored.*1
      ∧ (forall hash,
           storage r.2 !! (StorageCategory.CONTENTS, hash) =
           match storage w !! (StorageCategory.CONTENTS, hash) with
           | Some old => Some old
           | None => JsMap.get hash stored
           end)
      ∧ (couldCommit commit.1 = false ->
           pointerManager r.2 = pointerManager w
           ∧ (is_Some (storage w !! (StorageCategory.CONTENTS, entityId)) -> stored = [])
           ∧ (storage w !! (StorageCategory.CONTENTS, entityId) = None ->
              (∃ file, file ∈ files ∧ calculateHash file = entityId
                       ∧ stored = [(entityId, file_content file)])
              ∧ ((forall file, file ∈ files -> calculateHash file = entityId ->
                               file_content file = file_content entityFile) ->
                 stored = [(entityId, file_content entityFile)])))
      ∧ (couldCommit commit.1 = true ->
           (forall hash,
              hash ∈ stored.*1 <->
              (∃ file, file ∈ files ∧ calculateHash file = hash)
              ∧ storage w !! (StorageCategory.CONTENTS, hash) = None)
           ∧ (forall hash content,
                (hash, content) ∈ stored ->
                ∃ file, file ∈ files ∧ calculateHash file = hash
                        ∧ file_content file = content)).
Proof.
  intros Hcontract r ts Hok. subst r.
  destruct (deploy_inv this files entityId ethAddress signature server
              timestampCalculator checkFreshness w)
    as [(e & w1 & Hthrow & _)
       |(entityFile & entity & loaded & entries & ts' & w3 & w1 & Hrun & Hfind & Hhash
         & Hparse & Hentries & _ & _ & _ & Hs & Hp & _ & _ & He)].
  { rewrite Hthrow in Hok. discriminate. }
  rewrite Hrun in *. simpl in Hok. simpl.
  exists entityFile, entity. split; [done|]. split; [done|].
  assert (Hstored : contentStores (effectsSince w w1) = entries).
  { unfold effectsSince. rewrite He, drop_app_length.
    rewrite !contentStores_app, contentStores_CacheSet, contentStores_CacheDelete,
      contentStores_stores.
    simpl. by rewrite app_nil_r. }
  rewrite Hstored.
  apply findEntityFile_Ok in Hfind as Hin. destruct Hin as [_ Hin].
  destruct (contentToStore_spec files w entityId _ entries entityFile Hin Hhash Hentries)
    as (Hnd & Hmem & Htrue & Hfalse).
  split_and!.
  - done.
  - done.
  - intros hash. rewrite Hs.
    rewrite lookup_insert_ne by (intros [=]).
    rewrite lookup_foldl_store by done.
    destruct (JsMap.get hash entries) as [content|] eqn:Hget.
    + apply JsMap_get_Some_elem, Hmem in Hget as [-> _]. done.
    + by destruct (storage w !! (StorageCategory.CONTENTS, hash)).
  - intros Hshadow. destruct (Hfalse Hshadow) as [Hkept Hnew].
    split_and!.
    + rewrite Hp. by apply Hcontract.
    + done.
    + intros Hfree. destruct (Hnew Hfree) as (file & Hfile & Hh & ->).
      split; [by exists file|].
      intros Hunique. by rewrite (Hunique file Hfile Hh).
  - intros Hcommitted. split.
    + intros hash. split.
      * intros Hkey. apply list_elem_of_fmap in Hkey as ([h content] & -> & Hkey).
        destruct (Hmem h content Hkey) as (Hfree & file & Hfile & Hh & _).
        split; [by exists file | done].
      * intros [(file & Hfile & <-) Hfree]. by apply Htrue.
    + intros hash content Hkey. by destruct (Hmem hash content Hkey) as [_ ?].
Qed.

(** C3.  The timestamp of a successful deployment is the clock's reading on
    the local path ([deployEntity]) and the peer's timestamp, unchanged, on
    the sync path ([deployEntityFromAnotherContentServer], which itself
    resolves to nothing: the timestamp is what the orchestrator it awaits
    returns); on both paths that value is the [deployedTimestamp] of the
    audit record stored and the timestamp of the history event appended. *)
Theorem deployment_timestamp_is_now_or_peer_timestamp
    this files entityId ethAddress signature w :
  (forall ts,
     let r := ServiceImpl.deployEntity this files entityId ethAddress signature w in
     r.1 = Ok ts ->
     ts = clock w
     ∧ timestampRecorded (ServiceImpl.serverName this) ethAddress signature ts w r.2)
  ∧ (forall server peerTimestamp ts,
       let r :=
         ServiceImpl.deployEntityWithServerAndTimestamp this files entityId ethAddress
           signature server (fun _ => peerTimestamp) false w in
       r.1 = Ok ts ->
       ts = peerTimestamp
       ∧ timestampRecorded server ethAddress signature peerTimestamp w r.2)
  ∧ (forall server peerTimestamp,
       let r :=
         ServiceImpl.deployEntityFromAnotherContentServer this files entityId ethAddress
           signature server peerTimestamp w in
       r.1 = Ok tt ->
       timestampRecorded server ethAddress signature peerTimestamp w r.2).
Proof.
  split_and!.
  - intros ts r Hok. subst r. unfold ServiceImpl.deployEntity in *.
    destruct (ServiceImpl.deployEntityWithServerAndTimestamp this files entityId
                ethAddress signature (ServiceImpl.serverName this) ServiceImpl.Date_now
                true w) as [o w'] eqn:Hrun.
    simpl in Hok. subst o.
    apply deploy_records_timestamp in Hrun as [(w3 & -> & Hclock) Hrec].
    split; [exact Hclock | done].
  - intros server peerTimestamp ts r Hok. subst r.
    destruct (ServiceImpl.deployEntityWithServerAndTimestamp this files entityId
                ethAddress signature server (fun _ => peerTimestamp) false w)
      as [o w'] eqn:Hrun.
    simpl in Hok. subst o.
    apply deploy_records_timestamp in Hrun as [(w3 & -> & _) Hrec]. done.
  - intros server peerTimestamp r Hok. subst r.
    unfold ServiceImpl.deployEntityFromAnotherContentServer, bind in *.
    destruct (ServiceImpl.deployEntityWithServerAndTimestamp this files entityId
                ethAddress signature server (fun _ => peerTimestamp) false w)
      as [[ts|e] w1] eqn:Hinner; [|discriminate].
    unfold ret. simpl.
    apply deploy_records_timestamp in Hinner as [(w3 & -> & _) Hrec]. done.
Qed.

End ServiceTheorems.

(* ===================================================================== *)
(** * The orchestrator on the reference collaborators                     *)
(* ===================================================================== *)

(** The reference pointer manager keeps the shadowing rule. *)
Lemma Reference_shadowedCommitMovesNoPointer :
  @shadowedCommitMovesNoPointer Reference.collaborators.
Proof.
  intros state entity. simpl. unfold Reference.tryToCommit.
  destruct (existsb _ _); simpl; [done | discriminate].
Qed.

Lemma deploy_checks_entity_file_witness :
  ServiceImpl.deployEntityWithServerAndTimestamp (H := Reference.collaborators)
    Reference.service [Reference.imageFile] Reference.entityFileId "0xabc" "sig"
    "Server1" ServiceImpl.Date_now true (Reference.emptyWorld 1000)
  = (Throw (Error "Failed to find the entity file. Please make sure that it is named 'entity.json'."),
     Reference.emptyWorld 1000)
  ∧ ServiceImpl.deployEntityWithServerAndTimestamp (H := Reference.collaborators)
      Reference.service [Reference.entityFile; Reference.olderEntityFile]
      Reference.entityFileId "0xabc" "sig" "Server1" ServiceImpl.Date_now true
      (Reference.emptyWorld 1000)
    = (Throw (Error "Found more than one file called 'entity.json'. Please make sure you upload only one with that name."),
       Reference.emptyWorld 1000)
  ∧ ServiceImpl.deployEntityWithServerAndTimestamp (H := Reference.collaborators)
      Reference.service [Reference.entityFile; Reference.imageFile]
      Reference.olderEntityFileId "0xabc" "sig" "Server1" ServiceImpl.Date_now true
      (Reference.emptyWorld 1000)
    = (Throw (Error "Entity file's hash didn't match the signed entity id."),
       Reference.emptyWorld 1000)
  ∧ ServiceImpl.deployEntityWithServerAndTimestamp (H := Reference.collaborators)
      Reference.service [Reference.entityFile; Reference.imageFile]
      Reference.entityFileId "0xabc" "sig" "Server1" ServiceImpl.Date_now true
      (Reference.emptyWorld 1000)
    = ServiceImpl.validateAndCommit (H := Reference.collaborators)
        Reference.service [Reference.entityFile; Reference.imageFile] Reference.entityFile
        Reference.entityFileId "0xabc" "sig" "Server1" ServiceImpl.Date_now true
        (Reference.emptyWorld 1000).
Proof.
  split_and!.
  - apply (proj1 (deploy_checks_entity_file (H := Reference.collaborators)
                    Reference.service [Reference.imageFile] Reference.entityFileId
                    "0xabc" "sig" "Server1" ServiceImpl.Date_now true
                    (Reference.emptyWorld 1000))).
    reflexivity.
  - apply (proj1 (proj2 (deploy_checks_entity_file (H := Reference.collaborators)
                    Reference.service [Reference.entityFile; Reference.olderEntityFile]
                    Reference.entityFileId "0xabc" "sig" "Server1" ServiceImpl.Date_now true
                    (Reference.emptyWorld 1000)))).
    vm_compute. lia.
  - apply (proj1 (proj2 (proj2 (deploy_checks_entity_file (H := Reference.collaborators)
                    Reference.service [Reference.entityFile; Reference.imageFile]
                    Reference.olderEntityFileId "0xabc" "sig" "Server1"
                    ServiceImpl.Date_now true (Reference.emptyWorld 1000))))
             Reference.entityFile).
    + reflexivity.
    + vm_compute. discriminate.
  - apply (proj2 (proj2 (proj2 (deploy_checks_entity_file (H := Reference.collaborators)
                    Reference.service [Reference.entityFile; Reference.imageFile]
                    Reference.entityFileId "0xabc" "sig" "Server1"
                    ServiceImpl.Date_now true (Reference.emptyWorld 1000))))
             Reference.entityFile).
    + reflexivity.
    + reflexivity.
Defined.

(** C1, as stated, fails: the first local deployment of an entity file and
    an image succeeds, and its first state-changing call is the pointer
    commit; the entity file's blob is stored after it. *)
Lemma deploy_stores_blobs_after_pointer_commit :
  (ServiceImpl.deployEntity (H := Reference.collaborators) Reference.service
     [Reference.entityFile; Reference.imageFile] Reference.entityFileId "0xabc" "sig"
     (Reference.emptyWorld 1000)).1 = Ok 1000
  ∧ ¬ storesBlobsBeforePointerCommit
        (effectsSince (Reference.emptyWorld 1000) Reference.worldAfterFirstDeploy).
Proof.
  split; [vm_compute; reflexivity|].
  intros Hclaim.
  specialize (Hclaim 1%nat 0%nat "cid:d" [Byte.x64] "cid:d").
  assert (Hlt : (1 < 0)%nat) by (apply Hclaim; vm_compute; reflexivity).
  lia.
Qed.

Lemma deploy_aborts_clean_and_commits_pointers_first_witness :
  cacheOnly Reference.worldAfterFirstDeploy
    (ServiceImpl.deployEntityWithServerAndTimestamp (H := Reference.collaborators)
       Reference.service [Reference.olderEntityFile; Reference.imageFile]
       Reference.olderEntityFileId "0xabc" "sig" "Server1" ServiceImpl.Date_now true
       Reference.worldAfterFirstDeploy).2
  ∧ ∃ entity loaded deleted blobs proof,
      effects Reference.worldAfterFirstDeploy =
        effects (Reference.emptyWorld 1000)
        ++ map CacheSet loaded
        ++ [PointerCommit (entity_id entity)]
        ++ map CacheDelete deleted
        ++ map (fun blob => StorageStore StorageCategory.CONTENTS blob.1 blob.2) blobs
        ++ [StorageStore StorageCategory.PROOFS (entity_id entity) proof;
            HistoryAppend "Server1" (entity_id entity) 1000;
            AnalyticsRecord "Server1" (entity_id entity) "0xabc"].
Proof.
  split.
  - eapply (proj1 (deploy_aborts_clean_and_commits_pointers_first
                     (H := Reference.collaborators) Reference.service
                     [Reference.olderEntityFile; Reference.imageFile]
                     Reference.olderEntityFileId "0xabc" "sig" "Server1"
                     ServiceImpl.Date_now true Reference.worldAfterFirstDeploy)).
    vm_compute. reflexivity.
  - apply (proj2 (deploy_aborts_clean_and_commits_pointers_first
                    (H := Reference.collaborators) Reference.service
                    [Reference.entityFile; Reference.imageFile]
                    Reference.entityFileId "0xabc" "sig" "Server1"
                    ServiceImpl.Date_now true (Reference.emptyWorld 1000)) 1000).
    vm_compute. reflexivity.
Defined.

Lemma deploy_stores_content_by_commit_result_witness :
  @shadowedCommitMovesNoPointer Reference.collaborators
  ∧ Reference.shadowedRun.1 = Ok 77
  ∧ pointerManager Reference.shadowedRun.2 = pointerManager Reference.worldAfterFirstDeploy
  ∧ contentStores (effectsSince Reference.worldAfterFirstDeploy Reference.shadowedRun.2)
    = [(Reference.olderEntityFileId, file_content Reference.olderEntityFile)]
  ∧ (forall hash,
       hash ∈ (contentStores
                 (effectsSince (Reference.emptyWorld 1000) Reference.worldAfterFirstDeploy)).*1
       <-> (∃ file, file ∈ [Reference.entityFile; Reference.imageFile]
                    ∧ Reference.hashOfContent file = hash)
           ∧ storage (Reference.emptyWorld 1000) !! (StorageCategory.CONTENTS, hash) = None).
Proof.
  assert (Hshadowed : Reference.shadowedRun.1 = Ok 77) by (vm_compute; reflexivity).
  split; [exact Reference_shadowedCommitMovesNoPointer|].
  split; [exact Hshadowed|].
  destruct (deploy_stores_content_by_commit_result (H := Reference.collaborators)
              Reference.service [Reference.olderEntityFile; Reference.imageFile]
              Reference.olderEntityFileId "0xabc" "sig" "Server2" (fun _ => 77) false
              Reference.worldAfterFirstDeploy Reference_shadowedCommitMovesNoPointer
              77 Hshadowed)
    as (entityFile & entity & Hfind & Hparse & _ & _ & _ & Hfalse & _).
  vm_compute in Hfind. injection Hfind as <-.
  vm_compute in Hparse. injection Hparse as <-.
  destruct Hfalse as (Hpointers & _ & Hnew); [vm_compute; reflexivity|].
  split; [exact Hpointers|].
  split.
  - destruct Hnew as [_ Hentity]; [vm_compute; reflexivity|].
    apply Hentity. intros file Hfile Hhash.
    apply elem_of_cons in Hfile as [->|Hfile]; [reflexivity|].
    apply list_elem_of_singleton in Hfile as ->. vm_compute in Hhash. discriminate.
  - destruct (deploy_stores_content_by_commit_result (H := Reference.collaborators)
                Reference.service [Reference.entityFile; Reference.imageFile]
                Reference.entityFileId "0xabc" "sig" "Server1" ServiceImpl.Date_now true
                (Reference.emptyWorld 1000) Reference_shadowedCommitMovesNoPointer
                1000 ltac:(vm_compute; reflexivity))
      as (entityFile & entity & Hfind & Hparse & _ & _ & _ & _ & Htrue).
    vm_compute in Hfind. injection Hfind as <-.
    vm_compute in Hparse. injection Hparse as <-.
    destruct Htrue as [Hexactly _]; [vm_compute; reflexivity|].
    exact Hexactly.
Defined.

Lemma deployment_timestamp_is_now_or_peer_timestamp_witness :
  1000 = clock (Reference.emptyWorld 1000)
  ∧ @timestampRecorded Reference.collaborators "Server1" "0xabc" "sig" 1000
      (Reference.emptyWorld 1000) Reference.worldAfterFirstDeploy
  ∧ @timestampRecorded Reference.collaborators "Server2" "0xabc" "sig" 77
      Reference.worldAfterFirstDeploy Reference.shadowedRun.2
  ∧ @timestampRecorded Reference.collaborators "Server2" "0xabc" "sig" 77
      Reference.worldAfterFirstDeploy
      (ServiceImpl.deployEntityFromAnotherContentServer (H := Reference.collaborators)
         Reference.service [Reference.olderEntityFile; Reference.imageFile]
         Reference.olderEntityFileId "0xabc" "sig" "Server2" 77
         Reference.worldAfterFirstDeploy).2.
Proof.
  split; [|split; [|split]].
  - apply (proj1 (deployment_timestamp_is_now_or_peer_timestamp
                    (H := Reference.collaborators) Reference.service
                    [Reference.entityFile; Reference.imageFile] Reference.entityFileId
                    "0xabc" "sig" (Reference.emptyWorld 1000)) 1000).
    vm_compute. reflexivity.
  - apply (proj1 (deployment_timestamp_is_now_or_peer_timestamp
                    (H := Reference.collaborators) Reference.service
                    [Reference.entityFile; Reference.imageFile] Reference.entityFileId
                    "0xabc" "sig" (Reference.emptyWorld 1000)) 1000).
    vm_compute. reflexivity.
  - apply (proj1 (proj2 (deployment_timestamp_is_now_or_peer_timestamp
                    (H := Reference.collaborators) Reference.service
                    [Reference.olderEntityFile; Reference.imageFile]
                    Reference.olderEntityFileId "0xabc" "sig"
                    Reference.worldAfterFirstDeploy)) "Server2" 77 77).
    vm_compute. reflexivity.
  - apply (proj2 (proj2 (deployment_timestamp_is_now_or_peer_timestamp
                    (H := Reference.collaborators) Reference.service
                    [Reference.olderEntityFile; Reference.imageFile]
                    Reference.olderEntityFileId "0xabc" "sig"
                    Reference.worldAfterFirstDeploy)) "Server2" 77).
    vm_compute. reflexivity.
Defined.

(* ===================================================================== *)
(** * The redirect client                                                 *)
(* ===================================================================== *)

(** When no server rejects late, the loop of [redirectCall] answers with
    the first success, and throws when there is none. *)
Lemma redirectCall_loop_first_success {T : Type}
    (call : ContentServerClient -> Outcome (Promise T)) (servers : list ContentServerClient) :
  (forall server, server ∈ servers -> forall e, call server ≠ Ok (Rejected e)) ->
  RedirectContentServerClient.redirectCall_loop call servers =
  match RedirectContentServerClient.firstSuccess call servers with
  | Some answer => Ok (Fulfilled answer)
  | None => Throw (Error "Failed to distribute call among reachable servers")
  end.
Proof.
  induction servers as [|server rest IH]; intros Hsettled; simpl; [done|].
  destruct (call server) as [[answer|e]|e] eqn:Hcall.
  - done.
  - exfalso. apply (Hsettled server ltac:(left) e). done.
  - apply IH. intros other Hother. apply Hsettled. by right.
Qed.

Lemma redirectCall_returnsFirstSuccess {T : Type}
    (this : RedirectContentServerClient.t)
    (call : ContentServerClient -> Outcome (Promise T)) :
  RedirectContentServerClient.noLateRejection this call ->
  RedirectContentServerClient.returnsFirstSuccess this call
    (RedirectContentServerClient.redirectCall this call).
Proof.
  intros Hsettled.
  unfold RedirectContentServerClient.returnsFirstSuccess,
    RedirectContentServerClient.redirectCall.
  rewrite redirectCall_loop_first_success by exact Hsettled.
  by destruct (RedirectContentServerClient.firstSuccess _ _).
Qed.

(** C8 (amended).  A redirect client is never active, [updateTimestamp]
    leaves it as it was (so [lastKnownTimestamp] never moves), and
    [getStatus] is answered by the client itself, without asking any server:
    its own name, version "Unknown", [lastKnownTimestamp] as current time and
    -1 as last immutable time.  [getHistory], [getAuditInfo], [getEntity] and
    [getContentFile] go to the active servers of the cluster in order; when
    no server rejects its promise after the call was issued, the answer is
    the first success, and the call fails exactly when no active server
    succeeds. *)
Theorem redirect_client_forwards_queries_only (this : RedirectContentServerClient.t) :
  RedirectContentServerClient.isActive this = false
  ∧ (forall timestamp,
       (RedirectContentServerClient.updateTimestamp this timestamp).1 = this
       ∧ RedirectContentServerClient.lastKnownTimestamp
           (RedirectContentServerClient.updateTimestamp this timestamp).1
         = RedirectContentServerClient.lastKnownTimestamp this
       ∧ (RedirectContentServerClient.updateTimestamp this timestamp).2 = Fulfilled tt)
  ∧ RedirectContentServerClient.getStatus this
    = Ok (Fulfilled (RedirectContentServerClient.unknownStatus this))
  ∧ (forall (since : Timestamp) (serverName : option ServerName) (until : option Timestamp),
       RedirectContentServerClient.noLateRejection this
         (fun server => client_getHistory server since serverName until) ->
       RedirectContentServerClient.returnsFirstSuccess this
         (fun server => client_getHistory server since serverName until)
         (RedirectContentServerClient.getHistory this since serverName until))
  ∧ (forall entityType entityId,
       RedirectContentServerClient.noLateRejection this
         (fun server => client_getAuditInfo server entityType entityId) ->
       RedirectContentServerClient.returnsFirstSuccess this
         (fun server => client_getAuditInfo server entityType entityId)
         (RedirectContentServerClient.getAuditInfo this entityType entityId))
  ∧ (forall entityType entityId,
       RedirectContentServerClient.noLateRejection this
         (fun server => client_getEntity server entityType entityId) ->
       RedirectContentServerClient.returnsFirstSuccess this
         (fun server => client_getEntity server entityType entityId)
         (RedirectContentServerClient.getEntity this entityType entityId))
  ∧ (forall fileHash,
       RedirectContentServerClient.noLateRejection this
         (fun server => client_getContentFile server fileHash) ->
       RedirectContentServerClient.returnsFirstSuccess this
         (fun server => client_getContentFile server fileHash)
         (RedirectContentServerClient.getContentFile this fileHash)).
Proof.
  split_and!; try done.
  - intros since serverName until. apply redirectCall_returnsFirstSuccess.
  - intros entityType entityId. apply redirectCall_returnsFirstSuccess.
  - intros entityType entityId. apply redirectCall_returnsFirstSuccess.
  - intros fileHash. apply redirectCall_returnsFirstSuccess.
Qed.

Lemma redirect_client_forwards_queries_only_witness :
  RedirectContentServerClient.getContentFile
    (Reference.redirectClient
       [Reference.throwingServer;
        Reference.answeringServer Reference.server2Status Reference.pngFile])
    "cid:png"
  = Ok (Fulfilled Reference.pngFile)
  ∧ RedirectContentServerClient.failed
      (RedirectContentServerClient.getContentFile
         (Reference.redirectClient [Reference.throwingServer]) "cid:png").
Proof.
  split.
  - apply (proj2 (proj2 (proj2 (proj2 (proj2 (proj2
             (redirect_client_forwards_queries_only
                (Reference.redirectClient
                   [Reference.throwingServer;
                    Reference.answeringServer Reference.server2Status Reference.pngFile])))))))
             "cid:png").
    intros server Hserver e.
    apply elem_of_cons in Hserver as [->|Hserver]; [discriminate|].
    apply list_elem_of_singleton in Hserver as ->. discriminate.
  - pose proof (proj2 (proj2 (proj2 (proj2 (proj2 (proj2
             (redirect_client_forwards_queries_only
                (Reference.redirectClient [Reference.throwingServer])))))))
             "cid:png") as Hforward.
    assert (Hsettled : RedirectContentServerClient.noLateRejection
                         (Reference.redirectClient [Reference.throwingServer])
                         (fun server => client_getContentFile server "cid:png")).
    { intros server Hserver e. apply list_elem_of_singleton in Hserver as ->. discriminate. }
    exact (Hforward Hsettled).
Defined.

(** C8, as stated, fails on [getStatus]: with "Server2" active and answering
    its status, the redirect client still answers its own placeholder
    status, not the first success among the active servers. *)
Lemma redirect_getStatus_asks_no_server :
  RedirectContentServerClient.getStatus
    (Reference.redirectClient
       [Reference.answeringServer Reference.server2Status Reference.pngFile])
  = Ok (Fulfilled (mkServerStatus "Server3" "Unknown" 1234 (Some (-1))))
  ∧ ¬ RedirectContentServerClient.returnsFirstSuccess
        (Reference.redirectClient
           [Reference.answeringServer Reference.server2Status Reference.pngFile])
        client_getStatus
        (RedirectContentServerClient.getStatus
           (Reference.redirectClient
              [Reference.answeringServer Reference.server2Status Reference.pngFile])).
Proof.
  split; [reflexivity|].
  unfold RedirectContentServerClient.returnsFirstSuccess. simpl. discriminate.
Qed.

(** The [try] of [redirectCall] does not await: when the first active
    server's promise is rejected, the rejection is the answer, although the
    next active server would have succeeded. *)
Lemma redirect_returns_rejected_promise_of_first_server :
  RedirectContentServerClient.getContentFile
    (Reference.redirectClient
       [Reference.rejectingServer;
        Reference.answeringServer Reference.server2Status Reference.pngFile])
    "cid:png"
  = Ok (Rejected (Error "connect ECONNREFUSED"))
  ∧ RedirectContentServerClient.firstSuccess
      (fun server => client_getContentFile server "cid:png")
      [Reference.rejectingServer;
       Reference.answeringServer Reference.server2Status Reference.pngFile]
    = Some Reference.pngFile.
Proof. split; reflexivity. Qed.

(* ===================================================================== *)
(** * The blacklist decorator                                             *)
(* ===================================================================== *)

Section BlacklistTheorems.
Context `{Collaborators} `{Blacklist}.

(** C10.  Let the blacklist answer nothing when asked about no target.
    When the deployer's address is not blacklisted and the upload parses to
    an entity whose [content] is absent or empty, the decorator's
    [deployEntity] throws the [TypeError] of reducing an empty array without
    an initial value: whatever the pointers are, blacklisted or not, the
    decorated service is never called and the world is untouched. *)
Theorem blacklist_deploy_throws_on_entity_without_content
    (service : BlacklistServiceDecorator.MetaverseContentService)
    files entityId ethAddress signature entityFile entity w :
  areTargetsBlacklisted [] = [] ->
  BlacklistServiceDecorator.areBlacklisted [buildAddressTarget ethAddress] = Ok false ->
  ServiceImpl.findEntityFile files = Ok entityFile ->
  fromFile entityFile entityId = Ok entity ->
  entity_content entity = None ∨ entity_content entity = Some [] ->
  BlacklistServiceDecorator.deployEntity service files entityId ethAddress signature w
  = (Throw (TypeError "Reduce of empty array with no initial value"), w).
Proof.
  intros Hnone Haddress Hfind Hparse Hcontent.
  unfold BlacklistServiceDecorator.deployEntity.
  unfold bind at 1, lift at 1. rewrite Haddress.
  unfold bind at 1, lift at 1. rewrite Hfind.
  unfold bind at 1, lift at 1. rewrite Hparse.
  assert (Htargets :
    map buildContentTarget
        (match entity_content entity with
         | Some content => JsMap.values content
         | None => []
         end) = []).
  { by destruct Hcontent as [-> | ->]. }
  rewrite Htargets.
  unfold bind at 1, lift at 1.
  unfold BlacklistServiceDecorator.areBlacklisted at 1. rewrite Hnone. reflexivity.
Qed.

End BlacklistTheorems.

Lemma blacklist_deploy_throws_on_entity_without_content_witness :
  (ServiceImpl.deployEntity (H := Reference.collaborators) Reference.service
     [Reference.entityFile] Reference.entityFileId "0xabc" "sig"
     (Reference.emptyWorld 1000)).1 = Ok 1000
  ∧ BlacklistServiceDecorator.deployEntity
      (H := Reference.collaborators) (H0 := Reference.blacklistOf [])
      Reference.metaverseService [Reference.entityFile] Reference.entityFileId
      "0xabc" "sig" (Reference.emptyWorld 1000)
    = (Throw (TypeError "Reduce of empty array with no initial value"),
       Reference.emptyWorld 1000).
Proof.
  split; [vm_compute; reflexivity|].
  apply (blacklist_deploy_throws_on_entity_without_content
           (H := Reference.collaborators) (H0 := Reference.blacklistOf [])
           Reference.metaverseService [Reference.entityFile] Reference.entityFileId
           "0xabc" "sig" Reference.entityFile
           (mkEntity Reference.entityFileId "scene" ["0,0"] 100 None None)).
  - reflexivity.
  - reflexivity.
  - reflexivity.
  - reflexivity.
  - left. reflexivity.
Defined.

(* ===================================================================== *)
(** * The validation predicates                                           *)
(* ===================================================================== *)

(** C5.  With non-negative bounds, RECENT yields the "not recent enough"
    error when the entity's timestamp lies more than [requestTtlBackwards]
    before now, the "too far in the future" error when it lies more than
    [requestTtlForwards] after now, and nothing exactly when it lies within
    the two bounds, in particular when it is now.  With the default bounds
    (10 minutes back, 5 forward) a timestamp of now minus 25 minutes is
    refused as not recent enough. *)
Theorem RECENT_refuses_outside_the_window
    (now : Timestamp) (env : Validations.ServerEnvironment) (entity : Entity) :
  0 <= Validations.requestTtlBackwards env ->
  0 <= Validations.requestTtlForwards env ->
  (entity_timestamp entity < now - Validations.requestTtlBackwards env ->
     Validations.RECENT now env entity
     = Some ["The request is not recent enough, please submit it again with a new timestamp."])
  ∧ (now + Validations.requestTtlForwards env < entity_timestamp entity ->
     Validations.RECENT now env entity
     = Some ["The request is too far in the future, please submit it again with a new timestamp."])
  ∧ (entity_timestamp entity = now -> Validations.RECENT now env entity = None)
  ∧ (Validations.RECENT now env entity = None <->
     now - Validations.requestTtlBackwards env <= entity_timestamp entity
       <= now + Validations.requestTtlForwards env)
  ∧ (entity_timestamp entity = now - Validations.ms_minutes 25 ->
     Validations.RECENT now Validations.defaultEnv entity
     = Some ["The request is not recent enough, please submit it again with a new timestamp."]).
Proof.
  intros Hback Hforward. unfold Validations.RECENT.
  split_and!.
  - intros Hpast. rewrite bool_decide_eq_true_2 by lia. reflexivity.
  - intros Hfuture.
    rewrite bool_decide_eq_false_2 by lia.
    rewrite bool_decide_eq_true_2 by lia. reflexivity.
  - intros Hnow.
    rewrite bool_decide_eq_false_2 by lia.
    rewrite bool_decide_eq_false_2 by lia. reflexivity.
  - repeat case_bool_decide; split; intros; try discriminate; try lia; done.
  - intros Hpast. rewrite bool_decide_eq_true_2; [reflexivity|].
    unfold Validations.defaultEnv, Validations.ms_minutes in *. simpl. lia.
Qed.

Lemma RECENT_refuses_outside_the_window_witness :
  Validations.RECENT 3000000 Validations.defaultEnv
    (Validations.buildEntity (3000000 - Validations.ms_minutes 25) None ["P1"])
  = Some ["The request is not recent enough, please submit it again with a new timestamp."]
  ∧ Validations.RECENT 3000000 Validations.defaultEnv
      (Validations.buildEntity (3000000 + Validations.ms_minutes 20) None ["P1"])
    = Some ["The request is too far in the future, please submit it again with a new timestamp."]
  ∧ Validations.RECENT 3000000 Validations.defaultEnv
      (Validations.buildEntity 3000000 None ["P1"])
    = None.
Proof.
  assert (Hback : 0 <= Validations.requestTtlBackwards Validations.defaultEnv)
    by (vm_compute; discriminate).
  assert (Hforward : 0 <= Validations.requestTtlForwards Validations.defaultEnv)
    by (vm_compute; discriminate).
  split_and!.
  - apply (proj1 (RECENT_refuses_outside_the_window 3000000 Validations.defaultEnv
                    (Validations.buildEntity (3000000 - Validations.ms_minutes 25) None ["P1"])
                    Hback Hforward)).
    vm_compute. reflexivity.
  - apply (proj1 (proj2 (RECENT_refuses_outside_the_window 3000000 Validations.defaultEnv
                    (Validations.buildEntity (3000000 + Validations.ms_minutes 20) None ["P1"])
                    Hback Hforward))).
    vm_compute. reflexivity.
  - apply (proj1 (proj2 (proj2 (RECENT_refuses_outside_the_window 3000000
                    Validations.defaultEnv
                    (Validations.buildEntity 3000000 None ["P1"]) Hback Hforward)))).
    reflexivity.
Defined.

Lemma filter_none {A : Type} (P : A -> Prop) `{!forall x, Decision (P x)} (l : list A) :
  (forall x, x ∈ l -> ¬ P x) -> filter P l = [].
Proof.
  induction l as [|x l IH]; intros Hnone; [done|].
  rewrite filter_cons, decide_False by (apply Hnone; left).
  apply IH. intros y Hy. apply Hnone. by right.
Qed.

Section ContentFacts.
Context (entity : Entity) (files : list (FileHash * Buffer))
        (isContentStoredAlready : list FileHash -> list (FileHash * bool)).

Lemma CONTENT_errors errors :
  Validations.CONTENT entity files isContentStoredAlready = Some errors <->
  errors = Validations.contentErrors entity files isContentStoredAlready ∧ errors ≠ [].
Proof.
  unfold Validations.CONTENT.
  destruct (Validations.contentErrors entity files isContentStoredAlready) as [|e es].
  - split; [discriminate | intros [-> ?]; done].
  - split; [intros [= <-]; done | intros [-> _]; done].
Qed.

Lemma CONTENT_reports error :
  error ∈ Validations.contentErrors entity files isContentStoredAlready ->
  ∃ errors, Validations.CONTENT entity files isContentStoredAlready = Some errors
            ∧ error ∈ errors.
Proof.
  intros Hin. exists (Validations.contentErrors entity files isContentStoredAlready).
  split; [|done]. apply CONTENT_errors. split; [done|].
  intros Hnil. rewrite Hnil in Hin. by apply elem_of_nil in Hin.
Qed.

End ContentFacts.

(** C6.  CONTENT reports the "not uploaded or previously available" error
    for each hash of [entity.content] that is neither among the uploaded
    files nor reported as already stored, and the "uploaded but not
    referenced" error for each uploaded hash that [entity.content] does not
    reference and that is not the entity's own id; it reports nothing else,
    and yields nothing when every referenced hash is uploaded or stored and
    every upload is referenced or is the entity file. *)
Theorem CONTENT_reports_missing_and_orphan_hashes
    (entity : Entity) (files : list (FileHash * Buffer))
    (isContentStoredAlready : list FileHash -> list (FileHash * bool)) :
  let referenced := Validations.referencedHashes entity in
  let stored := isContentStoredAlready referenced in
  (forall hash,
     hash ∈ referenced -> JsMap.has hash files = false -> JsMap.get hash stored ≠ Some true ->
     ∃ errors,
       Validations.CONTENT entity files isContentStoredAlready = Some errors
       ∧ ("This hash is referenced in the entity but was not uploaded or previously available: "
          +:+ hash) ∈ errors)
  ∧ (forall hash,
       hash ∈ JsMap.keys files -> hash ∉ referenced -> hash ≠ entity_id entity ->
       ∃ errors,
         Validations.CONTENT entity files isContentStoredAlready = Some errors
         ∧ ("This hash was uploaded but is not referenced in the entity: " +:+ hash) ∈ errors)
  ∧ ((forall hash, hash ∈ referenced ->
                   JsMap.has hash files = true ∨ JsMap.get hash stored = Some true) ->
     (forall hash, hash ∈ JsMap.keys files -> hash ∈ referenced ∨ hash = entity_id entity) ->
     Validations.CONTENT entity files isContentStoredAlready = None)
  ∧ (forall errors error,
       Validations.CONTENT entity files isContentStoredAlready = Some errors ->
       error ∈ errors ->
       (∃ hash, error = Validations.notAvailableHashMessage hash
                ∧ hash ∈ referenced ∧ JsMap.has hash files = false
                ∧ JsMap.get hash stored ≠ Some true)
       ∨ (∃ hash, error = Validations.notReferencedHashMessage hash
                  ∧ hash ∈ JsMap.keys files ∧ (hash ∉ referenced)
                  ∧ hash ≠ entity_id entity)).
Proof.
  intros referenced stored. split_and!.
  - intros hash Hreferenced Hupload Hstored. apply CONTENT_reports.
    unfold Validations.contentErrors. apply elem_of_app. left.
    apply (list_elem_of_fmap_2 Validations.notAvailableHashMessage).
    apply list_elem_of_filter. done.
  - intros hash Hupload Hreferenced Hid. apply CONTENT_reports.
    unfold Validations.contentErrors. apply elem_of_app. right.
    apply (list_elem_of_fmap_2 Validations.notReferencedHashMessage).
    apply list_elem_of_filter. done.
  - intros Havailable Hreferenced.
    unfold Validations.CONTENT, Validations.contentErrors.
    fold referenced. fold stored.
    assert (Hnone1 :
      filter (fun hash => JsMap.has hash files = false ∧ JsMap.get hash stored ≠ Some true)
             referenced = []).
    { apply filter_none. intros hash Hin [Hno Hnot].
      destruct (Havailable hash Hin); congruence. }
    assert (Hnone2 :
      filter (fun hash => (hash ∉ referenced) ∧ hash ≠ entity_id entity) (JsMap.keys files)
      = []).
    { apply filter_none. intros hash Hin [Hno Hnot].
      destruct (Hreferenced hash Hin); done. }
    rewrite Hnone1, Hnone2. reflexivity.
  - intros errors error [-> _]%CONTENT_errors Hin.
    unfold Validations.contentErrors in Hin.
    apply elem_of_app in Hin as [Hin|Hin];
      apply list_elem_of_fmap in Hin as (hash & -> & Hin);
      apply list_elem_of_filter in Hin as [[? ?] ?]; [left | right]; exists hash; done.
Qed.

(** The scenarios of the [Content] tests: a referenced hash that is neither
    uploaded nor stored, an orphan upload, and a clean upload. *)
Lemma CONTENT_reports_missing_and_orphan_hashes_witness :
  (∃ errors,
     Validations.CONTENT (Validations.buildEntity 0 (Some [("name", "hash")]) ["P1"]) []
       Validations.nothingStored = Some errors
     ∧ "This hash is referenced in the entity but was not uploaded or previously available: hash"
       ∈ errors)
  ∧ (∃ errors,
       Validations.CONTENT (Validations.buildEntity 0 (Some [("name-1", "hash-1")]) ["P1"])
         [("hash-1", []); ("hash-2", [])] Validations.nothingStored = Some errors
       ∧ "This hash was uploaded but is not referenced in the entity: hash-2" ∈ errors)
  ∧ Validations.CONTENT (Validations.buildEntity 0 (Some [("name", "hash")]) ["P1"])
      [("hash", []); ("id", [])] Validations.nothingStored = None.
Proof.
  split_and!.
  - apply (proj1 (CONTENT_reports_missing_and_orphan_hashes
                    (Validations.buildEntity 0 (Some [("name", "hash")]) ["P1"]) []
                    Validations.nothingStored) "hash").
    + vm_compute. left.
    + reflexivity.
    + vm_compute. discriminate.
  - apply (proj1 (proj2 (CONTENT_reports_missing_and_orphan_hashes
                    (Validations.buildEntity 0 (Some [("name-1", "hash-1")]) ["P1"])
                    [("hash-1", []); ("hash-2", [])] Validations.nothingStored)) "hash-2").
    + vm_compute. right. left.
    + vm_compute. intros Hin. apply list_elem_of_singleton in Hin. discriminate.
    + vm_compute. discriminate.
  - apply (proj1 (proj2 (proj2 (CONTENT_reports_missing_and_orphan_hashes
                    (Validations.buildEntity 0 (Some [("name", "hash")]) ["P1"])
                    [("hash", []); ("id", [])] Validations.nothingStored)))).
    + intros hash Hin. apply list_elem_of_singleton in Hin as ->. left. reflexivity.
    + intros hash Hin. apply elem_of_cons in Hin as [->|Hin]; [left; left|].
      apply list_elem_of_singleton in Hin as ->. right. reflexivity.
Defined.

Lemma totalSize_getFileWithSize (sizeInMB : Z) :
  0 <= sizeInMB ->
  Validations.totalSize (Validations.getFileWithSize sizeInMB) = sizeInMB * 1024 * 1024.
Proof.
  intros Hpos. unfold Validations.totalSize, Validations.getFileWithSize.
  cbn [foldr snd]. rewrite length_replicate, Z2Nat.id by lia. lia.
Qed.

(** Comparing the size per pointer with a whole number of bytes is
    comparing the total size with that number times the pointers. *)
Lemma sizePerPointer_over (entity : Entity) (files : list (FileHash * Buffer)) (bytes : Z) :
  entity_pointers entity ≠ [] ->
  (inject_Z bytes < Validations.sizePerPointer entity files)%Q <->
  bytes * Z.of_nat (length (entity_pointers entity)) < Validations.totalSize files.
Proof.
  intros Hpointers. unfold Validations.sizePerPointer.
  destruct (entity_pointers entity) as [|pointer rest]; [done|].
  change (length (pointer :: rest)) with (S (length rest)).
  rewrite Nat2Z.inj_succ.
  destruct (Z.succ (Z.of_nat (length rest))) as [|count|count] eqn:Hcount; [lia | | lia].
  unfold Qlt, Qdiv, Qmult, Qinv, inject_Z. simpl.
  rewrite Pos.mul_1_l. lia.
Qed.

(** C7.  For an entity with pointers whose type has a configured limit,
    REQUEST_SIZE_V3 fails exactly when the total size of the uploaded files
    divided by the number of pointers exceeds the limit in megabytes; that
    is, when the total exceeds the limit times the number of pointers.  A
    3 MB upload against a 2 MB limit fails with one pointer and passes with
    two. *)
Theorem REQUEST_SIZE_V3_fails_iff_over_limit :
  (forall (env : Validations.ServerEnvironment) (entity : Entity)
          (files : list (FileHash * Buffer)) (detail : string) (maxSizeInMB : Z),
     Validations.maxUploadSizePerTypeInMB env !! entity_type entity = Some maxSizeInMB ->
     entity_pointers entity ≠ [] ->
     (Validations.REQUEST_SIZE_V3 env entity files detail ≠ None <->
      (inject_Z (maxSizeInMB * 1024 * 1024) < Validations.sizePerPointer entity files)%Q)
     ∧ (Validations.REQUEST_SIZE_V3 env entity files detail ≠ None <->
        maxSizeInMB * 1024 * 1024 * Z.of_nat (length (entity_pointers entity))
        < Validations.totalSize files)
     ∧ (Validations.REQUEST_SIZE_V3 env entity files detail ≠ None ->
        Validations.REQUEST_SIZE_V3 env entity files detail
        = Some ["The deployment is too big. The maximum allowed size per pointer is "
                +:+ detail]))
  ∧ (forall now detail,
       Validations.REQUEST_SIZE_V3 Validations.sceneLimitEnv
         (Validations.buildEntity now None ["P1"]) (Validations.getFileWithSize 3) detail
       = Some ["The deployment is too big. The maximum allowed size per pointer is "
               +:+ detail])
  ∧ (forall now detail,
       Validations.REQUEST_SIZE_V3 Validations.sceneLimitEnv
         (Validations.buildEntity now None ["P1"; "P2"]) (Validations.getFileWithSize 3) detail
       = None).
Proof.
  assert (Hgeneral :
    forall env entity files detail maxSizeInMB,
      Validations.maxUploadSizePerTypeInMB env !! entity_type entity = Some maxSizeInMB ->
      entity_pointers entity ≠ [] ->
      (maxSizeInMB * 1024 * 1024 * Z.of_nat (length (entity_pointers entity))
         < Validations.totalSize files ->
       Validations.REQUEST_SIZE_V3 env entity files detail
       = Some [Validations.tooBigMessage +:+ detail])
      ∧ (¬ maxSizeInMB * 1024 * 1024 * Z.of_nat (length (entity_pointers entity))
           < Validations.totalSize files ->
         Validations.REQUEST_SIZE_V3 env entity files detail = None)).
  { intros env entity files detail maxSizeInMB Hlimit Hpointers.
    unfold Validations.REQUEST_SIZE_V3. rewrite Hlimit.
    rewrite <- (sizePerPointer_over entity files) by done.
    destruct (Qle_bool (Validations.sizePerPointer entity files)
                       (inject_Z (maxSizeInMB * 1024 * 1024))) eqn:Hle.
    - apply Qle_bool_iff in Hle. split; [|done].
      intros Hlt. exfalso. by apply (Qlt_not_le _ _ Hlt).
    - split; [done|]. intros Hnot. exfalso. apply Hnot.
      apply Qnot_le_lt. intros Hle'. apply Qle_bool_iff in Hle'. congruence. }
  split_and!.
  - intros env entity files detail maxSizeInMB Hlimit Hpointers.
    destruct (Hgeneral env entity files detail maxSizeInMB Hlimit Hpointers)
      as [Hover Hwithin].
    destruct (decide (maxSizeInMB * 1024 * 1024 * Z.of_nat (length (entity_pointers entity))
                      < Validations.totalSize files)) as [Hlt|Hge].
    + rewrite (Hover Hlt). rewrite sizePerPointer_over by done.
      split_and!; [split; done | split; done | done].
    + rewrite (Hwithin Hge). rewrite sizePerPointer_over by done.
      split_and!; [split; done | split; done | done].
  - intros now detail.
    apply (Hgeneral Validations.sceneLimitEnv (Validations.buildEntity now None ["P1"])
             (Validations.getFileWithSize 3) detail 2).
    + apply lookup_singleton_eq.
    + done.
    + rewrite totalSize_getFileWithSize by lia.
      change (length (entity_pointers (Validations.buildEntity now None ["P1"]))) with 1%nat.
      lia.
  - intros now detail.
    apply (Hgeneral Validations.sceneLimitEnv (Validations.buildEntity now None ["P1"; "P2"])
             (Validations.getFileWithSize 3) detail 2).
    + apply lookup_singleton_eq.
    + done.
    + rewrite totalSize_getFileWithSize by lia.
      change (length (entity_pointers (Validations.buildEntity now None ["P1"; "P2"])))
        with 2%nat.
      lia.
Qed.

Lemma REQUEST_SIZE_V3_fails_iff_over_limit_witness :
  (Validations.REQUEST_SIZE_V3 Validations.sceneLimitEnv
     (Validations.buildEntity 0 None ["P1"]) [("someHash", [Byte.x00; Byte.x00])] "2 MB"
   ≠ None
   <-> 2 * 1024 * 1024 * 1 < 2).
Proof.
  apply (proj1 (proj2 (proj1 REQUEST_SIZE_V3_fails_iff_over_limit
                         Validations.sceneLimitEnv (Validations.buildEntity 0 None ["P1"])
                         [("someHash", [Byte.x00; Byte.x00])] "2 MB" 2
                         ltac:(reflexivity) ltac:(discriminate)))).
Defined.

(* ===================================================================== *)
(** * The read queries of the service                                     *)
(* ===================================================================== *)

Section RemoveDuplicates.
Implicit Types (seen ids : list EntityId).







End RemoveDuplicates.


Section QueryTheorems.
Context `{Collaborators}.
Implicit Types (w : World).

(** X1.  [getEntityById] caches: an entity in the cache is answered without
    touching the world; an entity answered is in the cache afterwards;
    asking again right away gives the same answer and changes nothing more;
    and an id that is neither cached nor stored gives [undefined] and leaves
    the world as it was. *)
Theorem getEntityById_caches (id : EntityId) w :
  (forall entity, entities w !! id = Some entity ->
                  ServiceImpl.getEntityById id w = (Ok (Some entity), w))
  ∧ (forall entity, (ServiceImpl.getEntityById id w).1 = Ok (Some entity) ->
                    entities (ServiceImpl.getEntityById id w).2 !! id = Some entity)
  ∧ ServiceImpl.getEntityById id (ServiceImpl.getEntityById id w).2
    = ServiceImpl.getEntityById id w
  ∧ (entities w !! id = None -> storage w !! (StorageCategory.CONTENTS, id) = None ->
     ServiceImpl.getEntityById id w = (Ok None, w)).
Proof.
  assert (Hset : forall entity,
    ServiceImpl.getEntityById id (ServiceImpl.entities_set id entity w)
    = (Ok (Some entity), ServiceImpl.entities_set id entity w)).
  { intros entity. unfold ServiceImpl.getEntityById at 1.
    replace (entities (ServiceImpl.entities_set id entity w) !! id) with (Some entity);
      [done|].
    unfold ServiceImpl.entities_set, log. simpl. by rewrite lookup_insert_eq. }
  split_and!.
  - intros entity Hhit. unfold ServiceImpl.getEntityById. by rewrite Hhit.
  - intros entity. unfold ServiceImpl.getEntityById.
    destruct (entities w !! id) as [cached|] eqn:Hcache.
    { simpl. by intros [= ->]. }
    destruct (storage w !! (StorageCategory.CONTENTS, id)) as [buffer|]; [|discriminate].
    destruct (fromBufferWithId buffer id) as [parsed|e]; [|discriminate].
    simpl. intros [= ->]. apply lookup_insert_eq.
  - unfold ServiceImpl.getEntityById at 2 3.
    destruct (entities w !! id) as [cached|] eqn:Hcache.
    { simpl. unfold ServiceImpl.getEntityById. by rewrite Hcache. }
    destruct (storage w !! (StorageCategory.CONTENTS, id)) as [buffer|] eqn:Hstored.
    2: { simpl. unfold ServiceImpl.getEntityById. by rewrite Hcache, Hstored. }
    destruct (fromBufferWithId buffer id) as [parsed|e] eqn:Hparse.
    + simpl. apply Hset.
    + simpl. unfold ServiceImpl.getEntityById. by rewrite Hcache, Hstored, Hparse.
  - intros Hcache Hstored. unfold ServiceImpl.getEntityById. by rewrite Hcache, Hstored.
Qed.




(** X4.  [isContentAvailable] only reads: the world is as before, and the
    map answered has one entry per distinct hash asked, telling whether a
    blob is stored under that hash; a hash that was not asked has no entry. *)
Theorem isContentAvailable_answers_each_hash (fileHashes : list FileHash) w :
  ∃ answer,
    ServiceImpl.isContentAvailable fileHashes w = (Ok answer, w)
    ∧ NoDup (JsMap.keys answer)
    ∧ (forall hash, hash ∈ JsMap.keys answer <-> hash ∈ fileHashes)
    ∧ (forall hash,
         JsMap.get hash answer =
         if decide (hash ∈ fileHashes)
         then Some (bool_decide (is_Some (storage w !! (StorageCategory.CONTENTS, hash))))
         else None).
Proof.
  exists (availability w fileHashes).
  assert (Hget : forall hash : FileHash,
    JsMap.get hash (availability w fileHashes) =
    if decide (hash ∈ fileHashes)
    then Some (bool_decide (is_Some (storage w !! (StorageCategory.CONTENTS, hash))))
    else None).
  { intros hash. unfold availability.
    apply (JsMap_get_of_graph
             (fun h => bool_decide (is_Some (storage w !! (StorageCategory.CONTENTS, h))))). }
  split_and!.
  - apply isContentAvailable_run.
  - apply JsMap_NoDup_of_entries.
  - intros hash. split.
    + intros Hkey. destruct (decide (hash ∈ fileHashes)) as [|Hnot]; [done|].
      exfalso. apply (proj1 (JsMap_get_None hash (availability w fileHashes))); [|done].
      rewrite Hget. by rewrite decide_False.
    + intros Hin. apply JsMap_get_is_Some_keys. rewrite Hget, decide_True by done.
      by eexists.
  - exact Hget.
Qed.

End QueryTheorems.

(* ===================================================================== *)
(** * More on the deploy orchestrator                                     *)
(* ===================================================================== *)

Section DeployFacts.
Context `{Collaborators}.
Implicit Types (w : World).

(** The validation stage, case by case. *)
Lemma validateAndCommit_cases
    this files entityFile entityId ethAddress signature server
    (timestampCalculator : ServiceImpl.TimestampCalculator) checkFreshness w entity :
  fromFile entityFile entityId = Ok entity ->
  ∃ fresh w1,
    cacheOnly w w1
    ∧ (checkFreshness = false -> w1 = w ∧ fresh = [])
    ∧ ServiceImpl.validateAndCommit this files entityFile entityId ethAddress signature
        server timestampCalculator checkFreshness w =
      let findings :=
        validationFindings entity files entityId ethAddress signature fresh
          (availability w (JsMap.keys (ServiceImpl.calculateHashes files))) in
      if negb (ServiceImpl.ignoreValidationErrors this)
         && bool_decide (0 < length findings)%nat
      then (Throw (joinedFindings findings), w1)
      else ServiceImpl.commitDeployment this entity (ServiceImpl.calculateHashes files)
             (availability w (JsMap.keys (ServiceImpl.calculateHashes files)))
             entityId ethAddress signature server timestampCalculator w1.
Proof.
  intros Hparse.
  remember (ServiceImpl.validateAndCommit this files entityFile entityId ethAddress
              signature server timestampCalculator checkFreshness w) as r eqn:Hr.
  unfold ServiceImpl.validateAndCommit in Hr.
  unfold bind at 1, lift at 1 in Hr. rewrite Hparse in Hr.
  assert (Hfresh : ∃ fresh w1,
    (if checkFreshness
     then ServiceImpl.validateFreshDeployment entity ServiceImpl.getEntitiesByPointers
     else ret []) w = (Ok fresh, w1)
    ∧ cacheOnly w w1 ∧ (checkFreshness = false -> w1 = w ∧ fresh = [])).
  { destruct checkFreshness.
    - unfold ServiceImpl.validateFreshDeployment, bind.
      destruct (getEntitiesByPointers_run (entity_type entity) (entity_pointers entity) w)
        as (found & w1 & -> & Hc).
      unfold ret. eexists _, _. split_and!; [reflexivity | done | done].
    - unfold ret. eexists _, _. split_and!; [reflexivity | apply cacheOnly_refl | done]. }
  destruct Hfresh as (fresh & w1 & Hrun & Hc & Hsame).
  unfold bind at 1 in Hr. rewrite Hrun in Hr.
  unfold bind at 1 in Hr. rewrite isContentAvailable_run in Hr.
  assert (Hav : availability w1 (JsMap.keys (ServiceImpl.calculateHashes files))
                = availability w (JsMap.keys (ServiceImpl.calculateHashes files))).
  { unfold availability. by destruct Hc as (-> & _). }
  rewrite Hav in Hr.
  exists fresh, w1. split_and!; [done | done |].
  rewrite Hr. unfold validationFindings, joinedFindings, throw. simpl.
  by destruct (negb (ServiceImpl.ignoreValidationErrors this) && _).
Qed.

(** Every run of the orchestrator, case by case: it fails before the
    validations and the world is untouched; or the validations refuse it; or
    it is the commit. *)
Lemma deploy_cases
    this files entityId ethAddress signature server
    (timestampCalculator : ServiceImpl.TimestampCalculator) checkFreshness w :
  (∃ e,
     ServiceImpl.deployEntityWithServerAndTimestamp this files entityId ethAddress
       signature server timestampCalculator checkFreshness w = (Throw e, w)
     ∧ forall entityFile entity,
         ServiceImpl.findEntityFile files = Ok entityFile ->
         calculateHash entityFile = entityId ->
         fromFile entityFile entityId = Ok entity -> False)
  ∨ (∃ entityFile entity fresh w1,
       ServiceImpl.findEntityFile files = Ok entityFile
       ∧ calculateHash entityFile = entityId
       ∧ fromFile entityFile entityId = Ok entity
       ∧ cacheOnly w w1
       ∧ (checkFreshness = false -> w1 = w ∧ fresh = [])
       ∧ ServiceImpl.deployEntityWithServerAndTimestamp this files entityId ethAddress
           signature server timestampCalculator checkFreshness w =
         let findings :=
           validationFindings entity files entityId ethAddress signature fresh
             (availability w (JsMap.keys (ServiceImpl.calculateHashes files))) in
         if negb (ServiceImpl.ignoreValidationErrors this)
            && bool_decide (0 < length findings)%nat
         then (Throw (joinedFindings findings), w1)
         else ServiceImpl.commitDeployment this entity (ServiceImpl.calculateHashes files)
                (availability w (JsMap.keys (ServiceImpl.calculateHashes files)))
                entityId ethAddress signature server timestampCalculator w1).
Proof.
  remember (ServiceImpl.deployEntityWithServerAndTimestamp this files entityId ethAddress
              signature server timestampCalculator checkFreshness w) as r eqn:Hr.
  unfold ServiceImpl.deployEntityWithServerAndTimestamp in Hr.
  unfold bind at 1, lift at 1 in Hr.
  destruct (ServiceImpl.findEntityFile files) as [entityFile|e] eqn:Hfind.
  2: { left. exists e. split; [done | intros ? ? [=]]. }
  destruct (decide (entityId = calculateHash entityFile)) as [Hhash|Hhash].
  2: { left. rewrite bool_decide_eq_false_2 in Hr by done. simpl in Hr.
       eexists. split; [exact Hr|]. intros ? ? [= <-] ?. congruence. }
  rewrite bool_decide_eq_true_2 in Hr by done. simpl in Hr.
  destruct (fromFile entityFile entityId) as [entity|e] eqn:Hparse.
  2: { left. exists e. split.
       - rewrite Hr. unfold ServiceImpl.validateAndCommit, bind, lift. by rewrite Hparse.
       - intros ? ? [= <-] _ ?. congruence. }
  right.
  destruct (validateAndCommit_cases this files entityFile entityId ethAddress signature
              server timestampCalculator checkFreshness w entity Hparse)
    as (fresh & w1 & Hc & Hsame & Hrun).
  exists entityFile, entity, fresh, w1. rewrite Hr. split_and!; done.
Qed.

(** The commit always succeeds in a deployment, and empties the cache of
    the entities the pointer commit reports as deleted. *)
Lemma commitDeployment_in_deploy
    this files entityFile entity entityId ethAddress signature server
    (timestampCalculator : ServiceImpl.TimestampCalculator) w w1 :
  entityFile ∈ files -> calculateHash entityFile = entityId ->
  cacheOnly w w1 ->
  ∃ ts w',
    ServiceImpl.commitDeployment this entity (ServiceImpl.calculateHashes files)
      (availability w (JsMap.keys (ServiceImpl.calculateHashes files)))
      entityId ethAddress signature server timestampCalculator w1 = (Ok ts, w')
    ∧ entities w' =
      foldl (fun cache id => delete id cache) (entities w1)
            (entitiesDeleted (tryToCommitPointers (pointerManager w) entity).1).
Proof.
  intros Hin Hhash (Hs & Hp & _).
  destruct (contentToStore_is_Some (ServiceImpl.calculateHashes files)
              (availability w (JsMap.keys (ServiceImpl.calculateHashes files))) entityId
              (couldCommit (tryToCommitPointers (pointerManager w) entity).1))
    as [entries Hentries].
  { rewrite <- Hhash. by apply calculateHashes_get_is_Some. }
  unfold ServiceImpl.commitDeployment.
  unfold bind at 1. unfold ServiceImpl.pointerManager_tryToCommitPointers at 1.
  rewrite Hp.
  destruct (tryToCommitPointers (pointerManager w) entity) as [result pm] eqn:Hcommit.
  simpl in Hentries. unfold bind at 1.
  match goal with
  | |- context [mapM ServiceImpl.entities_delete ?ids ?w2] =>
      destruct (mapM_entities_delete ids w2) as (us & ->)
  end.
  unfold bind at 1. rewrite storeEntityContent_run, Hentries.
  eexists _, _. split; [reflexivity|]. reflexivity.
Qed.

Lemma lookup_foldl_delete (cache : gmap EntityId Entity) (ids : list EntityId) (id : EntityId) :
  foldl (fun cache id => delete id cache) cache ids !! id =
  if decide (id ∈ ids) then None else cache !! id.
Proof.
  revert cache. induction ids as [|x ids IH]; intros cache.
  - destruct (decide (id ∈ [])) as [Hin|_]; [by apply elem_of_nil in Hin | done].
  - change (foldl (fun cache id => delete id cache) cache (x :: ids))
      with (foldl (fun cache id => delete id cache) (delete x cache) ids).
    rewrite IH.
    destruct (decide (id ∈ ids)) as [Hin|Hnin], (decide (id ∈ x :: ids)) as [Hin'|Hnin'].
    + done.
    + exfalso. apply Hnin'. by right.
    + apply elem_of_cons in Hin' as [->|?]; [apply lookup_delete_eq | done].
    + apply lookup_delete_ne. intros ->. apply Hnin'. left.
Qed.

End DeployFacts.

Section DeployTheorems.
Context `{Collaborators} `{StorageReads}.
Implicit Types (w : World).


(** X6.  Without [ignoreValidationErrors], a deployment that succeeds has
    passed every validation: the signature, request size, entity, access,
    type and hashes checks all came back without findings. *)
Theorem successful_deploy_passed_validations
    this files entityId ethAddress signature server
    (timestampCalculator : ServiceImpl.TimestampCalculator) checkFreshness w ts :
  ServiceImpl.ignoreValidationErrors this = false ->
  (ServiceImpl.deployEntityWithServerAndTimestamp this files entityId ethAddress
     signature server timestampCalculator checkFreshness w).1 = Ok ts ->
  ∃ entityFile entity,
    ServiceImpl.findEntityFile files = Ok entityFile
    ∧ fromFile entityFile entityId = Ok entity
    ∧ validateSignature entityId ethAddress signature = []
    ∧ validateRequestSize files = []
    ∧ validateEntity entity = []
    ∧ validateAccess (entity_pointers entity) ethAddress (entity_type entity) = []
    ∧ validateType entity = []
    ∧ validateHashes entity (ServiceImpl.calculateHashes files)
        (availability w (JsMap.keys (ServiceImpl.calculateHashes files))) = [].
Proof.
  intros Hflag Hok.
  destruct (deploy_cases this files entityId ethAddress signature server
              timestampCalculator checkFreshness w)
    as [(e & Hthrow & _)
       |(entityFile & entity & fresh & w1 & Hfind & _ & Hparse & _ & _ & Hrun)].
  { rewrite Hthrow in Hok. discriminate. }
  rewrite Hrun, Hflag in Hok. simpl in Hok.
  exists entityFile, entity. split; [done|]. split; [done|].
  case_bool_decide as Hfindings; [discriminate|].
  assert (Hnil : validationFindings entity files entityId ethAddress signature fresh
                   (availability w (JsMap.keys (ServiceImpl.calculateHashes files))) = []).
  { destruct (validationFindings _ _ _ _ _ _ _); [done|]. simpl in Hfindings. lia. }
  unfold validationFindings in Hnil.
  repeat (apply app_nil in Hnil as [Hnil ?]).
  split_and!; done.
Qed.

(** X7.  On the sync path (no freshness check), a deployment the
    validations refuse throws a single error whose message joins all the
    findings by newlines, in the order signature, request size, entity,
    access, type, hashes; the world is left exactly as it was. *)
Theorem refused_sync_deploy_reports_all_findings
    this files entityId ethAddress signature server
    (timestampCalculator : ServiceImpl.TimestampCalculator) w entityFile entity :
  ServiceImpl.ignoreValidationErrors this = false ->
  ServiceImpl.findEntityFile files = Ok entityFile ->
  calculateHash entityFile = entityId ->
  fromFile entityFile entityId = Ok entity ->
  validationFindings entity files entityId ethAddress signature []
    (availability w (JsMap.keys (ServiceImpl.calculateHashes files))) ≠ [] ->
  ServiceImpl.deployEntityWithServerAndTimestamp this files entityId ethAddress
    signature server timestampCalculator false w
  = (Throw (joinedFindings
              (validationFindings entity files entityId ethAddress signature []
                 (availability w (JsMap.keys (ServiceImpl.calculateHashes files))))),
     w).
Proof.
  intros Hflag Hfind Hhash Hparse Hfindings.
  destruct (deploy_cases this files entityId ethAddress signature server
              timestampCalculator false w)
    as [(e & _ & Hnever)
       |(entityFile' & entity' & fresh & w1 & Hfind' & _ & Hparse' & _ & Hsame & ->)].
  { exfalso. by eapply Hnever. }
  destruct (Hsame eq_refl) as [-> ->].
  rewrite Hfind in Hfind'. injection Hfind' as <-.
  rewrite Hparse in Hparse'. injection Hparse' as <-.
  rewrite Hflag. simpl.
  rewrite bool_decide_eq_true_2; [done|].
  destruct (validationFindings _ _ _ _ _ _ _); [done | simpl; lia].
Qed.


(** X9.  After a successful deployment no entity that the pointer commit
    reported as deleted is left in the in-memory cache. *)
Theorem successful_deploy_evicts_deleted_entities
    this files entityId ethAddress signature server
    (timestampCalculator : ServiceImpl.TimestampCalculator) checkFreshness w ts :
  (ServiceImpl.deployEntityWithServerAndTimestamp this files entityId ethAddress
     signature server timestampCalculator checkFreshness w).1 = Ok ts ->
  ∃ entityFile entity,
    ServiceImpl.findEntityFile files = Ok entityFile
    ∧ fromFile entityFile entityId = Ok entity
    ∧ forall id,
        id ∈ entitiesDeleted (tryToCommitPointers (pointerManager w) entity).1 ->
        entities (ServiceImpl.deployEntityWithServerAndTimestamp this files entityId
                    ethAddress signature server timestampCalculator checkFreshness w).2
          !! id = None.
Proof.
  intros Hok.
  destruct (deploy_cases this files entityId ethAddress signature server
              timestampCalculator checkFreshness w)
    as [(e & Hthrow & _)
       |(entityFile & entity & fresh & w1 & Hfind & Hhash & Hparse & Hc & _ & Hrun)].
  { rewrite Hthrow in Hok. discriminate. }
  exists entityFile, entity. split; [done|]. split; [done|].
  rewrite Hrun in *. simpl in *.
  destruct (negb (ServiceImpl.ignoreValidationErrors this) && _); [discriminate|].
  apply findEntityFile_Ok in Hfind as [_ Hin].
  destruct (commitDeployment_in_deploy this files entityFile entity entityId ethAddress
              signature server timestampCalculator w w1 Hin Hhash Hc)
    as (ts' & w' & -> & Hcache).
  intros id Hid. simpl. rewrite Hcache, lookup_foldl_delete. by rewrite decide_True.
Qed.

(** X10.  Content blobs are written once: a successful deployment whose
    uploaded files are all stored already writes no content blob, and every
    stored blob is what it was. *)
Theorem deploy_of_stored_files_writes_no_blob
    this files entityId ethAddress signature server
    (timestampCalculator : ServiceImpl.TimestampCalculator) checkFreshness w ts :
  (forall file, file ∈ files ->
                is_Some (storage w !! (StorageCategory.CONTENTS, calculateHash file))) ->
  (ServiceImpl.deployEntityWithServerAndTimestamp this files entityId ethAddress
     signature server timestampCalculator checkFreshness w).1 = Ok ts ->
  contentStores
    (effectsSince w
       (ServiceImpl.deployEntityWithServerAndTimestamp this files entityId ethAddress
          signature server timestampCalculator checkFreshness w).2) = []
  ∧ forall hash,
      storage (ServiceImpl.deployEntityWithServerAndTimestamp this files entityId
                 ethAddress signature server timestampCalculator checkFreshness w).2
        !! (StorageCategory.CONTENTS, hash)
      = storage w !! (StorageCategory.CONTENTS, hash).
Proof.
  intros Hstored Hok.
  destruct (deploy_inv this files entityId ethAddress signature server
              timestampCalculator checkFreshness w)
    as [(e & w1 & Hthrow & _)
       |(entityFile & entity & loaded & entries & ts' & w3 & w1 & Hrun & Hfind & Hhash
         & Hparse & Hentries & _ & _ & _ & Hs & _ & _ & _ & He)].
  { rewrite Hthrow in Hok. discriminate. }
  rewrite Hrun. simpl.
  apply findEntityFile_Ok in Hfind as [_ Hin].
  destruct (contentToStore_spec files w entityId _ entries entityFile Hin Hhash Hentries)
    as (_ & Hmem & _ & _).
  assert (Hnone : entries = []).
  { destruct entries as [|[hash content] rest]; [done|]. exfalso.
    destruct (Hmem hash content ltac:(left)) as (Hfree & file & Hfile & <- & _).
    destruct (Hstored file Hfile) as [old Hold]. congruence. }
  subst entries. split.
  - unfold effectsSince. rewrite He, drop_app_length.
    rewrite !contentStores_app, contentStores_CacheSet, contentStores_CacheDelete.
    reflexivity.
  - intros hash. rewrite Hs. simpl. apply lookup_insert_ne. intros [=].
Qed.

(** X11.  What a successful deployment uploaded can be read back: the
    entity file's blob is served by [getContent] under the entity id, and,
    when the pointer commit went through, so is the blob of every uploaded
    file under its hash. *)
Theorem deployed_content_is_served
    this files entityId ethAddress signature server
    (timestampCalculator : ServiceImpl.TimestampCalculator) checkFreshness w ts :
  (ServiceImpl.deployEntityWithServerAndTimestamp this files entityId ethAddress
     signature server timestampCalculator checkFreshness w).1 = Ok ts ->
  ∃ entityFile entity,
    ServiceImpl.findEntityFile files = Ok entityFile
    ∧ fromFile entityFile entityId = Ok entity
    ∧ (∃ content,
         (ServiceImplQueries.getContent entityId
            (ServiceImpl.deployEntityWithServerAndTimestamp this files entityId ethAddress
               signature server timestampCalculator checkFreshness w).2).1 = Ok content)
    ∧ (couldCommit (tryToCommitPointers (pointerManager w) entity).1 = true ->
       forall file, file ∈ files ->
         ∃ content,
           (ServiceImplQueries.getContent (calculateHash file)
              (ServiceImpl.deployEntityWithServerAndTimestamp this files entityId
                 ethAddress signature server timestampCalculator checkFreshness w).2).1
           = Ok content).
Proof.
  intros Hok.
  destruct (deploy_inv this files entityId ethAddress signature server
              timestampCalculator checkFreshness w)
    as [(e & w1 & Hthrow & _)
       |(entityFile & entity & loaded & entries & ts' & w3 & w1 & Hrun & Hfind & Hhash
         & Hparse & Hentries & _ & _ & _ & Hs & _ & _ & _ & _)].
  { rewrite Hthrow in Hok. discriminate. }
  rewrite Hrun. simpl.
  exists entityFile, entity. split; [done|]. split; [done|].
  apply findEntityFile_Ok in Hfind as [_ Hin].
  destruct (contentToStore_spec files w entityId _ entries entityFile Hin Hhash Hentries)
    as (Hnd & _ & Htrue & Hfalse).
  assert (Hserved : forall hash : FileHash,
    is_Some (storage w !! (StorageCategory.CONTENTS, hash)) ∨ hash ∈ entries.*1 ->
    ∃ content, (ServiceImplQueries.getContent hash w1).1 = Ok content).
  { intros hash Hhas.
    unfold ServiceImplQueries.getContent, ServiceImplQueries.storage_getContent.
    rewrite resolveCategory_CONTENTS, Hs.
    rewrite lookup_insert_ne by (intros [=]).
    rewrite lookup_foldl_store by done.
    destruct (JsMap.get hash entries) as [content|] eqn:Hget; [by exists content|].
    destruct Hhas as [[old Hold]|Hkey].
    - rewrite Hold. by exists old.
    - exfalso. by apply (proj1 (JsMap_get_None hash entries)). }
  split.
  - apply Hserved.
    destruct (storage w !! (StorageCategory.CONTENTS, entityId)) as [old|] eqn:Hold;
      [left; by eexists|].
    right.
    destruct (couldCommit (tryToCommitPointers (pointerManager w) entity).1) eqn:Hcommit.
    + rewrite <- Hhash. apply Htrue; [done | done | by rewrite Hhash].
    + destruct Hfalse as [_ Hnew]; [done|].
      destruct Hnew as (file & _ & _ & ->); [done|]. left.
  - intros Hcommit file Hfile. apply Hserved.
    destruct (storage w !! (StorageCategory.CONTENTS, calculateHash file)) as [old|] eqn:Hold;
      [left; by eexists|].
    right. by apply Htrue.
Qed.

(** X12.  The audit record of a successful deployment reads back: where
    parsing undoes printing for that record, [getAuditInfo] for the deployed
    entity answers the deployment timestamp, the address and the signature
    of the deployment, and changes nothing. *)
Theorem deployed_audit_info_reads_back
    this files entityId ethAddress signature server
    (timestampCalculator : ServiceImpl.TimestampCalculator) checkFreshness w ts :
  (ServiceImpl.deployEntityWithServerAndTimestamp this files entityId ethAddress
     signature server timestampCalculator checkFreshness w).1 = Ok ts ->
  parseAuditInfo (stringifyAuditInfo (mkAuditInfo ts ethAddress signature))
    = Ok (mkAuditInfo ts ethAddress signature) ->
  ∃ entityFile entity,
    ServiceImpl.findEntityFile files = Ok entityFile
    ∧ fromFile entityFile entityId = Ok entity
    ∧ ServiceImplQueries.getAuditInfo (entity_type entity) (entity_id entity)
        (ServiceImpl.deployEntityWithServerAndTimestamp this files entityId ethAddress
           signature server timestampCalculator checkFreshness w).2
      = (Ok (mkAuditInfo ts ethAddress signature),
         (ServiceImpl.deployEntityWithServerAndTimestamp this files entityId ethAddress
            signature server timestampCalculator checkFreshness w).2).
Proof.
  intros Hok Hjson.
  destruct (deploy_inv this files entityId ethAddress signature server
              timestampCalculator checkFreshness w)
    as [(e & w1 & Hthrow & _)
       |(entityFile & entity & loaded & entries & ts' & w3 & w1 & Hrun & Hfind & _
         & Hparse & _ & _ & _ & _ & Hs & _ & _ & _ & _)].
  { rewrite Hthrow in Hok. discriminate. }
  rewrite Hrun in *. simpl in *. injection Hok as ->.
  exists entityFile, entity. split; [done|]. split; [done|].
  unfold ServiceImplQueries.getAuditInfo, ServiceImplQueries.storage_getContent, bind, lift.
  rewrite resolveCategory_PROOFS, Hs, lookup_insert_eq, Hjson. reflexivity.
Qed.

(** X13.  A successful deployment hands exactly one record to the
    analytics, and under the local server's name, also when the deployment
    is replayed from another server, whose name goes to the history. *)
Theorem successful_deploy_is_recorded_under_local_name
    this files entityId ethAddress signature server
    (timestampCalculator : ServiceImpl.TimestampCalculator) checkFreshness w ts :
  (ServiceImpl.deployEntityWithServerAndTimestamp this files entityId ethAddress
     signature server timestampCalculator checkFreshness w).1 = Ok ts ->
  ∃ entity,
    analytics (ServiceImpl.deployEntityWithServerAndTimestamp this files entityId
                 ethAddress signature server timestampCalculator checkFreshness w).2
    = analytics w ++ [(ServiceImpl.serverName this, entity, ethAddress)]
    ∧ historyManager (ServiceImpl.deployEntityWithServerAndTimestamp this files entityId
                        ethAddress signature server timestampCalculator checkFreshness w).2
      = newEntityDeployment (historyManager w) server entity ts.
Proof.
  intros Hok.
  destruct (deploy_inv this files entityId ethAddress signature server
              timestampCalculator checkFreshness w)
    as [(e & w1 & Hthrow & _)
       |(entityFile & entity & loaded & entries & ts' & w3 & w1 & Hrun & _ & _
         & _ & _ & _ & _ & _ & _ & _ & Hh & Ha & _)].
  { rewrite Hthrow in Hok. discriminate. }
  rewrite Hrun in *. simpl in *. injection Hok as ->.
  by exists entity.
Qed.

End DeployTheorems.

(* ===================================================================== *)
(** * More on the redirect client                                         *)
(* ===================================================================== *)

(** X14.  [redirectCall] tries the active servers in order: it answers what
    the first server whose call does not throw returns, whatever the servers
    after it would do; it fails exactly when every active server's call
    throws (in particular when there is no active server), and then always
    with its own error, never with a server's. *)
Theorem redirectCall_answers_first_server_that_does_not_throw {T : Type}
    (this : RedirectContentServerClient.t) (call : ContentServerClient -> Outcome T) :
  (forall result,
     RedirectContentServerClient.redirectCall this call = Ok result <->
     ∃ before server after,
       getAllActiveServersInCluster (RedirectContentServerClient.cluster this)
         = before ++ server :: after
       ∧ call server = Ok result
       ∧ forall other, other ∈ before -> ∃ e, call other = Throw e)
  ∧ (forall e,
       RedirectContentServerClient.redirectCall this call = Throw e <->
       e = Error "Failed to distribute call among reachable servers"
       ∧ forall server,
           server ∈ getAllActiveServersInCluster (RedirectContentServerClient.cluster this) ->
           ∃ e', call server = Throw e').
Proof.
  unfold RedirectContentServerClient.redirectCall.
  generalize (getAllActiveServersInCluster (RedirectContentServerClient.cluster this)).
  intros servers. induction servers as [|server rest [IHok IHthrow]]; simpl.
  - split.
    + intros result. split; [discriminate|].
      intros (before & s & after & Heq & _). by destruct before.
    + intros e. split.
      * intros [= <-]. split; [done|]. intros s Hs. by apply elem_of_nil in Hs.
      * intros [-> _]. done.
  - destruct (call server) as [answer|e0] eqn:Hcall.
    + split.
      * intros result. split.
        -- intros [= <-]. exists [], server, rest. split_and!; [done | done |].
           intros other Hother. by apply elem_of_nil in Hother.
        -- intros (before & s & after & Heq & Hs & Hbefore).
           destruct before as [|b before]; simpl in Heq; injection Heq as <- _.
           ++ congruence.
           ++ destruct (Hbefore server ltac:(left)) as [e He]. congruence.
      * intros e. split; [discriminate|].
        intros [_ Hall]. destruct (Hall server ltac:(left)) as [e' He']. congruence.
    + split.
      * intros result. rewrite IHok. split.
        -- intros (before & s & after & -> & Hs & Hbefore).
           exists (server :: before), s, after. split_and!; [done | done |].
           intros other [->|Hother]%elem_of_cons; [by exists e0 | by apply Hbefore].
        -- intros (before & s & after & Heq & Hs & Hbefore).
           destruct before as [|b before]; simpl in Heq; injection Heq as <- Heq.
           ++ congruence.
           ++ exists before, s, after. split_and!; [done | done |].
              intros other Hother. apply Hbefore. by right.
      * intros e. rewrite IHthrow. split.
        -- intros [-> Hall]. split; [done|].
           intros s [->|Hs]%elem_of_cons; [by exists e0 | by apply Hall].
        -- intros [-> Hall]. split; [done|]. intros s Hs. apply Hall. by right.
Qed.

(* ===================================================================== *)
(** * More on the blacklist decorator                                     *)
(* ===================================================================== *)

Lemma foldl_orb (b : bool) (l : list bool) :
  foldl (fun accum currentValue => accum || currentValue) b l = b || existsb id l.
Proof.
  revert b. induction l as [|x l IH]; intros b; simpl.
  - by rewrite orb_false_r.
  - rewrite IH. by rewrite orb_assoc.
Qed.

Lemma existsb_id_true (l : list bool) : existsb id l = true <-> true ∈ l.
Proof.
  induction l as [|x l IH]; simpl.
  - split; [discriminate | intros Hin; by apply elem_of_nil in Hin].
  - rewrite elem_of_cons, <- IH. destruct x; simpl; split; auto.
    + intros [?|?]; [discriminate | done].
Qed.

(** The fold of [hideBlacklisted]: a hash with a blacklisted entry reads
    [false], every other hash reads what it read before. *)
Lemma hideBlacklisted_get
    (blacklisted availability : list (FileHash * bool)) (hash : FileHash) :
  JsMap.get hash (BlacklistServiceDecoratorQueries.hideBlacklisted blacklisted availability)
  = if decide ((hash, true) ∈ blacklisted) then Some false
    else JsMap.get hash availability.
Proof.
  unfold BlacklistServiceDecoratorQueries.hideBlacklisted.
  revert availability. induction blacklisted as [|[h b] rest IH]; intros availability.
  - destruct (decide ((hash, true) ∈ [])) as [Hin|_]; [by apply elem_of_nil in Hin | done].
  - change (foldl ?f availability ((h, b) :: rest))
      with (foldl f (if b then JsMap.set h false availability else availability) rest).
    rewrite IH.
    destruct (decide ((hash, true) ∈ rest)) as [Hin|Hnin].
    + rewrite decide_True by (by right). done.
    + destruct b.
      * destruct (decide (h = hash)) as [->|Hne].
        -- rewrite decide_True by left. apply JsMap_get_set_eq.
        -- rewrite decide_False by (rewrite not_elem_of_cons; split; congruence).
           by apply JsMap_get_set_ne.
      * rewrite decide_False by (rewrite not_elem_of_cons; split; congruence). done.
Qed.

Lemma allOutcomes_Ok {A B : Type} (f : A -> Outcome B) (g : A -> B) (l : list A) :
  (forall a, a ∈ l -> f a = Ok (g a)) -> allOutcomes (map f l) = Ok (map g l).
Proof.
  induction l as [|a l IH]; intros Hall; simpl; [done|].
  rewrite (Hall a) by left. rewrite IH; [done|].
  intros b Hb. apply Hall. by right.
Qed.

Section BlacklistQueryTheorems.
Context `{Collaborators} `{Blacklist}.
Implicit Types (w : World).

(** [areBlacklisted] by the answers of the blacklist. *)
Lemma areBlacklisted_by_answers (targets : list BlacklistTarget) :
  let answers := JsMap.values (areTargetsBlacklisted targets) in
  (BlacklistServiceDecorator.areBlacklisted targets
     = Throw (TypeError "Reduce of empty array with no initial value")
   <-> answers = [])
  ∧ (BlacklistServiceDecorator.areBlacklisted targets = Ok true <-> true ∈ answers)
  ∧ (BlacklistServiceDecorator.areBlacklisted targets = Ok false
     <-> answers ≠ [] ∧ forall answer, answer ∈ answers -> answer = false).
Proof.
  intros answers. unfold BlacklistServiceDecorator.areBlacklisted. fold answers.
  destruct answers as [|first rest]; simpl.
  - split_and!.
    + done.
    + split; [discriminate | intros Hin; by apply elem_of_nil in Hin].
    + split; [discriminate | intros [? _]; done].
  - rewrite foldl_orb. split_and!.
    + split; discriminate.
    + rewrite elem_of_cons, <- existsb_id_true.
      destruct first, (existsb id rest); simpl; split; try done; try (by auto).
      * intros [?|?]; discriminate.
    + split.
      * intros [= Hor]. apply orb_false_elim in Hor as [-> Hrest].
        split; [done|]. intros answer [->|Hin]%elem_of_cons; [done|].
        destruct answer; [|done].
        apply existsb_id_true in Hin. congruence.
      * intros [_ Hall]. rewrite (Hall first) by left. simpl. f_equal.
        destruct (existsb id rest) eqn:Hrest; [|done].
        apply existsb_id_true in Hrest.
        pose proof (Hall true ltac:(by right)). discriminate.
Qed.

(** X15.  [areBlacklisted] tells whether any answer of the blacklist is
    true: it throws the [TypeError] of the empty reduce exactly when the
    blacklist answers about no target, answers true exactly when some answer
    is true, and false exactly when there are answers and all are false. *)
Theorem areBlacklisted_is_any_answer (targets : list BlacklistTarget) :
  let answers := JsMap.values (areTargetsBlacklisted targets) in
  (BlacklistServiceDecorator.areBlacklisted targets
     = Throw (TypeError "Reduce of empty array with no initial value")
   <-> answers = [])
  ∧ (BlacklistServiceDecorator.areBlacklisted targets = Ok true <-> true ∈ answers)
  ∧ (BlacklistServiceDecorator.areBlacklisted targets = Ok false
     <-> answers ≠ [] ∧ forall answer, answer ∈ answers -> answer = false).
Proof. apply areBlacklisted_by_answers. Qed.

(** X16.  The decorator's [deployEntity] only ever refuses: either it is
    the decorated service's [deployEntity], or it throws and the world is
    untouched.  A deployment from a blacklisted address is refused with the
    message naming the address. *)
Theorem blacklist_deploy_refuses_or_delegates
    (service : BlacklistServiceDecorator.MetaverseContentService)
    files entityId ethAddress signature w :
  (BlacklistServiceDecorator.deployEntity service files entityId ethAddress signature w
   = BlacklistServiceDecorator.service_deployEntity service files entityId ethAddress
       signature w
   ∨ ∃ e, BlacklistServiceDecorator.deployEntity service files entityId ethAddress
            signature w = (Throw e, w))
  ∧ (BlacklistServiceDecorator.areBlacklisted [buildAddressTarget ethAddress] = Ok true ->
     BlacklistServiceDecorator.deployEntity service files entityId ethAddress signature w
     = (Throw (Error ("Can't allow a deployment from address '" +:+ ethAddress
                      +:+ "' since it was blacklisted.")), w)).
Proof.
  unfold BlacklistServiceDecorator.deployEntity.
  split.
  - unfold bind, lift, throw.
    destruct (BlacklistServiceDecorator.areBlacklisted [buildAddressTarget ethAddress])
      as [[|]|e]; [right; by eexists | | right; by eexists].
    destruct (ServiceImpl.findEntityFile files) as [entityFile|e]; [|right; by eexists].
    destruct (fromFile entityFile entityId) as [entity|e]; [|right; by eexists].
    destruct (BlacklistServiceDecorator.areBlacklisted (map buildContentTarget _))
      as [[|]|e]; [right; by eexists | | right; by eexists].
    destruct (BlacklistServiceDecorator.areBlacklisted (map _ (entity_pointers entity)))
      as [[|]|e]; [right; by eexists | | right; by eexists].
    by left.
  - intros Haddress. unfold bind at 1, lift at 1. rewrite Haddress. reflexivity.
Qed.

(** X17.  The decorator's [getContent] hides a hash as soon as the
    blacklist marks its content target or its entity target of any type: it
    throws "Content not found" and the world is untouched.  When the
    blacklist marks none of them, it is the decorated service's
    [getContent]. *)
Theorem blacklist_getContent_hides_blacklisted_hash
    (entityTypes : list EntityType)
    (service : BlacklistServiceDecoratorQueries.ContentService) (fileHash : FileHash) w :
  let answers :=
    JsMap.values
      (areTargetsBlacklisted
         (map (fun entityType => buildEntityTarget entityType fileHash) entityTypes
          ++ [buildContentTarget fileHash])) in
  (true ∈ answers ->
   BlacklistServiceDecoratorQueries.getContent entityTypes service fileHash w
   = (Throw (Error "Content not found"), w))
  ∧ (answers ≠ [] -> (forall answer, answer ∈ answers -> answer = false) ->
     BlacklistServiceDecoratorQueries.getContent entityTypes service fileHash w
     = BlacklistServiceDecoratorQueries.service_getContent service fileHash w).
Proof.
  intros answers.
  destruct (areBlacklisted_by_answers
              (map (fun entityType => buildEntityTarget entityType fileHash) entityTypes
               ++ [buildContentTarget fileHash])) as (_ & Htrue & Hfalse).
  fold answers in Htrue, Hfalse.
  unfold BlacklistServiceDecoratorQueries.getContent,
    BlacklistServiceDecoratorQueries.isFileHashBlacklisted,
    BlacklistServiceDecoratorQueries.getEntityTargets, bind, lift.
  split.
  - intros Hin. apply Htrue in Hin. rewrite Hin. reflexivity.
  - intros Hsome Hall. rewrite (proj2 Hfalse (conj Hsome Hall)). reflexivity.
Qed.

(** X18.  The decorator's [isContentAvailable], when the blacklist can be
    asked about every hash: a blacklisted hash among those asked is reported
    unavailable, whatever the decorated service says; every other hash is
    reported as the decorated service reports it; the world is the one the
    decorated service left. *)
Theorem blacklist_isContentAvailable_hides_blacklisted_hashes
    (entityTypes : list EntityType)
    (service : BlacklistServiceDecoratorQueries.ContentService)
    (fileHashes : list FileHash) (isBlacklisted : FileHash -> bool)
    (available : list (FileHash * bool)) w w' :
  (forall hash, hash ∈ fileHashes ->
     BlacklistServiceDecoratorQueries.isFileHashBlacklisted entityTypes hash
     = Ok (isBlacklisted hash)) ->
  BlacklistServiceDecoratorQueries.service_isContentAvailable service fileHashes w
    = (Ok available, w') ->
  ∃ answer,
    BlacklistServiceDecoratorQueries.isContentAvailable entityTypes service fileHashes w
      = (Ok answer, w')
    ∧ forall hash,
        JsMap.get hash answer =
        if decide (hash ∈ fileHashes ∧ isBlacklisted hash = true) then Some false
        else JsMap.get hash available.
Proof.
  intros Hblacklist Hinner.
  unfold BlacklistServiceDecoratorQueries.isContentAvailable.
  unfold bind at 1. rewrite Hinner. unfold bind at 1, lift at 1.
  rewrite (allOutcomes_Ok _ (fun hash => (hash, isBlacklisted hash))).
  2: { intros hash Hin. by rewrite Hblacklist. }
  eexists. split; [reflexivity|].
  intros hash. rewrite hideBlacklisted_get.
  destruct (decide (hash ∈ fileHashes ∧ isBlacklisted hash = true)) as [[Hin Hbl]|Hnot].
  - rewrite decide_True; [done|].
    apply JsMap_get_Some_elem.
    rewrite (JsMap_get_of_graph isBlacklisted), decide_True by done. by rewrite Hbl.
  - rewrite decide_False; [done|].
    intros Hmem. apply Hnot.
    apply JsMap_elem_of_entries, list_elem_of_fmap in Hmem as (h & [= -> Hbl] & Hin).
    done.
Qed.

End BlacklistQueryTheorems.

(* ===================================================================== *)
(** * The queries and the orchestrator on the reference collaborators     *)
(* ===================================================================== *)

Lemma getEntityById_caches_witness :
  entities (ServiceImpl.getEntityById (H := Reference.collaborators) "cid:d"
              ReferenceQueries.restartedWorld).2 !! "cid:d"
  = Some (mkEntity "cid:d" "scene" ["0,0"] 100 None None)
  ∧ ServiceImpl.getEntityById (H := Reference.collaborators) "cid:zz"
      ReferenceQueries.restartedWorld
    = (Ok None, ReferenceQueries.restartedWorld)
  ∧ ServiceImpl.getEntityById (H := Reference.collaborators) "cid:d"
      ReferenceQueries.cachedWorld
    = (Ok (Some (mkEntity "cid:d" "scene" ["0,0"] 100 None None)),
       ReferenceQueries.cachedWorld).
Proof.
  split_and!.
  - apply (proj1 (proj2 (getEntityById_caches (H := Reference.collaborators) "cid:d"
                           ReferenceQueries.restartedWorld))).
    vm_compute. reflexivity.
  - apply (proj2 (proj2 (proj2 (getEntityById_caches (H := Reference.collaborators) "cid:zz"
                                  ReferenceQueries.restartedWorld)))).
    + vm_compute. reflexivity.
    + vm_compute. reflexivity.
  - apply (proj1 (getEntityById_caches (H := Reference.collaborators) "cid:d"
                    ReferenceQueries.cachedWorld)).
    vm_compute. reflexivity.
Defined.



Lemma successful_deploy_passed_validations_witness :
  ∃ entityFile entity,
    ServiceImpl.findEntityFile [Reference.entityFile; Reference.imageFile] = Ok entityFile
    ∧ fromFile (Collaborators := Reference.collaborators) entityFile Reference.entityFileId
      = Ok entity
    ∧ validateSignature (Collaborators := Reference.collaborators)
        Reference.entityFileId "0xabc" "sig" = []
    ∧ validateRequestSize (Collaborators := Reference.collaborators)
        [Reference.entityFile; Reference.imageFile] = []
    ∧ validateEntity (Collaborators := Reference.collaborators) entity = []
    ∧ validateAccess (Collaborators := Reference.collaborators)
        (entity_pointers entity) "0xabc" (entity_type entity) = []
    ∧ validateType (Collaborators := Reference.collaborators) entity = []
    ∧ validateHashes (Collaborators := Reference.collaborators) entity
        (ServiceImpl.calculateHashes (H := Reference.collaborators)
           [Reference.entityFile; Reference.imageFile])
        (availability (Reference.emptyWorld 1000)
           (JsMap.keys (ServiceImpl.calculateHashes (H := Reference.collaborators)
                          [Reference.entityFile; Reference.imageFile]))) = [].
Proof.
  apply (successful_deploy_passed_validations (H := Reference.collaborators)
           Reference.service [Reference.entityFile; Reference.imageFile]
           Reference.entityFileId "0xabc" "sig" "Server1" ServiceImpl.Date_now true
           (Reference.emptyWorld 1000) 1000).
  - reflexivity.
  - vm_compute. reflexivity.
Defined.

Lemma refused_sync_deploy_reports_all_findings_witness :
  ServiceImpl.deployEntityWithServerAndTimestamp (H := Reference.collaborators)
    Reference.service [Reference.entityFile; Reference.imageFile] Reference.entityFileId
    "0xabc" "" "Server2" (fun _ => 77) false (Reference.emptyWorld 1000)
  = (Throw (Error "The signature is invalid."), Reference.emptyWorld 1000).
Proof.
  apply (refused_sync_deploy_reports_all_findings (H := Reference.collaborators)
           Reference.service [Reference.entityFile; Reference.imageFile]
           Reference.entityFileId "0xabc" "" "Server2" (fun _ => 77)
           (Reference.emptyWorld 1000) Reference.entityFile
           (mkEntity Reference.entityFileId "scene" ["0,0"] 100 None None)).
  - reflexivity.
  - reflexivity.
  - reflexivity.
  - reflexivity.
  - vm_compute. discriminate.
Defined.


Lemma successful_deploy_evicts_deleted_entities_witness :
  entities ReferenceQueries.cachedWorld !! "cid:d"
  = Some (mkEntity "cid:d" "scene" ["0,0"] 100 None None)
  ∧ ReferenceQueries.overwritingRun.1 = Ok 1000
  ∧ entities ReferenceQueries.overwritingRun.2 !! "cid:d" = None.
Proof.
  assert (Hok : ReferenceQueries.overwritingRun.1 = Ok 1000) by (vm_compute; reflexivity).
  split; [vm_compute; reflexivity|]. split; [exact Hok|].
  destruct (successful_deploy_evicts_deleted_entities (H := Reference.collaborators)
              Reference.service [ReferenceQueries.newerEntityFile]
              ReferenceQueries.newerEntityFileId "0xabc" "sig" "Server1"
              ServiceImpl.Date_now true ReferenceQueries.cachedWorld 1000 Hok)
    as (entityFile & entity & Hfind & Hparse & Hevicted).
  vm_compute in Hfind. injection Hfind as <-.
  vm_compute in Hparse. injection Hparse as <-.
  apply Hevicted. vm_compute. left.
Defined.

Lemma deploy_of_stored_files_writes_no_blob_witness :
  ReferenceQueries.replayedRun.1 = Ok 77
  ∧ contentStores (effectsSince Reference.worldAfterFirstDeploy ReferenceQueries.replayedRun.2)
    = [].
Proof.
  assert (Hok : ReferenceQueries.replayedRun.1 = Ok 77) by (vm_compute; reflexivity).
  split; [exact Hok|].
  apply (deploy_of_stored_files_writes_no_blob (H := Reference.collaborators)
           Reference.service [Reference.entityFile; Reference.imageFile]
           Reference.entityFileId "0xabc" "sig" "Server2" (fun _ => 77) false
           Reference.worldAfterFirstDeploy 77); [|exact Hok].
  intros file Hfile.
  apply elem_of_cons in Hfile as [->|Hfile].
  - vm_compute. eexists. reflexivity.
  - apply list_elem_of_singleton in Hfile as ->. vm_compute. eexists. reflexivity.
Defined.

Lemma deployed_content_is_served_witness :
  (∃ content,
     (ServiceImplQueries.getContent (H := Reference.collaborators)
        (H0 := ReferenceQueries.storageReads) "cid:d" Reference.worldAfterFirstDeploy).1
     = Ok content)
  ∧ (∃ content,
       (ServiceImplQueries.getContent (H := Reference.collaborators)
          (H0 := ReferenceQueries.storageReads)
          (Reference.hashOfContent Reference.imageFile) Reference.worldAfterFirstDeploy).1
       = Ok content).
Proof.
  destruct (deployed_content_is_served (H := Reference.collaborators)
              (H0 := ReferenceQueries.storageReads)
              Reference.service [Reference.entityFile; Reference.imageFile]
              Reference.entityFileId "0xabc" "sig" "Server1" ServiceImpl.Date_now true
              (Reference.emptyWorld 1000) 1000 ltac:(vm_compute; reflexivity))
    as (entityFile & entity & Hfind & Hparse & Hentity & Hall).
  split; [exact Hentity|].
  vm_compute in Hfind. injection Hfind as <-.
  vm_compute in Hparse. injection Hparse as <-.
  apply Hall; [vm_compute; reflexivity|]. right. left.
Defined.

Lemma deployed_audit_info_reads_back_witness :
  (ServiceImplQueries.getAuditInfo (H := Reference.collaborators)
     (H0 := ReferenceQueries.storageReads) "scene" "cid:d" Reference.worldAfterFirstDeploy).1
  = Ok (mkAuditInfo 1000 "0xabc" "sig").
Proof.
  destruct (deployed_audit_info_reads_back (H := Reference.collaborators)
              (H0 := ReferenceQueries.storageReads)
              Reference.service [Reference.entityFile; Reference.imageFile]
              Reference.entityFileId "0xabc" "sig" "Server1" ServiceImpl.Date_now true
              (Reference.emptyWorld 1000) 1000
              ltac:(vm_compute; reflexivity) ltac:(vm_compute; reflexivity))
    as (entityFile & entity & Hfind & Hparse & Hread).
  vm_compute in Hfind. injection Hfind as <-.
  vm_compute in Hparse. injection Hparse as <-.
  exact (f_equal fst Hread).
Defined.

Lemma successful_deploy_is_recorded_under_local_name_witness :
  ∃ entity,
    analytics Reference.shadowedRun.2
    = analytics Reference.worldAfterFirstDeploy ++ [("Server1", entity, "0xabc")]
    ∧ historyManager Reference.shadowedRun.2
      = newEntityDeployment (Collaborators := Reference.collaborators)
          (historyManager Reference.worldAfterFirstDeploy) "Server2" entity 77.
Proof.
  apply (successful_deploy_is_recorded_under_local_name (H := Reference.collaborators)
           Reference.service [Reference.olderEntityFile; Reference.imageFile]
           Reference.olderEntityFileId "0xabc" "sig" "Server2" (fun _ => 77) false
           Reference.worldAfterFirstDeploy 77).
  vm_compute. reflexivity.
Defined.

Lemma blacklist_deploy_refuses_or_delegates_witness :
  BlacklistServiceDecorator.deployEntity
    (H := Reference.collaborators)
    (H0 := Reference.blacklistOf [Reference.AddressTarget "0xabc"])
    Reference.metaverseService [Reference.entityFile] Reference.entityFileId
    "0xabc" "sig" (Reference.emptyWorld 1000)
  = (Throw (Error "Can't allow a deployment from address '0xabc' since it was blacklisted."),
     Reference.emptyWorld 1000).
Proof.
  apply (proj2 (blacklist_deploy_refuses_or_delegates
                  (H := Reference.collaborators)
                  (H0 := Reference.blacklistOf [Reference.AddressTarget "0xabc"])
                  Reference.metaverseService [Reference.entityFile] Reference.entityFileId
                  "0xabc" "sig" (Reference.emptyWorld 1000))).
  reflexivity.
Defined.

Lemma blacklist_getContent_hides_blacklisted_hash_witness :
  BlacklistServiceDecoratorQueries.getContent
    (H := Reference.collaborators)
    (H0 := Reference.blacklistOf [Reference.EntityTarget "profile" "cid:png"])
    ReferenceQueries.entityTypes ReferenceQueries.contentService "cid:png"
    Reference.worldAfterFirstDeploy
  = (Throw (Error "Content not found"), Reference.worldAfterFirstDeploy)
  ∧ BlacklistServiceDecoratorQueries.getContent
      (H := Reference.collaborators)
      (H0 := Reference.blacklistOf [Reference.EntityTarget "profile" "cid:png"])
      ReferenceQueries.entityTypes ReferenceQueries.contentService "cid:d"
      Reference.worldAfterFirstDeploy
    = ServiceImplQueries.getContent (H := Reference.collaborators)
        (H0 := ReferenceQueries.storageReads) "cid:d" Reference.worldAfterFirstDeploy.
Proof.
  split.
  - apply (proj1 (blacklist_getContent_hides_blacklisted_hash
                    (H := Reference.collaborators)
                    (H0 := Reference.blacklistOf [Reference.EntityTarget "profile" "cid:png"])
                    ReferenceQueries.entityTypes ReferenceQueries.contentService "cid:png"
                    Reference.worldAfterFirstDeploy)).
    vm_compute. right. left.
  - apply (proj2 (blacklist_getContent_hides_blacklisted_hash
                    (H := Reference.collaborators)
                    (H0 := Reference.blacklistOf [Reference.EntityTarget "profile" "cid:png"])
                    ReferenceQueries.entityTypes ReferenceQueries.contentService "cid:d"
                    Reference.worldAfterFirstDeploy)).
    + vm_compute. discriminate.
    + vm_compute. intros answer Hanswer.
      repeat (apply elem_of_cons in Hanswer as [->|Hanswer]; [reflexivity|]).
      by apply elem_of_nil in Hanswer.
Defined.

Lemma blacklist_isContentAvailable_hides_blacklisted_hashes_witness :
  ∃ answer,
    BlacklistServiceDecoratorQueries.isContentAvailable
      (H := Reference.collaborators)
      (H0 := Reference.blacklistOf [Reference.ContentTarget "cid:png"])
      ReferenceQueries.entityTypes ReferenceQueries.contentService ["cid:png"; "cid:d"]
      Reference.worldAfterFirstDeploy
    = (Ok answer, Reference.worldAfterFirstDeploy)
    ∧ forall hash,
        JsMap.get hash answer =
        if decide (hash ∈ ["cid:png"; "cid:d"] ∧ bool_decide (hash = "cid:png") = true)
        then Some false
        else JsMap.get hash
               (availability Reference.worldAfterFirstDeploy ["cid:png"; "cid:d"]).
Proof.
  apply (blacklist_isContentAvailable_hides_blacklisted_hashes
           (H := Reference.collaborators)
           (H0 := Reference.blacklistOf [Reference.ContentTarget "cid:png"])
           ReferenceQueries.entityTypes ReferenceQueries.contentService
           ["cid:png"; "cid:d"] (fun hash => bool_decide (hash = "cid:png"))).
  - intros hash Hhash.
    apply elem_of_cons in Hhash as [->|Hhash]; [reflexivity|].
    apply list_elem_of_singleton in Hhash as ->. reflexivity.
  - apply isContentAvailable_run.
Defined.

(** X19.  Locating the entity file does not depend on the order of the
    upload: [findEntityFile] on a reordered list of files gives the same
    file, or throws the same error.  The file it finds is one of the
    uploaded files, is named entity.json, and no other uploaded file is. *)
Theorem findEntityFile_ignores_upload_order (files files' : list File) :
  (files ≡ₚ files' -> ServiceImpl.findEntityFile files' = ServiceImpl.findEntityFile files)
  ∧ (forall entityFile,
       ServiceImpl.findEntityFile files = Ok entityFile ->
       entityFile ∈ files ∧ file_name entityFile = ENTITY_FILE_NAME
       ∧ forall other, other ∈ files -> file_name other = ENTITY_FILE_NAME ->
                       other = entityFile).
Proof.
  split.
  - intros Hperm. unfold ServiceImpl.findEntityFile.
    assert (Hnamed : filter (fun file => file_name file = ENTITY_FILE_NAME) files
                     ≡ₚ filter (fun file => file_name file = ENTITY_FILE_NAME) files')
      by (by rewrite Hperm).
    destruct (filter _ files) as [|f [|g rest]] eqn:Hfiles.
    + apply Permutation_nil_l in Hnamed. by rewrite <- Hnamed.
    + apply Permutation_singleton_l in Hnamed. by rewrite <- Hnamed.
    + apply Permutation_length in Hnamed.
      destruct (filter _ files') as [|f' [|g' rest']]; simpl in Hnamed; [lia | lia | done].
  - intros entityFile Hfound.
    apply findEntityFile_Ok in Hfound as [Hone Hin].
    assert (Hnamed : forall other,
      other ∈ files -> file_name other = ENTITY_FILE_NAME -> other = entityFile).
    { intros other Hother Hname.
      assert (Hmem : other ∈ filter (fun file => file_name file = ENTITY_FILE_NAME) files)
        by (by apply list_elem_of_filter).
      rewrite Hone in Hmem. by apply list_elem_of_singleton in Hmem. }
    split_and!; [done | | done].
    assert (Hmem : entityFile ∈ filter (fun file => file_name file = ENTITY_FILE_NAME) files)
      by (rewrite Hone; left).
    by apply list_elem_of_filter in Hmem as [? _].
Qed.

Lemma findEntityFile_ignores_upload_order_witness :
  ServiceImpl.findEntityFile [Reference.imageFile; Reference.entityFile]
  = ServiceImpl.findEntityFile [Reference.entityFile; Reference.imageFile]
  ∧ (Reference.entityFile ∈ [Reference.entityFile; Reference.imageFile]
     ∧ file_name Reference.entityFile = ENTITY_FILE_NAME
     ∧ forall other, other ∈ [Reference.entityFile; Reference.imageFile] ->
                     file_name other = ENTITY_FILE_NAME -> other = Reference.entityFile).
Proof.
  split.
  - apply (proj1 (findEntityFile_ignores_upload_order
                    [Reference.entityFile; Reference.imageFile]
                    [Reference.imageFile; Reference.entityFile])).
    apply Permutation_swap.
  - apply (proj2 (findEntityFile_ignores_upload_order
                    [Reference.entityFile; Reference.imageFile]
                    [Reference.entityFile; Reference.imageFile]) Reference.entityFile).
    reflexivity.
Defined.
